(** * UPS power-quality filters: a shallow embedding of
      [playbooks/filter_plugins/ups_filters.py]

    The definitions come in five modules, the properties after them.

    - [Py] models the part of the Python runtime the filter plugin relies
      on, with the behaviour of CPython 3.11: text ([str.strip],
      [str.split], [in], the regular expressions of the plugin), number
      parsing ([int], [float]), IEEE-754 doubles (the Standard Library's
      [spec_float] at precision 53, rounding to nearest even), number
      formatting ([str], [repr]) and exceptions (a small error monad).
    - [FilterModule] is the plugin itself, one definition per method, in the
      order of the source; the checks of [analyze_power_quality] are named
      after the comments that introduce them there.
    - [Spec] holds what the specification says in its own words, to be
      compared with the code.
    - [Inputs] holds the concrete inputs of the examples.
    - [Readings] holds the notions the further properties are stated with:
      numerals and lines of [snmpget] output, metric sets of integers, and
      the threshold tables of the filters on integer readings.

    Python text is modelled by [string]: every [ascii] is one code point
    below 256 (so the degree sign is the single character 176, and the two
    characters 194 176 are what the source file really contains).  Values
    are the JSON-shaped objects Ansible hands to a filter; the interpreter's
    limits on memory and recursion depth are not modelled. *)

From Stdlib Require Import ZArith List String Ascii Bool Lia.
From Stdlib Require Import Floats.SpecFloat.
From Stdlib Require DecimalString.
Import ListNotations.

Open Scope string_scope.
Open Scope Z_scope.

(* ====================================================================== *)
(** * The Python runtime, as far as the plugin uses it *)
(* ====================================================================== *)

Module Py.

(** ** Characters and text *)

Definition code (c : ascii) : Z := Z.of_N (N_of_ascii c).

Definition chr (n : Z) : ascii := ascii_of_N (Z.to_N n).

(** [str.isspace], which is also what [str.strip()] removes and what [\s]
    matches in a [str] pattern. *)
Definition isspace (c : ascii) : bool :=
  let n := code c in
  ((9 <=? n) && (n <=? 13)) || ((28 <=? n) && (n <=? 32))
  || (n =? 133) || (n =? 160).

(** The blanks [int()] and [float()] skip around a literal: the file
    separators 28..31 are [isspace] but are refused there. *)
Definition isblank_num (c : ascii) : bool :=
  let n := code c in
  ((9 <=? n) && (n <=? 13)) || (n =? 32) || (n =? 133) || (n =? 160).

(** [\d] and the digits of a number literal. *)
Definition isdigit (c : ascii) : bool :=
  let n := code c in (48 <=? n) && (n <=? 57).

Definition digit_val (c : ascii) : Z := code c - 48.

Fixpoint lstrip_by (p : ascii -> bool) (s : string) : string :=
  match s with
  | String c r => if p c then lstrip_by p r else s
  | EmptyString => EmptyString
  end.

Fixpoint rstrip_by (p : ascii -> bool) (s : string) : string :=
  match s with
  | EmptyString => EmptyString
  | String c r =>
      match rstrip_by p r with
      | EmptyString => if p c then EmptyString else String c EmptyString
      | r' => String c r'
      end
  end.

Definition strip_by (p : ascii -> bool) (s : string) : string :=
  rstrip_by p (lstrip_by p s).

(** [s.strip()] *)
Definition strip (s : string) : string := strip_by isspace s.

(** [s.strip(chars)] *)
Definition mem_chars (chars : string) (c : ascii) : bool :=
  existsb (Ascii.eqb c) (list_ascii_of_string chars).

Definition strip_chars (chars s : string) : string :=
  strip_by (mem_chars chars) s.

(** [needle in hay] *)
Fixpoint contains (needle hay : string) : bool :=
  prefix needle hay
  || match hay with
     | EmptyString => false
     | String _ r => contains needle r
     end.

(** [s.split(sep, 1)] for a one-character separator: one or two parts. *)
Fixpoint split1 (sep : ascii) (s : string) : list string :=
  match s with
  | EmptyString => [EmptyString]
  | String c r =>
      if Ascii.eqb c sep then [EmptyString; r]
      else match split1 sep r with
           | a :: rest => String c a :: rest
           | [] => [s]
           end
  end.

(** [re.sub('^' + tag + '\s*', '', s)]: the pattern is anchored at the start
    of the text, so it removes at most one occurrence of the tag, together
    with all the white space after it. *)
Definition re_sub_tag (tag s : string) : string :=
  if prefix tag s
  then lstrip_by isspace (substring (length tag) (length s - length tag) s)
  else s.

(** The longest run of digits at the start of [s], and what follows. *)
Fixpoint span_digits (s : string) : string * string :=
  match s with
  | String c r =>
      if isdigit c
      then let '(d, rest) := span_digits r in (String c d, rest)
      else (EmptyString, s)
  | EmptyString => (EmptyString, EmptyString)
  end.

Definition nonempty (s : string) : bool :=
  match s with EmptyString => false | _ => true end.

(** A match of [[-+]?\d*\.?\d+] starting exactly at the head of [s].
    A sign, when present, is taken; then all digits; then a point only when
    a digit follows it (otherwise the matcher backtracks to the digits
    alone). *)
Definition re_match_number (s : string) : option string :=
  let '(sign, s1) :=
    match s with
    | String c r =>
        if Ascii.eqb c "-" || Ascii.eqb c "+"
        then (String c EmptyString, r) else (EmptyString, s)
    | EmptyString => (EmptyString, s)
    end in
  let '(d1, s2) := span_digits s1 in
  let whole := if nonempty d1 then Some (sign ++ d1) else None in
  match s2 with
  | String c s3 =>
      if Ascii.eqb c "."
      then let '(d2, _) := span_digits s3 in
           if nonempty d2 then Some (sign ++ d1 ++ "." ++ d2) else whole
      else whole
  | EmptyString => whole
  end.

(** [re.search(r'[-+]?\d*\.?\d+', s)]: the leftmost match, as
    [match.group()]. *)
Fixpoint re_search_number (s : string) : option string :=
  match re_match_number s with
  | Some m => Some m
  | None =>
      match s with
      | EmptyString => None
      | String _ r => re_search_number r
      end
  end.

(** ** Exceptions

    A call either returns or raises; [bind] is sequencing, and
    [try_except] is a [try] block whose handler catches every [Exception]. *)

Inductive exn : Type :=
| AttributeError (msg : string)
| OverflowError (msg : string)
| ValueError (msg : string).

(** [str(e)] *)
Definition exn_str (e : exn) : string :=
  match e with
  | AttributeError msg | OverflowError msg | ValueError msg => msg
  end.

Inductive result (A : Type) : Type :=
| Ok (a : A)
| Raise (e : exn).
Arguments Ok {A} a.
Arguments Raise {A} e.

Definition bind {A B : Type} (m : result A) (k : A -> result B) : result B :=
  match m with
  | Ok a => k a
  | Raise e => Raise e
  end.

Definition try_except {A : Type} (body : result A) (handler : exn -> result A)
  : result A :=
  match body with
  | Ok a => Ok a
  | Raise e => handler e
  end.

(** ** Integers *)

(** [str(n)] for an [int]. *)
Definition str_of_int (n : Z) : string :=
  DecimalString.NilZero.string_of_int (Z.to_int n).

Definition Z_of_digits (s : string) : Z :=
  fold_left (fun acc c => acc * 10 + digit_val c) (list_ascii_of_string s) 0.

(** Digits after the first one of a digit group: [("_"? digit)*].  The
    result is the digits read (without the underscores) and the rest. *)
Fixpoint digitpart_tail (s : string) : string * string :=
  match s with
  | String c r =>
      if isdigit c
      then let '(d, rest) := digitpart_tail r in (String c d, rest)
      else if Ascii.eqb c "_"
      then match r with
           | String c2 r2 =>
               if isdigit c2
               then let '(d, rest) := digitpart_tail r2 in (String c2 d, rest)
               else (EmptyString, s)
           | EmptyString => (EmptyString, s)
           end
      else (EmptyString, s)
  | EmptyString => (EmptyString, EmptyString)
  end.

(** A digit group [digit ("_"? digit)*]. *)
Definition digitpart (s : string) : option (string * string) :=
  match s with
  | String c r =>
      if isdigit c
      then let '(d, rest) := digitpart_tail r in Some (String c d, rest)
      else None
  | EmptyString => None
  end.

(** An optional sign: [true] for minus. *)
Definition read_sign (s : string) : bool * string :=
  match s with
  | String c r =>
      if Ascii.eqb c "-" then (true, r)
      else if Ascii.eqb c "+" then (false, r)
      else (false, s)
  | EmptyString => (false, s)
  end.

(** [sys.get_int_max_str_digits()], the default of CPython 3.11. *)
Definition int_max_str_digits : nat := 4300.

(** [int(s)] for text; [None] is [ValueError]. *)
Definition int_of_str (s : string) : option Z :=
  let '(neg, body) := read_sign (strip_by isblank_num s) in
  match digitpart body with
  | Some (d, EmptyString) =>
      if Nat.ltb int_max_str_digits (length d) then None
      else Some (if neg then - Z_of_digits d else Z_of_digits d)
  | _ => None
  end.

(** ** Floating-point numbers: IEEE-754 binary64 *)

Definition prec : Z := 53.
Definition emax : Z := 1024.

Definition float : Type := spec_float.

(** The double nearest to the integer [n] (ties to even), or an infinity. *)
Definition round_int (n : Z) : float := binary_normalize prec emax n 0 false.

(** [float(n)] for an [int]; [None] is [OverflowError]. *)
Definition float_of_int (n : Z) : option float :=
  match round_int n with
  | S754_infinity _ => None
  | x => Some x
  end.

(** The double nearest to [(-1)^neg * d * 10^e10], for [0 <= d]. *)
Definition float_of_decimal (neg : bool) (d e10 : Z) : float :=
  match d with
  | Zpos p =>
      if 0 <=? e10
      then round_int ((if neg then Zneg p else Zpos p) * 10 ^ e10)
      else SFdiv prec emax (S754_finite neg p 0)
                           (S754_finite false (Z.to_pos (10 ^ (- e10))) 0)
  | _ => S754_zero neg
  end.

Definition lower (c : ascii) : ascii :=
  let n := code c in if (65 <=? n) && (n <=? 90) then chr (n + 32) else c.

Fixpoint lower_str (s : string) : string :=
  match s with
  | String c r => String (lower c) (lower_str r)
  | EmptyString => EmptyString
  end.

(** The exponent of a float literal: [(e|E) [sign] digitpart], or nothing. *)
Definition read_exponent (s : string) : option (Z * string) :=
  match s with
  | String c r =>
      if Ascii.eqb (lower c) "e"
      then let '(neg, r1) := read_sign r in
           match digitpart r1 with
           | Some (d, rest) =>
               Some (if neg then - Z_of_digits d else Z_of_digits d, rest)
           | None => None
           end
      else Some (0, s)
  | EmptyString => Some (0, s)
  end.

(** [float(s)] for text; [None] is [ValueError]. *)
Definition float_of_str (s : string) : option float :=
  let '(neg, body) := read_sign (strip_by isblank_num s) in
  let name := lower_str body in
  if String.eqb name "inf" || String.eqb name "infinity"
  then Some (S754_infinity neg)
  else if String.eqb name "nan" then Some S754_nan
  else
    let '(ip, r1) :=
      match digitpart body with
      | Some (d, r) => (d, r)
      | None => (EmptyString, body)
      end in
    let '(fp, r2) :=
      match r1 with
      | String c r =>
          if Ascii.eqb c "."
          then match digitpart r with
               | Some (d, r') => (d, r')
               | None => (EmptyString, r)
               end
          else (EmptyString, r1)
      | EmptyString => (EmptyString, r1)
      end in
    if nonempty (ip ++ fp)
    then match read_exponent r2 with
         | Some (ex, EmptyString) =>
             Some (float_of_decimal neg (Z_of_digits (ip ++ fp))
                                    (ex - Z.of_nat (length fp)))
         | _ => None
         end
    else None.

(** Truth value of a float: [bool(x)], false on both zeros only. *)
Definition float_truthy (x : float) : bool :=
  match x with
  | S754_zero _ => false
  | _ => true
  end.

(** [int(x)] for a float: truncation toward zero. *)
Definition int_of_float (x : float) : result Z :=
  match x with
  | S754_nan => Raise (ValueError "cannot convert float NaN to integer")
  | S754_infinity _ =>
      Raise (OverflowError "cannot convert float infinity to integer")
  | S754_zero _ => Ok 0
  | S754_finite s m e =>
      let a := if 0 <=? e then Zpos m * 2 ^ e else Zpos m / 2 ^ (- e) in
      Ok (if s then - a else a)
  end.

(** *** [repr] of a float

    CPython prints the shortest decimal numeral that reads back as the
    same double (and, among the shortest, the nearest one), then lays it
    out without an exponent when the decimal point falls in -3..16 and in
    scientific notation otherwise.  All arithmetic below is exact, on the
    fraction [n/d] that the double stands for. *)

Definition ndigits10 (n : Z) : Z :=
  Z.of_nat (length (DecimalString.NilZero.string_of_int (Z.to_int n))).

(** The decimal point [t] of a positive fraction: [10^(t-1) <= n/d < 10^t]. *)
Definition decpt_of (n d : Z) : Z :=
  if d <=? n then ndigits10 (n / d)
  else
    let dq := ndigits10 (d / n) in
    if d <=? n * 10 ^ (dq - 1) then 2 - dq else 1 - dq.

(** [floor (n/d / 10^k)] *)
Definition scaled_floor (n d k : Z) : Z :=
  if 0 <=? k then n / (d * 10 ^ k) else (n * 10 ^ (- k)) / d.

(** Is [n/d] compared with [(c + 1/2) * 10^k]: below, equal or above? *)
Definition cmp_half (n d c k : Z) : comparison :=
  if 0 <=? k then (2 * n ?= (2 * c + 1) * 10 ^ k * d)
  else (2 * n * 10 ^ (- k) ?= (2 * c + 1) * d).

Definition reads_back (m : positive) (e c k : Z) : bool :=
  match float_of_decimal false c k with
  | S754_finite false m' e' => Pos.eqb m m' && (e =? e')
  | _ => false
  end.

(** The digits [c] and exponent [k] of the numeral [c * 10^k] printed for
    [m * 2^e], trying [p], [p+1], ... significant digits; [t] is the decimal
    point of the value.  With 17 digits the nearest numeral always reads
    back, so that is where the search stops. *)
Fixpoint shortest_from (fuel : nat) (p : Z) (m : positive) (e n d t : Z)
  : Z * Z :=
  let k := t - p in
  let lo := scaled_floor n d k in
  let hi := lo + 1 in
  let nearest :=
    match cmp_half n d lo k with
    | Lt => lo
    | Gt => hi
    | Eq => if Z.even lo then lo else hi
    end in
  match fuel with
  | O => (nearest, k)
  | S fuel' =>
      match reads_back m e lo k, reads_back m e hi k with
      | true, true => (nearest, k)
      | true, false => (lo, k)
      | false, true => (hi, k)
      | false, false => shortest_from fuel' (p + 1) m e n d t
      end
  end.

Definition shortest_digits (m : positive) (e : Z) : string * Z :=
  let n := if 0 <=? e then Zpos m * 2 ^ e else Zpos m in
  let d := if 0 <=? e then 1 else 2 ^ (- e) in
  let '(c, k) := shortest_from 16 1 m e n d (decpt_of n d) in
  (rstrip_by (Ascii.eqb "0") (DecimalString.NilZero.string_of_int (Z.to_int c)),
   ndigits10 c + k).

Fixpoint zeros (n : nat) : string :=
  match n with
  | O => EmptyString
  | S n' => String "0" (zeros n')
  end.

(** Layout of the digits [ds] with decimal point [decpt]
    (value [0.ds * 10^decpt]), as [repr] does it. *)
Definition format_short (ds : string) (decpt : Z) : string :=
  let n := Z.of_nat (length ds) in
  if (decpt <=? -4) || (16 <? decpt) then
    let mant :=
      match ds with
      | String c EmptyString => ds
      | String c r => String c ("." ++ r)
      | EmptyString => ds
      end in
    let ex := decpt - 1 in
    let exs := DecimalString.NilZero.string_of_int (Z.to_int (Z.abs ex)) in
    mant ++ "e" ++ (if ex <? 0 then "-" else "+")
         ++ (if Nat.ltb (length exs) 2 then "0" ++ exs else exs)
  else if decpt <=? 0 then "0." ++ zeros (Z.to_nat (- decpt)) ++ ds
  else if n <=? decpt then ds ++ zeros (Z.to_nat (decpt - n)) ++ ".0"
  else substring 0 (Z.to_nat decpt) ds ++ "."
       ++ substring (Z.to_nat decpt) (Z.to_nat (n - decpt)) ds.

(** [repr(x)], which is also [str(x)] and what an f-string prints. *)
Definition float_repr (x : float) : string :=
  match x with
  | S754_nan => "nan"
  | S754_infinity s => if s then "-inf" else "inf"
  | S754_zero s => if s then "-0.0" else "0.0"
  | S754_finite s m e =>
      let '(ds, decpt) := shortest_digits m e in
      (if s then "-" else EmptyString) ++ format_short ds decpt
  end.

(** Comparisons of a float with an [int] literal of the source; the
    literals used there are all exactly representable. *)
Definition float_lt_int (x : float) (n : Z) : bool :=
  SFltb x (round_int n).
Definition float_gt_int (x : float) (n : Z) : bool :=
  SFltb (round_int n) x.
Definition float_eq_int (x : float) (n : Z) : bool :=
  SFeqb x (round_int n).

(** ** Values

    The objects a filter receives: [None], booleans, integers, floats,
    text, lists, and dictionaries with text keys in insertion order. *)

#[warnings="-register-all"]
Inductive value : Type :=
| VNone
| VBool (b : bool)
| VInt (n : Z)
| VFloat (x : float)
| VStr (s : string)
| VList (xs : list value)
| VDict (kvs : list (string * value)).

Definition dict : Type := list (string * value).

Definition type_name (v : value) : string :=
  match v with
  | VNone => "NoneType"
  | VBool _ => "bool"
  | VInt _ => "int"
  | VFloat _ => "float"
  | VStr _ => "str"
  | VList _ => "list"
  | VDict _ => "dict"
  end.

Definition no_attribute (v : value) (attr : string) : exn :=
  AttributeError
    ("'" ++ type_name v ++ "' object has no attribute '" ++ attr ++ "'").

(** [bool(v)], the test behind [if v:] and [not v]. *)
Definition truthy (v : value) : bool :=
  match v with
  | VNone => false
  | VBool b => b
  | VInt n => negb (n =? 0)
  | VFloat x => float_truthy x
  | VStr s => nonempty s
  | VList xs => match xs with [] => false | _ => true end
  | VDict kvs => match kvs with [] => false | _ => true end
  end.

(** [isinstance(v, (int, float))]; [bool] is a subclass of [int]. *)
Definition is_number (v : value) : bool :=
  match v with
  | VBool _ | VInt _ | VFloat _ => true
  | _ => false
  end.

(** *** Dictionaries *)

Fixpoint dict_lookup (k : string) (d : dict) : option value :=
  match d with
  | [] => None
  | (k', v) :: r => if String.eqb k' k then Some v else dict_lookup k r
  end.

(** [d[k] = v] *)
Fixpoint dict_set (k : string) (v : value) (d : dict) : dict :=
  match d with
  | [] => [(k, v)]
  | (k', v') :: r =>
      if String.eqb k' k then (k, v) :: r else (k', v') :: dict_set k v r
  end.

(** [d.get(k)] on a dictionary the code built itself. *)
Definition dict_get (d : dict) (k : string) : value :=
  match dict_lookup k d with
  | Some v => v
  | None => VNone
  end.

(** [v.get(k, default)] on a value received from outside. *)
Definition get (v : value) (k : string) (default : value) : result value :=
  match v with
  | VDict d =>
      Ok match dict_lookup k d with
         | Some x => x
         | None => default
         end
  | _ => Raise (no_attribute v "get")
  end.

(** [v.items()] *)
Definition items (v : value) : result (list (string * value)) :=
  match v with
  | VDict d => Ok d
  | _ => Raise (no_attribute v "items")
  end.

(** *** [str] and [repr] *)

Definition squote : ascii := "039"%char.
Definition dquote : ascii := "034"%char.
Definition backslash : ascii := "092"%char.

Definition too_many_digits : exn :=
  ValueError
    "Exceeds the limit (4300 digits) for integer string conversion; use sys.set_int_max_str_digits() to increase the limit".

(** [str(n)] with the interpreter's limit on the number of digits. *)
Definition str_of_int_checked (n : Z) : result string :=
  if Z.of_nat int_max_str_digits <? ndigits10 (Z.abs n)
  then Raise too_many_digits
  else Ok (str_of_int n).

Definition hex_digit (n : Z) : ascii :=
  chr (if n <? 10 then 48 + n else 87 + n).

Definition hex_escape (c : ascii) : string :=
  String backslash
    (String "x" (String (hex_digit (code c / 16))
                        (String (hex_digit (code c mod 16)) EmptyString))).

(** [str.isprintable] on one character. *)
Definition isprintable (c : ascii) : bool :=
  let n := code c in
  ((32 <=? n) && (n <=? 126)) || ((161 <=? n) && negb (n =? 173)).

Definition escape_char (quote c : ascii) : string :=
  if Ascii.eqb c quote || Ascii.eqb c backslash
  then String backslash (String c EmptyString)
  else if code c =? 9 then String backslash "t"
  else if code c =? 10 then String backslash "n"
  else if code c =? 13 then String backslash "r"
  else if isprintable c then String c EmptyString
  else hex_escape c.

Fixpoint escape_all (quote : ascii) (s : string) : string :=
  match s with
  | String c r => escape_char quote c ++ escape_all quote r
  | EmptyString => EmptyString
  end.

(** [repr(s)] for text: single quotes, unless the text has a single quote
    and no double quote. *)
Definition repr_str (s : string) : string :=
  let quote :=
    if contains (String squote EmptyString) s
       && negb (contains (String dquote EmptyString) s)
    then dquote else squote in
  String quote (escape_all quote s ++ String quote EmptyString).

Fixpoint join (sep : string) (parts : list string) : string :=
  match parts with
  | [] => EmptyString
  | [a] => a
  | a :: r => a ++ sep ++ join sep r
  end.

(** [repr(v)]; it raises only on an integer of more than 4300 digits. *)
Fixpoint repr (v : value) : result string :=
  match v with
  | VNone => Ok "None"
  | VBool b => Ok (if b then "True" else "False")
  | VInt n => str_of_int_checked n
  | VFloat x => Ok (float_repr x)
  | VStr s => Ok (repr_str s)
  | VList xs =>
      bind ((fix each (l : list value) : result (list string) :=
               match l with
               | [] => Ok []
               | x :: r =>
                   bind (repr x) (fun a =>
                   bind (each r) (fun b => Ok (a :: b)))
               end) xs)
           (fun parts => Ok ("[" ++ join ", " parts ++ "]"))
  | VDict kvs =>
      bind ((fix each (l : list (string * value)) : result (list string) :=
               match l with
               | [] => Ok []
               | (k, x) :: r =>
                   bind (repr x) (fun a =>
                   bind (each r) (fun b =>
                   Ok ((repr_str k ++ ": " ++ a) :: b)))
               end) kvs)
           (fun parts => Ok ("{" ++ join ", " parts ++ "}"))
  end.

(** [str(v)], which is also what an f-string field [{v}] prints. *)
Definition str (v : value) : result string :=
  match v with
  | VStr s => Ok s
  | _ => repr v
  end.

(** ** What the other filters need *)

(** [x - y] and [abs(x)] on floats. *)
Definition float_sub (x y : float) : float := SFsub prec emax x y.

Definition float_abs (x : float) : float := SFabs x.

(** [str.join] brings one more exception, a [TypeError]. *)
Inductive failure : Type :=
| Exn (e : exn)
| TypeError (msg : string).

Inductive outcome (A : Type) : Type :=
| Returned (a : A)
| Raised (e : failure).
Arguments Returned {A} a.
Arguments Raised {A} e.

Definition outcome_bind {A B : Type} (m : outcome A) (k : A -> outcome B)
  : outcome B :=
  match m with
  | Returned a => k a
  | Raised e => Raised e
  end.

Definition of_result {A : Type} (r : result A) : outcome A :=
  match r with
  | Ok a => Returned a
  | Raise e => Raised (Exn e)
  end.

(** The items of a list, which [join] wants to be text; [i] is the index
    of the first one. *)
Fixpoint join_items (i : nat) (xs : list value) : outcome (list string) :=
  match xs with
  | [] => Returned []
  | VStr s :: rest =>
      outcome_bind (join_items (S i) rest) (fun parts => Returned (s :: parts))
  | x :: _ =>
      Raised (TypeError ("sequence item " ++ str_of_int (Z.of_nat i)
                           ++ ": expected str instance, " ++ type_name x
                           ++ " found"))
  end.

(** [sep.join(v)]: a list is joined item by item, a text character by
    character, a dictionary key by key; nothing else is iterable. *)
Definition str_join (sep : string) (v : value) : outcome string :=
  match v with
  | VList xs =>
      outcome_bind (join_items 0 xs) (fun parts => Returned (join sep parts))
  | VStr s =>
      Returned (join sep (map (fun c => String c EmptyString)
                              (list_ascii_of_string s)))
  | VDict kvs => Returned (join sep (map fst kvs))
  | _ => Raised (TypeError "can only join an iterable")
  end.

End Py.

(* ====================================================================== *)
(** * The filter plugin *)
(* ====================================================================== *)

Module FilterModule.
Import Py.

(** ** [parse_snmp_value] *)

Definition type_patterns : list string :=
  ["INTEGER:"; "STRING:"; "Gauge32:"; "Counter32:"; "Opaque:"; "OID:"].

(** The argument of [value_part.strip(...)]: the two quote characters. *)
Definition quote_chars : string := String dquote (String squote EmptyString).

(** Lines 117-133: trim, remove the type indicators, remove the quotes. *)
Definition clean_value_part (part : string) : string :=
  let value_part := strip part in
  let value_part :=
    fold_left (fun v pattern => re_sub_tag pattern v) type_patterns value_part in
  strip_chars quote_chars value_part.

(** Lines 136-141: [float] when there is a point, [int] otherwise, the text
    itself on [ValueError]. *)
Definition convert_value_part (value_part : string) : value :=
  if contains "." value_part
  then match float_of_str value_part with
       | Some x => VFloat x
       | None => VStr value_part
       end
  else match int_of_str value_part with
       | Some n => VInt n
       | None => VStr value_part
       end.

(** [str(raw_value)] at line 113 is outside the inner [try]; inside it only
    [int] and [float] can raise, and their [ValueError] is handled there. *)
Definition parse_snmp_value (raw_value : value) : result value :=
  if negb (truthy raw_value) || is_number raw_value then Ok raw_value
  else
    bind (str raw_value) (fun text =>
    if contains "=" text
    then match split1 "=" text with
         | _ :: part :: _ => Ok (convert_value_part (clean_value_part part))
         | _ => Ok (VStr (strip text))
         end
    else Ok (VStr (strip text))).

(** ** [get_numeric_value]

    The result is [Optional[float]].  Everything after the [None] test runs
    under a bare [except], so an exception ([OverflowError] of [float] on a
    huge [int], [ValueError] of [str]) ends in [return None]. *)
Definition get_numeric_value (v : value) : option float :=
  match v with
  | VNone => None
  | VBool b => float_of_int (if b then 1 else 0)
  | VInt n => float_of_int n
  | VFloat x => Some x
  | _ =>
      match str v with
      | Ok text =>
          match re_search_number text with
          | Some numeric_match => float_of_str numeric_match
          | None => None
          end
      | Raise _ => None
      end
  end.

(** An [Optional[float]] passed on as an argument. *)
Definition of_optional (o : option float) : value :=
  match o with
  | Some x => VFloat x
  | None => VNone
  end.

(** ** [decode_ups_state] *)

Definition state_map : list (Z * string) :=
  [ (1, "Unknown");
    (2, "Normal Operation");
    (3, "On Battery");
    (4, "Smart Boost (Low Voltage Compensation)");
    (5, "Timed Sleeping");
    (6, "Software Bypass");
    (7, "Off");
    (8, "Rebooting");
    (9, "Switched Bypass");
    (10, "Hardware Failure Bypass");
    (11, "Sleeping Until Power Restored");
    (12, "Smart Trim (High Voltage Compensation)") ].

Fixpoint state_map_get (k : Z) (m : list (Z * string)) (default : string)
  : string :=
  match m with
  | [] => default
  | (k', d) :: r => if k' =? k then d else state_map_get k r default
  end.

(** The arguments of [state_map.get] are evaluated first: [int(state_num)]
    raises on an infinity or a NaN, and nothing here catches it. *)
Definition decode_ups_state (state_code : value) : result string :=
  match get_numeric_value state_code with
  | Some state_num =>
      bind (int_of_float state_num) (fun k =>
      Ok (state_map_get k state_map
            ("Unknown State (" ++ float_repr state_num ++ ")")))
  | None => Ok "State Unknown"
  end.

(** ** [calculate_quality_score]

    The score is a float whose value is an integer; it is kept as one.
    (Subtraction of these small integers is exact in binary64 down to
    -2^53, and a score that has become negative stays negative, so the
    value returned is the same for every list.) *)
Definition deduct (score : Z) (issue : string) : Z :=
  if contains "CRITICAL" issue || contains "POWER_FAILURE" issue
  then score - 30
  else if contains "HIGH" issue || contains "COMPENSATION" issue
  then score - 15
  else if contains "MODERATE" issue || contains "WARNING" issue
  then score - 10
  else score - 5.

Definition calculate_quality_score (issues : list string) : Z :=
  match issues with
  | [] => 100
  | _ => Z.max 0 (fold_left deduct issues 100)
  end.

(** ** [generate_recommendations]

    The second argument is not used, as in the source. *)

Definition any_contains (needle : string) (issues : list string) : bool :=
  existsb (contains needle) issues.

Definition generate_recommendations (issues : list string)
    (monitoring_data : value) : list string :=
  ((if any_contains "VOLTAGE_COMPENSATION" issues
   then ["Investigate utility power quality - frequent compensation may indicate upstream issues";
         "Consider installing power conditioning equipment"]
   else [])
  ++ (if any_contains "HIGH_LOAD" issues
      then ["Plan for load redistribution or additional UPS capacity";
            "Review critical vs non-critical load classification"]
      else [])
  ++ (if any_contains "HIGH_TEMPERATURE" issues
      then ["Check UPS ventilation and ambient temperature";
            "Verify UPS internal fans are operational"]
      else [])
  ++ (if any_contains "FREQUENCY" issues
      then ["Contact utility company regarding power quality issues";
            "Consider generator or frequency regulation equipment"]
      else [])
  ++ (match issues with
      | [] => ["UPS operating normally - continue regular monitoring"]
      | _ => []
      end))%list.

(** ** [analyze_power_quality]

    The result is a dictionary with one of two shapes; a key that a shape
    does not have is [None] here. *)
Record analysis : Type := {
  power_quality_issues : list string;
  alerts : list string;
  parsed_snmp_data : option dict;
  ups_state_description : option string;
  analysis_timestamp : option string;
  quality_score : option Z;
  recommendations : option (list string);
  error : option string
}.

(** The lists [issues] and [alerts], which the checks extend in step. *)
Definition findings : Type := (list string * list string)%type.

Definition append_finding (issue alert : string) (f : findings) : findings :=
  ((fst f ++ [issue])%list, (snd f ++ [alert])%list).

(** Lines 35-36: the loop that fills [parsed_data]. *)
Fixpoint parse_items (its : list (string * value)) (parsed_data : dict)
  : result dict :=
  match its with
  | [] => Ok parsed_data
  | (key, raw_value) :: rest =>
      bind (parse_snmp_value raw_value) (fun parsed =>
      parse_items rest (dict_set key parsed parsed_data))
  end.

(** Lines 40-46.  [if input_voltage:] is false on [None] and on zero. *)
Definition check_voltage (input_voltage : option float) (f : findings)
  : findings :=
  match input_voltage with
  | Some v =>
      if float_truthy v then
        if float_lt_int v 200
        then append_finding ("UNDERVOLTAGE: " ++ float_repr v ++ "V")
                            "LOW_VOLTAGE" f
        else if float_gt_int v 250
        then append_finding ("OVERVOLTAGE: " ++ float_repr v ++ "V")
                            "HIGH_VOLTAGE" f
        else f
      else f
  | None => f
  end.

(** [ups_state == n], on the float as extracted. *)
Definition state_is (ups_state : option float) (n : Z) : bool :=
  match ups_state with
  | Some x => float_eq_int x n
  | None => false
  end.

(** Lines 52-60. *)
Definition check_state (ups_state : option float) (f : findings) : findings :=
  if state_is ups_state 4
  then append_finding
         "VOLTAGE_COMPENSATION: Smart Boost (Low Voltage Compensation)"
         "COMPENSATION_ACTIVE" f
  else if state_is ups_state 12
  then append_finding
         "VOLTAGE_COMPENSATION: Smart Trim (High Voltage Compensation)"
         "COMPENSATION_ACTIVE" f
  else if state_is ups_state 3
  then append_finding "POWER_FAILURE: Running on Battery" "ON_BATTERY" f
  else f.

(** Lines 66-72; the f-string of the first branch prints [capacity_watts]. *)
Definition check_load (output_load : option float) (capacity_watts : value)
    (f : findings) : result findings :=
  match output_load with
  | Some l =>
      if float_truthy l then
        if float_gt_int l 80
        then bind (str capacity_watts) (fun cw =>
             Ok (append_finding
                   ("HIGH_LOAD: " ++ float_repr l ++ "% (" ++ cw
                                  ++ "W capacity)")
                   "HIGH_LOAD" f))
        else if float_gt_int l 60
        then Ok (append_finding ("MODERATE_LOAD: " ++ float_repr l ++ "%")
                                "MODERATE_LOAD" f)
        else Ok f
      else Ok f
  | None => Ok f
  end.

(** The unit as the source file spells it: the characters 194 and 176,
    then [C]. *)
Definition temperature_unit : string :=
  String "194"%char (String "176"%char "C").

(** Lines 76-78. *)
Definition check_temperature (battery_temp : option float) (f : findings)
  : findings :=
  match battery_temp with
  | Some t =>
      if float_truthy t && float_gt_int t 35
      then append_finding
             ("HIGH_TEMPERATURE: " ++ float_repr t ++ temperature_unit)
             "HIGH_TEMP" f
      else f
  | None => f
  end.

(** Lines 82-85. *)
Definition check_frequency (input_freq : option float) (f : findings)
  : findings :=
  match input_freq with
  | Some q =>
      if float_truthy q then
        if float_lt_int q 49 || float_gt_int q 51
        then append_finding ("FREQUENCY_DEVIATION: " ++ float_repr q ++ "Hz")
                            "FREQUENCY_ISSUE" f
        else f
      else f
  | None => f
  end.

(** Lines 31-96, the body of the [try]; [now] is
    [datetime.now().isoformat()]. *)
Definition analyze_body (now : string) (monitoring_data : value)
  : result analysis :=
  bind (get monitoring_data "snmp_data" (VDict [])) (fun snmp_data =>
  bind (items snmp_data) (fun its =>
  bind (parse_items its []) (fun parsed_data =>
  let f : findings := ([], []) in
  let input_voltage :=
    get_numeric_value (dict_get parsed_data "input_voltage") in
  let f := check_voltage input_voltage f in
  let ups_state :=
    get_numeric_value (dict_get parsed_data "ups_basic_state") in
  bind (decode_ups_state (of_optional ups_state)) (fun state_info =>
  let f := check_state ups_state f in
  let output_load := get_numeric_value (dict_get parsed_data "output_load") in
  bind (get monitoring_data "capacity_watts" (VInt 1000)) (fun capacity_watts =>
  bind (check_load output_load capacity_watts f) (fun f =>
  let battery_temp :=
    get_numeric_value (dict_get parsed_data "battery_temperature") in
  let f := check_temperature battery_temp f in
  let input_freq :=
    get_numeric_value (dict_get parsed_data "input_frequency") in
  let f := check_frequency input_freq f in
  Ok {| power_quality_issues := fst f;
        alerts := snd f;
        parsed_snmp_data := Some parsed_data;
        ups_state_description := Some state_info;
        analysis_timestamp := Some now;
        quality_score := Some (calculate_quality_score (fst f));
        recommendations :=
          Some (generate_recommendations (fst f) monitoring_data);
        error := None |})))))).

(** Lines 98-103, the handler. *)
Definition analysis_failed (e : exn) : analysis :=
  {| power_quality_issues := ["ANALYSIS_ERROR: " ++ exn_str e];
     alerts := ["ANALYSIS_FAILED"];
     parsed_snmp_data := None;
     ups_state_description := None;
     analysis_timestamp := None;
     quality_score := None;
     recommendations := None;
     error := Some (exn_str e) |}.

Definition analyze_power_quality (now : string) (monitoring_data : value)
  : result analysis :=
  try_except (analyze_body now monitoring_data)
             (fun e => Ok (analysis_failed e)).

(** ** [analyze_voltage]

    The result is the dictionary with the keys [status], [issues] and
    [recommendations].  Nothing here catches the [AttributeError] of [get]. *)
Record voltage_analysis : Type := {
  voltage_status : string;
  voltage_issues : list string;
  voltage_recommendations : list string
}.

(** Lines 199-207. *)
Definition classify_voltage (input_voltage : option float)
    (analysis : voltage_analysis) : voltage_analysis :=
  match input_voltage with
  | Some v =>
      if float_truthy v then
        if float_lt_int v 200
        then {| voltage_status := "critical";
                voltage_issues :=
                  (voltage_issues analysis
                     ++ ["Input voltage critically low"])%list;
                voltage_recommendations :=
                  (voltage_recommendations analysis
                     ++ ["Check utility power quality"])%list |}
        else if float_gt_int v 250
        then {| voltage_status := "critical";
                voltage_issues :=
                  (voltage_issues analysis
                     ++ ["Input voltage critically high"])%list;
                voltage_recommendations :=
                  (voltage_recommendations analysis
                     ++ ["Check for overvoltage conditions"])%list |}
        else analysis
      else analysis
  | None => analysis
  end.

(** [if o:] on an [Optional[float]]. *)
Definition optional_truthy (o : option float) : bool :=
  match o with
  | Some x => float_truthy x
  | None => false
  end.

(** Lines 209-212. *)
Definition compare_voltages (input_voltage output_voltage : option float)
    (analysis : voltage_analysis) : voltage_analysis :=
  match input_voltage, output_voltage with
  | Some i, Some o =>
      if float_truthy i && float_truthy o then
        let voltage_diff := float_abs (float_sub i o) in
        if float_gt_int voltage_diff 10
        then {| voltage_status := voltage_status analysis;
                voltage_issues :=
                  (voltage_issues analysis
                     ++ [("Large voltage difference: "
                            ++ float_repr voltage_diff ++ "V")%string])%list;
                voltage_recommendations := voltage_recommendations analysis |}
        else analysis
      else analysis
  | _, _ => analysis
  end.

Definition analyze_voltage (voltage_data : value) : result voltage_analysis :=
  let analysis := {| voltage_status := "normal";
                     voltage_issues := [];
                     voltage_recommendations := [] |} in
  bind (get voltage_data "input_voltage" VNone) (fun raw_input =>
  let input_voltage := get_numeric_value raw_input in
  bind (get voltage_data "output_voltage" VNone) (fun raw_output =>
  let output_voltage := get_numeric_value raw_output in
  let analysis := classify_voltage input_voltage analysis in
  Ok (compare_voltages input_voltage output_voltage analysis))).

(** ** [analyze_load]

    The result is the dictionary with the keys [status], [utilization] and
    [recommendations].  [capacity_watts] is fetched and not used. *)
Record load_analysis : Type := {
  load_status : string;
  load_utilization : string;
  load_recommendations : list string
}.

(** Lines 227-238. *)
Definition classify_load (load_percent : option float)
    (analysis : load_analysis) : load_analysis :=
  match load_percent with
  | Some l =>
      if float_truthy l then
        if float_gt_int l 80
        then {| load_status := "critical";
                load_utilization := "critical";
                load_recommendations :=
                  (load_recommendations analysis
                     ++ ["Consider load balancing or additional UPS capacity"])%list |}
        else if float_gt_int l 60
        then {| load_status := "warning";
                load_utilization := "high";
                load_recommendations :=
                  (load_recommendations analysis
                     ++ ["Monitor load trends for capacity planning"])%list |}
        else if float_lt_int l 20
        then {| load_status := load_status analysis;
                load_utilization := "low";
                load_recommendations :=
                  (load_recommendations analysis
                     ++ ["UPS may be oversized for current load"])%list |}
        else analysis
      else analysis
  | None => analysis
  end.

Definition analyze_load (load_data capacity_info : value)
  : result load_analysis :=
  let analysis := {| load_status := "normal";
                     load_utilization := "low";
                     load_recommendations := [] |} in
  bind (get load_data "output_load" VNone) (fun raw_load =>
  let load_percent := get_numeric_value raw_load in
  bind (get capacity_info "capacity_watts" (VInt 1000)) (fun capacity_watts =>
  Ok (classify_load load_percent analysis))).

(** ** [format_monitoring_data]

    The result is a dictionary with seventeen keys, all distinct, so the
    two [update] calls overwrite nothing. *)
Record formatted : Type := {
  fmt_timestamp : value;
  fmt_ups_host : value;
  fmt_ip_address : value;
  fmt_status : value;
  fmt_model : value;
  fmt_location : value;
  fmt_input_voltage : option float;
  fmt_output_voltage : option float;
  fmt_input_frequency : option float;
  fmt_output_load : option float;
  fmt_battery_capacity : option float;
  fmt_battery_temperature : option float;
  fmt_ups_state : option float;
  fmt_power_quality_issues : string;
  fmt_alerts : string;
  fmt_quality_score : value;
  fmt_ups_state_description : value
}.

(** [self.get_numeric_value(parsed_data.get(key))] *)
Definition numeric_field (parsed_data : value) (key : string)
  : outcome (option float) :=
  outcome_bind (of_result (get parsed_data key VNone)) (fun raw =>
  Returned (get_numeric_value raw)).

(** ['; '.join(raw_data.get(key, []))] *)
Definition joined_field (raw_data : value) (key : string) : outcome string :=
  outcome_bind (of_result (get raw_data key (VList []))) (fun items =>
  str_join "; " items).

Definition format_monitoring_data (raw_data : value) : outcome formatted :=
  outcome_bind (of_result (get raw_data "timestamp" (VStr EmptyString)))
    (fun timestamp =>
  outcome_bind (of_result (get raw_data "ups_host" (VStr EmptyString)))
    (fun ups_host =>
  outcome_bind (of_result (get raw_data "ip_address" (VStr EmptyString)))
    (fun ip_address =>
  outcome_bind (of_result (get raw_data "status" (VStr "unknown")))
    (fun status =>
  outcome_bind (of_result (get raw_data "model" (VStr "Unknown")))
    (fun model =>
  outcome_bind (of_result (get raw_data "location" (VStr "Unknown")))
    (fun location =>
  outcome_bind (of_result (get raw_data "parsed_snmp_data" (VDict [])))
    (fun parsed_data =>
  outcome_bind (numeric_field parsed_data "input_voltage")
    (fun input_voltage =>
  outcome_bind (numeric_field parsed_data "output_voltage")
    (fun output_voltage =>
  outcome_bind (numeric_field parsed_data "input_frequency")
    (fun input_frequency =>
  outcome_bind (numeric_field parsed_data "output_load")
    (fun output_load =>
  outcome_bind (numeric_field parsed_data "battery_capacity")
    (fun battery_capacity =>
  outcome_bind (numeric_field parsed_data "battery_temperature")
    (fun battery_temperature =>
  outcome_bind (numeric_field parsed_data "ups_basic_state")
    (fun ups_state =>
  outcome_bind (joined_field raw_data "power_quality_issues")
    (fun power_quality_issues =>
  outcome_bind (joined_field raw_data "alerts")
    (fun joined_alerts =>
  outcome_bind (of_result (get raw_data "quality_score" (VInt 0)))
    (fun quality_score =>
  outcome_bind (of_result (get raw_data "ups_state_description"
                               (VStr "Unknown")))
    (fun ups_state_description =>
  Returned {| fmt_timestamp := timestamp;
              fmt_ups_host := ups_host;
              fmt_ip_address := ip_address;
              fmt_status := status;
              fmt_model := model;
              fmt_location := location;
              fmt_input_voltage := input_voltage;
              fmt_output_voltage := output_voltage;
              fmt_input_frequency := input_frequency;
              fmt_output_load := output_load;
              fmt_battery_capacity := battery_capacity;
              fmt_battery_temperature := battery_temperature;
              fmt_ups_state := ups_state;
              fmt_power_quality_issues := power_quality_issues;
              fmt_alerts := joined_alerts;
              fmt_quality_score := quality_score;
              fmt_ups_state_description := ups_state_description |}
  )))))))))))))))))).

(** The dictionary that [analyze_power_quality] returns (lines 88-96 and
    99-103), as the value a caller receives; the score is a float. *)
Definition optional_entry {A : Type} (key : string) (to_value : A -> value)
    (o : option A) : list (string * value) :=
  match o with
  | Some a => [(key, to_value a)]
  | None => []
  end.

Definition text_list (l : list string) : value := VList (map VStr l).

Definition analysis_dict (a : analysis) : value :=
  VDict ([("power_quality_issues", text_list (power_quality_issues a));
          ("alerts", text_list (alerts a))]
         ++ optional_entry "parsed_snmp_data" VDict (parsed_snmp_data a)
         ++ optional_entry "ups_state_description" VStr
                           (ups_state_description a)
         ++ optional_entry "analysis_timestamp" VStr (analysis_timestamp a)
         ++ optional_entry "quality_score"
                           (fun score => VFloat (round_int score))
                           (quality_score a)
         ++ optional_entry "recommendations" text_list (recommendations a)
         ++ optional_entry "error" VStr (error a))%list.

End FilterModule.

(* ====================================================================== *)
(** * What the specification says, in its own words *)
(* ====================================================================== *)

Module Spec.
Import Py.

(** Scorer (4.4): the deduction of one issue, first match wins. *)
Definition deduction (issue : string) : Z :=
  if contains "CRITICAL" issue || contains "POWER_FAILURE" issue then 30
  else if contains "HIGH" issue || contains "COMPENSATION" issue then 15
  else if contains "MODERATE" issue || contains "WARNING" issue then 10
  else 5.

Definition total_deduction (issues : list string) : Z :=
  fold_right (fun issue acc => deduction issue + acc) 0 issues.

(** "Start at 100.0 ... sum all deductions, clamp to a minimum of 0.0." *)
Definition score (issues : list string) : Z :=
  Z.max 0 (100 - total_deduction issues).

(** State Decoder (4.2): the table of the twelve codes. *)
Definition state_description (code : Z) : option string :=
  match code with
  | 1 => Some "Unknown"
  | 2 => Some "Normal Operation"
  | 3 => Some "On Battery"
  | 4 => Some "Smart Boost (Low Voltage Compensation)"
  | 5 => Some "Timed Sleeping"
  | 6 => Some "Software Bypass"
  | 7 => Some "Off"
  | 8 => Some "Rebooting"
  | 9 => Some "Switched Bypass"
  | 10 => Some "Hardware Failure Bypass"
  | 11 => Some "Sleeping Until Power Restored"
  | 12 => Some "Smart Trim (High Voltage Compensation)"
  | _ => None
  end.

(** Evaluator (4.3, step 5): the temperature issue, with the degree sign
    U+00B0 before the [C]. *)
Definition degree_sign : ascii := "176"%char.

Definition high_temperature_issue (t : float) : string :=
  "HIGH_TEMPERATURE: " ++ float_repr t ++ String degree_sign "C".

(** Evaluator (4.3, step 3): the finding of a state code [s], which the
    specification takes after truncation to an integer. *)
Definition state_finding (s : Z) : option (string * string) :=
  match s with
  | 4 => Some ("VOLTAGE_COMPENSATION: Smart Boost (Low Voltage Compensation)",
               "COMPENSATION_ACTIVE")
  | 12 => Some ("VOLTAGE_COMPENSATION: Smart Trim (High Voltage Compensation)",
                "COMPENSATION_ACTIVE")
  | 3 => Some ("POWER_FAILURE: Running on Battery", "ON_BATTERY")
  | _ => None
  end.

(** Evaluator (4.3, step 2): the two voltage issues. *)
Definition is_voltage_issue (issue : string) : bool :=
  prefix "UNDERVOLTAGE: " issue || prefix "OVERVOLTAGE: " issue.

Definition count_voltage_issues (issues : list string) : nat :=
  List.length (filter is_voltage_issue issues).

(** [f'] is [f] with findings appended, none of them a voltage issue. *)
Definition extends_quietly (f f' : list string * list string) : Prop :=
  exists di da,
    fst f' = (fst f ++ di)%list /\ snd f' = (snd f ++ da)%list
    /\ count_voltage_issues di = 0%nat.

(** Data model (3): the values of a RawMetricSet are numbers or text
    (or absent). *)
Definition is_scalar (v : value) : bool :=
  match v with
  | VList _ | VDict _ => false
  | _ => true
  end.

(** Value Normalizer (4.1), as the specification words it: one leading
    type tag, one layer of surrounding quotes. *)
Definition type_tags : list string :=
  ["INTEGER:"; "STRING:"; "Gauge32:"; "Counter32:"; "Opaque:"; "OID:"].

Fixpoint strip_one_tag (tags : list string) (s : string) : string :=
  match tags with
  | [] => s
  | tag :: more =>
      if prefix tag s then re_sub_tag tag s else strip_one_tag more s
  end.

Definition is_quote (c : ascii) : bool :=
  Ascii.eqb c squote || Ascii.eqb c dquote.

Fixpoint drop_last_quote (s : string) : string :=
  match s with
  | EmptyString => EmptyString
  | String c EmptyString => if is_quote c then EmptyString else s
  | String c r => String c (drop_last_quote r)
  end.

Definition strip_one_quote_layer (s : string) : string :=
  drop_last_quote
    match s with
    | String c r => if is_quote c then r else s
    | EmptyString => s
    end.

Definition number_or_text (s : string) : value :=
  if contains "." s
  then match float_of_str s with
       | Some x => VFloat x
       | None => VStr s
       end
  else match int_of_str s with
       | Some n => VInt n
       | None => VStr s
       end.

(** [normalize] of a text that contains [=], after the words of the
    specification. *)
Definition normalize_claimed (text : string) : value :=
  match split1 "=" text with
  | _ :: rest :: _ =>
      number_or_text
        (strip_one_quote_layer (strip_one_tag type_tags (strip rest)))
  | _ => VStr (strip text)
  end.

(** The same step as the code performs it: the six patterns are applied
    one after the other, each at most once, and [str.strip] removes every
    quote character at both ends. *)
Definition cleaned (rest : string) : string :=
  strip_by is_quote
    (re_sub_tag "OID:"
       (re_sub_tag "Opaque:"
          (re_sub_tag "Counter32:"
             (re_sub_tag "Gauge32:"
                (re_sub_tag "STRING:"
                   (re_sub_tag "INTEGER:" (strip rest))))))).

Fixpoint last_char (s : string) : option ascii :=
  match s with
  | EmptyString => None
  | String c EmptyString => Some c
  | String _ r => last_char r
  end.

Definition first_char (s : string) : option ascii :=
  match s with
  | EmptyString => None
  | String c _ => Some c
  end.

(** No quote at this end of the text. *)
Definition not_a_quote (o : option ascii) : bool :=
  match o with
  | Some c => negb (is_quote c)
  | None => true
  end.

End Spec.

(* ====================================================================== *)
(** * Inputs used below *)
(* ====================================================================== *)

Module Inputs.
Import Py.

(** The double 4.5. *)
Definition four_and_a_half : float := S754_finite false 5066549580791808 (-50).

(** [{"snmp_data": {"ups_basic_state": 4.5}}] *)
Definition state_4_5 : value :=
  VDict [("snmp_data", VDict [("ups_basic_state", VFloat four_and_a_half)])].

(** [{"snmp_data": {"ups_basic_state": "upsBasicOutputStatus = 4.5"}}] *)
Definition state_4_5_text : value :=
  VDict [("snmp_data",
          VDict [("ups_basic_state", VStr "upsBasicOutputStatus = 4.5")])].

(** [{"snmp_data": {"battery_temperature": "1.3.6.1 = INTEGER: 40"}}] *)
Definition temperature_40 : value :=
  VDict [("snmp_data",
          VDict [("battery_temperature", VStr "1.3.6.1 = INTEGER: 40")])].

(** The text ["1" + "0" * 400]: an integer numeral beyond the range of a
    double. *)
Definition digits_401 : string := String "1" (zeros 400).

(** [{"snmp_data": {"input_voltage": "1.3.6.1 = INTEGER: 0"}}] *)
Definition voltage_0 : value :=
  VDict [("snmp_data",
          VDict [("input_voltage", VStr "1.3.6.1 = INTEGER: 0")])].

(** The end-to-end example of the specification (section 8). *)
Definition snmp_180 : dict :=
  [("input_voltage", VStr "1.3.6.1 = INTEGER: 180");
   ("ups_basic_state", VStr "1.3.6.1 = INTEGER: 3");
   ("output_load", VStr "1.3.6.1 = INTEGER: 45")].

Definition voltage_180 : value :=
  VDict [("snmp_data", VDict snmp_180); ("capacity_watts", VInt 1500)].

Definition timestamp : string := "2024-01-01T00:00:00".

(** What the evaluator returns on [voltage_180]. *)
Definition analysis_180 : FilterModule.analysis :=
  {| FilterModule.power_quality_issues :=
       ["UNDERVOLTAGE: 180.0V"; "POWER_FAILURE: Running on Battery"];
     FilterModule.alerts := ["LOW_VOLTAGE"; "ON_BATTERY"];
     FilterModule.parsed_snmp_data :=
       Some [("input_voltage", VInt 180); ("ups_basic_state", VInt 3);
             ("output_load", VInt 45)];
     FilterModule.ups_state_description := Some "On Battery";
     FilterModule.analysis_timestamp := Some timestamp;
     FilterModule.quality_score := Some 65;
     FilterModule.recommendations := Some [];
     FilterModule.error := None |}.

(** [{"snmp_data": ["input_voltage", 180]}]: the metrics are not a
    mapping. *)
Definition snmp_data_is_a_list : value :=
  VDict [("snmp_data", VList [VStr "input_voltage"; VInt 180])].

(** [{"snmp_data": {"input_voltage": 180, "ups_basic_state": inf}}] *)
Definition state_infinite : value :=
  VDict [("snmp_data",
          VDict [("input_voltage", VInt 180);
                 ("ups_basic_state", VFloat (S754_infinity false))])].

(** A metric set of two texts whose state is beyond the range of a double:
    [{"input_voltage": "1.3.6.1 = INTEGER: 180",
      "ups_basic_state": "1.3.6.1 = STRING: 1.0e999"}] *)
Definition snmp_state_overflow : dict :=
  [("input_voltage", VStr "1.3.6.1 = INTEGER: 180");
   ("ups_basic_state", VStr "1.3.6.1 = STRING: 1.0e999")].

Definition state_overflow : value :=
  VDict [("snmp_data", VDict snmp_state_overflow)].

End Inputs.

(* ====================================================================== *)
(** * Notions used to state further properties *)
(* ====================================================================== *)

Module Readings.
Import Py FilterModule.

(** ** Text *)

Definition chars (s : string) : list ascii := list_ascii_of_string s.

Definition all_digits (s : string) : bool :=
  forallb isdigit (list_ascii_of_string s).

Definition has_digit (s : string) : bool := existsb isdigit (chars s).

(** One step of reading a decimal numeral, as in [Z_of_digits]. *)
Definition digit_step (acc : Z) (c : ascii) : Z := acc * 10 + digit_val c.

(** The texts the regular expression of [get_numeric_value] can match: an
    optional sign, digits, and possibly a point followed by digits. *)
Definition is_sign (sg : string) : Prop :=
  sg = EmptyString \/ sg = "-" \/ sg = "+".

Inductive number_literal : string -> Prop :=
| literal_int (sg whole : string) :
    is_sign sg -> all_digits whole = true -> whole <> EmptyString ->
    number_literal (sg ++ whole)
| literal_frac (sg whole frac : string) :
    is_sign sg -> all_digits whole = true ->
    all_digits frac = true -> frac <> EmptyString ->
    number_literal (sg ++ whole ++ "." ++ frac).

(** A numeral inside a text is found where the text before it does not
    end with a sign or a point, and the text after it does not start with
    a digit or a point. *)
Definition sign_or_point (c : ascii) : bool :=
  Ascii.eqb c "-" || Ascii.eqb c "+" || Ascii.eqb c ".".

Definition ends_quietly (s : string) : bool :=
  match Spec.last_char s with
  | Some c => negb (sign_or_point c)
  | None => true
  end.

Definition starts_quietly (s : string) : bool :=
  match Spec.first_char s with
  | Some c => negb (isdigit c || Ascii.eqb c ".")
  | None => true
  end.

(** A line of [snmpget] output: [OID = TAG value]. *)
Definition snmp_line (oid tag value : string) : string :=
  oid ++ " = " ++ tag ++ " " ++ value.

(** ** Readings that are integers

    A reading is absent or an integer, as a pre-typed value. *)
Definition reading (r : option Z) : value :=
  match r with
  | Some n => VInt n
  | None => VNone
  end.

Definition small (r : option Z) : Prop :=
  match r with
  | Some n => Z.abs n < 2 ^ 53
  | None => True
  end.

(** Two such readings whose difference is still below 2^53. *)
Definition subtractable (r : option Z) : Prop :=
  match r with
  | Some n => Z.abs n < 2 ^ 52
  | None => True
  end.

(** The findings of the evaluator as a list of (issue, alert) pairs. *)
Definition add_findings (l : list (string * string)) (f : findings)
  : findings :=
  ((fst f ++ map fst l)%list, (snd f ++ map snd l)%list).

Definition voltage_findings (v : option Z) : list (string * string) :=
  match v with
  | Some n =>
      if n =? 0 then []
      else if n <? 200
      then [("UNDERVOLTAGE: " ++ float_repr (round_int n) ++ "V",
             "LOW_VOLTAGE")]
      else if 250 <? n
      then [("OVERVOLTAGE: " ++ float_repr (round_int n) ++ "V",
             "HIGH_VOLTAGE")]
      else []
  | None => []
  end.

Definition state_findings (s : option Z) : list (string * string) :=
  match s with
  | Some n =>
      match Spec.state_finding n with
      | Some finding => [finding]
      | None => []
      end
  | None => []
  end.

Definition load_findings (l : option Z) (capacity : string)
  : list (string * string) :=
  match l with
  | Some n =>
      if 80 <? n
      then [("HIGH_LOAD: " ++ float_repr (round_int n) ++ "% (" ++ capacity
               ++ "W capacity)",
             "HIGH_LOAD")]
      else if 60 <? n
      then [("MODERATE_LOAD: " ++ float_repr (round_int n) ++ "%",
             "MODERATE_LOAD")]
      else []
  | None => []
  end.

Definition temperature_findings (t : option Z) : list (string * string) :=
  match t with
  | Some n =>
      if 35 <? n
      then [("HIGH_TEMPERATURE: " ++ float_repr (round_int n)
               ++ temperature_unit,
             "HIGH_TEMP")]
      else []
  | None => []
  end.

Definition frequency_findings (q : option Z) : list (string * string) :=
  match q with
  | Some n =>
      if n =? 0 then []
      else if (n <? 49) || (51 <? n)
      then [("FREQUENCY_DEVIATION: " ++ float_repr (round_int n) ++ "Hz",
             "FREQUENCY_ISSUE")]
      else []
  | None => []
  end.

(** The capacity as the HIGH_LOAD issue prints it: [capacity_watts] of
    the monitoring data, 1000 when there is none. *)
Definition capacity_text (monitoring_data : value) : string :=
  match get monitoring_data "capacity_watts" (VInt 1000) with
  | Ok capacity_watts =>
      match str capacity_watts with
      | Ok text => text
      | Raise _ => EmptyString
      end
  | Raise _ => EmptyString
  end.

Definition all_findings (v s l t q : option Z) (capacity : string)
  : list (string * string) :=
  (voltage_findings v ++ state_findings s ++ load_findings l capacity
     ++ temperature_findings t ++ frequency_findings q)%list.

(** What the decoder says of an integer state. *)
Definition state_text (s : option Z) : string :=
  match s with
  | Some n =>
      match Spec.state_description n with
      | Some d => d
      | None => "Unknown State (" ++ float_repr (round_int n) ++ ")"
      end
  | None => "State Unknown"
  end.

(** [analyze_voltage] on integer voltages. *)
Definition voltage_table (i o : option Z) : voltage_analysis :=
  let critical :=
    match i with
    | Some n => negb (n =? 0) && ((n <? 200) || (250 <? n))
    | None => false
    end in
  let first :=
    match i with
    | Some n =>
        if n =? 0 then []
        else if n <? 200
        then [("Input voltage critically low", "Check utility power quality")]
        else if 250 <? n
        then [("Input voltage critically high",
               "Check for overvoltage conditions")]
        else []
    | None => []
    end in
  let difference :=
    match i, o with
    | Some n, Some m =>
        if negb (n =? 0) && negb (m =? 0) && (10 <? Z.abs (n - m))
        then ["Large voltage difference: "
                ++ float_repr (round_int (Z.abs (n - m))) ++ "V"]
        else []
    | _, _ => []
    end in
  {| voltage_status := if critical then "critical" else "normal";
     voltage_issues := (map fst first ++ difference)%list;
     voltage_recommendations := map snd first |}.

(** [analyze_load] on an integer load. *)
Definition load_table (l : option Z) : load_analysis :=
  match l with
  | Some n =>
      if n =? 0
      then {| load_status := "normal"; load_utilization := "low";
              load_recommendations := [] |}
      else if 80 <? n
      then {| load_status := "critical"; load_utilization := "critical";
              load_recommendations :=
                ["Consider load balancing or additional UPS capacity"] |}
      else if 60 <? n
      then {| load_status := "warning"; load_utilization := "high";
              load_recommendations :=
                ["Monitor load trends for capacity planning"] |}
      else if n <? 20
      then {| load_status := "normal"; load_utilization := "low";
              load_recommendations :=
                ["UPS may be oversized for current load"] |}
      else {| load_status := "normal"; load_utilization := "low";
              load_recommendations := [] |}
  | None => {| load_status := "normal"; load_utilization := "low";
               load_recommendations := [] |}
  end.

(** ** Metric sets of integers

    A raw metric that carries the integer [n]: the integer itself, or the
    line that [snmpget] prints for it. *)
Inductive integer_metric : value -> Z -> Prop :=
| metric_typed (n : Z) : integer_metric (VInt n) n
| metric_line (oid tag : string) (n : Z) :
    contains "=" oid = false -> In tag type_patterns ->
    integer_metric (VStr (snmp_line oid tag (str_of_int n))) n.

(** The raw metric set [snmp] carries the integers [readings], key by key,
    all below 2^53 in size. *)
Definition integer_metrics (snmp : dict) (readings : list (string * Z))
  : Prop :=
  Forall2 (fun raw r =>
             fst raw = fst r
             /\ integer_metric (snd raw) (snd r)
             /\ Z.abs (snd r) < 2 ^ 53)
          snmp readings.

Fixpoint reading_of (readings : list (string * Z)) (key : string)
  : option Z :=
  match readings with
  | [] => None
  | (k, n) :: rest => if String.eqb k key then Some n else reading_of rest key
  end.

Definition normalized (readings : list (string * Z)) : dict :=
  map (fun r => (fst r, VInt (snd r))) readings.

(** ** Categories

    The place of an issue in the order of evaluation: voltage, state,
    load, temperature, frequency; 0 for anything else. *)
Definition category_rank (issue : string) : nat :=
  if prefix "UNDERVOLTAGE: " issue || prefix "OVERVOLTAGE: " issue then 1
  else if prefix "VOLTAGE_COMPENSATION: " issue
          || prefix "POWER_FAILURE: " issue then 2
  else if prefix "HIGH_LOAD: " issue || prefix "MODERATE_LOAD: " issue then 3
  else if prefix "HIGH_TEMPERATURE: " issue then 4
  else if prefix "FREQUENCY_DEVIATION: " issue then 5
  else 0.

(** [f'] is [f] or [f] with one finding of rank [k] appended. *)
Definition adds_at_most_one (k : nat) (f f' : findings) : Prop :=
  f' = f
  \/ exists issue alert,
       f' = append_finding issue alert f /\ category_rank issue = k.

(** What [format_monitoring_data] makes of a result of the evaluator. *)
Definition formatted_analysis (a : analysis) : formatted :=
  let numeric key :=
    match parsed_snmp_data a with
    | Some parsed => get_numeric_value (dict_get parsed key)
    | None => None
    end in
  {| fmt_timestamp := VStr EmptyString;
     fmt_ups_host := VStr EmptyString;
     fmt_ip_address := VStr EmptyString;
     fmt_status := VStr "unknown";
     fmt_model := VStr "Unknown";
     fmt_location := VStr "Unknown";
     fmt_input_voltage := numeric "input_voltage";
     fmt_output_voltage := numeric "output_voltage";
     fmt_input_frequency := numeric "input_frequency";
     fmt_output_load := numeric "output_load";
     fmt_battery_capacity := numeric "battery_capacity";
     fmt_battery_temperature := numeric "battery_temperature";
     fmt_ups_state := numeric "ups_basic_state";
     fmt_power_quality_issues := join "; " (power_quality_issues a);
     fmt_alerts := join "; " (alerts a);
     fmt_quality_score :=
       match quality_score a with
       | Some score => VFloat (round_int score)
       | None => VInt 0
       end;
     fmt_ups_state_description :=
       match ups_state_description a with
       | Some description => VStr description
       | None => VStr "Unknown"
       end |}.

Definition normal_recommendation : string :=
  "UPS operating normally - continue regular monitoring".

End Readings.

(* ====================================================================== *)
(** * Properties *)
(* ====================================================================== *)

Import Py FilterModule.

(** Closed facts are settled by evaluation, one conjunct at a time. *)
Ltac compute_each :=
  repeat match goal with |- _ /\ _ => split end; vm_compute; reflexivity.

(** ** The runtime model on concrete values *)

Example strip_example :
  strip (String (chr 9) " x y  ") = "x y"
  /\ strip_chars quote_chars "'it's'" = "it's".
Proof. compute_each. Qed.

Example re_search_number_examples :
  re_search_number "Input: 228 V" = Some "228"
  /\ re_search_number "abc-.5x" = Some "-.5"
  /\ re_search_number "1.2.3" = Some "1.2"
  /\ re_search_number "5." = Some "5"
  /\ re_search_number "+-x." = None.
Proof. compute_each. Qed.

Example int_of_str_examples :
  int_of_str " 228 " = Some 228
  /\ int_of_str "-1_000" = Some (-1000)
  /\ int_of_str "22.8" = None
  /\ int_of_str "Smart-UPS 1500" = None.
Proof. compute_each. Qed.

Example float_of_str_examples :
  float_of_str "4.5" = Some Inputs.four_and_a_half
  /\ float_of_str ".5e1" = Some (round_int 5)
  /\ float_of_str "1e400" = Some (S754_infinity false)
  /\ float_of_str "1.2.3" = None
  /\ float_of_str "." = None.
Proof. compute_each. Qed.

Example float_repr_examples :
  float_repr (round_int 180) = "180.0"
  /\ float_repr Inputs.four_and_a_half = "4.5"
  /\ float_repr (float_of_decimal false 1 (-1)) = "0.1"
  /\ float_repr (float_of_decimal true 25 (-6)) = "-2.5e-05"
  /\ float_repr (round_int (10 ^ 16)) = "1e+16"
  /\ float_repr (round_int (2 ^ 53 + 1)) = "9007199254740992.0".
Proof. compute_each. Qed.

Example str_examples :
  str (VList [VInt 1; VFloat Inputs.four_and_a_half; VStr "it's"; VNone])
  = Ok ("[1, 4.5, " ++ String dquote ("it's" ++ String dquote ", None]"))
  /\ str (VDict [("k", VBool true)]) = Ok "{'k': True}"
  /\ str (VInt (10 ^ 4300)) = Raise too_many_digits.
Proof. compute_each. Qed.

(** The end-to-end example of the specification (section 8). *)
Example analyze_power_quality_end_to_end :
  analyze_power_quality Inputs.timestamp Inputs.voltage_180
  = Ok Inputs.analysis_180.
Proof. compute_each. Qed.

(** ** The scorer *)

Lemma deduct_deduction (score : Z) (issue : string) :
  deduct score issue = score - Spec.deduction issue.
Proof.
  unfold deduct, Spec.deduction.
  destruct (contains "CRITICAL" issue || contains "POWER_FAILURE" issue);
    [reflexivity|].
  destruct (contains "HIGH" issue || contains "COMPENSATION" issue);
    [reflexivity|].
  destruct (contains "MODERATE" issue || contains "WARNING" issue);
    reflexivity.
Qed.

Lemma deduction_positive (issue : string) : 5 <= Spec.deduction issue <= 30.
Proof.
  unfold Spec.deduction.
  repeat match goal with |- context [if ?b then _ else _] => destruct b end;
    lia.
Qed.

Lemma total_deduction_nonneg (issues : list string) :
  0 <= Spec.total_deduction issues.
Proof.
  induction issues as [|i r IH]; simpl; [lia|].
  pose proof (deduction_positive i). lia.
Qed.

Lemma fold_deduct (issues : list string) (start : Z) :
  fold_left deduct issues start = start - Spec.total_deduction issues.
Proof.
  revert start.
  induction issues as [|i r IH]; intros start; simpl.
  - lia.
  - rewrite IH, deduct_deduction. lia.
Qed.

(** C2. For every list of issues the score computed by
    [calculate_quality_score] is 100 minus the sum of the per-issue
    deductions (30, 15, 10 or 5, first matching rule wins), clamped below at
    0; it always lies in [0,100]; the empty list scores exactly 100 and the
    single issue "HIGH_LOAD: 85% (1000W capacity)" scores 85. *)
Theorem calculate_quality_score_spec (issues : list string) :
  calculate_quality_score issues = Spec.score issues
  /\ 0 <= calculate_quality_score issues <= 100
  /\ calculate_quality_score [] = 100
  /\ calculate_quality_score ["HIGH_LOAD: 85% (1000W capacity)"] = 85.
Proof.
  assert (E : calculate_quality_score issues = Spec.score issues).
  { unfold calculate_quality_score, Spec.score.
    destruct issues as [|i r]; [reflexivity|].
    now rewrite fold_deduct. }
  split; [exact E|]. split; [|split; reflexivity].
  rewrite E. unfold Spec.score.
  pose proof (total_deduction_nonneg issues). lia.
Qed.

(** ** The evaluator never raises *)

(** C1. Whatever the input value, [analyze_power_quality] returns: when
    the body of its [try] raises an exception [e], the value returned is the
    degraded result with issues exactly ["ANALYSIS_ERROR: <message>"],
    alerts exactly ["ANALYSIS_FAILED"] and the message in the [error] field;
    in particular every input that is not a mapping ends there, with the
    [AttributeError] of the missing [get]. *)
Theorem analyze_power_quality_never_raises (now : string) (md : value) :
  (exists a, analyze_power_quality now md = Ok a)
  /\ (forall e, analyze_body now md = Raise e ->
        exists a,
          analyze_power_quality now md = Ok a
          /\ power_quality_issues a = ["ANALYSIS_ERROR: " ++ exn_str e]
          /\ alerts a = ["ANALYSIS_FAILED"]
          /\ error a = Some (exn_str e))
  /\ ((forall d, md <> VDict d) ->
        exists a,
          analyze_power_quality now md = Ok a
          /\ power_quality_issues a =
               ["ANALYSIS_ERROR: '" ++ type_name md
                  ++ "' object has no attribute 'get'"]
          /\ alerts a = ["ANALYSIS_FAILED"]
          /\ error a =
               Some ("'" ++ type_name md ++ "' object has no attribute 'get'")).
Proof.
  unfold analyze_power_quality, try_except.
  split; [|split].
  - destruct (analyze_body now md); eauto.
  - intros e He. rewrite He. eexists. repeat split.
  - intros Hmd.
    assert (B : analyze_body now md = Raise (no_attribute md "get")).
    { unfold analyze_body.
      destruct md; try reflexivity. now contradiction (Hmd kvs). }
    rewrite B. eexists. repeat split.
Qed.

(** Three ways into the handler: an input that is not a mapping, metrics
    that are not a mapping, and a state whose decoding raises (which also
    loses the undervoltage finding of the same input). *)
Example analyze_power_quality_degraded (now : string) :
  analyze_power_quality now VNone
  = Ok (analysis_failed
          (AttributeError "'NoneType' object has no attribute 'get'"))
  /\ analyze_power_quality now Inputs.snmp_data_is_a_list
     = Ok (analysis_failed
             (AttributeError "'list' object has no attribute 'items'"))
  /\ analyze_power_quality now Inputs.state_infinite
     = Ok (analysis_failed
             (OverflowError "cannot convert float infinity to integer")).
Proof. compute_each. Qed.

(** ** Doubles that are small integers

    [float(n)] is exact for an integer below 2^53 in absolute value, and
    [int] brings it back. *)

Lemma digits2_pos_bounds (m : positive) :
  2 ^ (Zpos (digits2_pos m) - 1) <= Zpos m < 2 ^ Zpos (digits2_pos m).
Proof.
  induction m as [m IH|m IH|]; cbn [digits2_pos].
  - rewrite Pos2Z.inj_succ.
    replace (Z.succ (Zpos (digits2_pos m)) - 1)
      with (Z.succ (Zpos (digits2_pos m) - 1)) by lia.
    rewrite !Z.pow_succ_r by lia. lia.
  - rewrite Pos2Z.inj_succ.
    replace (Z.succ (Zpos (digits2_pos m)) - 1)
      with (Z.succ (Zpos (digits2_pos m) - 1)) by lia.
    rewrite !Z.pow_succ_r by lia. lia.
  - cbn. lia.
Qed.

Lemma digits2_pos_le (m : positive) (n : Z) :
  0 <= n -> Zpos m < 2 ^ n -> Zpos (digits2_pos m) <= n.
Proof.
  intros Hn Hm.
  destruct (Z_le_gt_dec (Zpos (digits2_pos m)) n) as [|G]; [assumption|].
  pose proof (digits2_pos_bounds m) as [L _].
  assert (2 ^ n <= 2 ^ (Zpos (digits2_pos m) - 1))
    by (apply Z.pow_le_mono_r; lia).
  lia.
Qed.

Lemma iter_xO_spec (k m : positive) :
  Zpos (Pos.iter xO m k) = Zpos m * 2 ^ Zpos k
  /\ digits2_pos (Pos.iter xO m k) = (digits2_pos m + k)%positive.
Proof.
  induction k as [|k IH] using Pos.peano_ind.
  - cbn. split; [lia|]. now rewrite Pos.add_1_r.
  - rewrite Pos.iter_succ. destruct IH as [IH1 IH2]. split.
    + rewrite Pos2Z.inj_xO, IH1, Pos2Z.inj_succ, Z.pow_succ_r by lia. lia.
    + cbn [digits2_pos]. rewrite IH2. lia.
Qed.

(** Rounding a mantissa that already has the right exponent changes
    nothing. *)
Lemma binary_round_aux_exact (s : bool) (m : positive) (e : Z) :
  fexp prec emax (Zpos (digits2_pos m) + e) = e -> e <= emax - prec ->
  binary_round_aux prec emax s (Zpos m) e loc_Exact = S754_finite s m e.
Proof.
  intros F B.
  unfold binary_round_aux, shr_fexp. cbn [Zdigits2].
  rewrite F, Z.sub_diag.
  cbn [shr shr_record_of_loc shr_m loc_of_shr_record round_nearest_even
       Zdigits2].
  rewrite F, Z.sub_diag. cbn [shr shr_m].
  apply Z.leb_le in B. now rewrite B.
Qed.

Lemma binary_round_small (s : bool) (p : positive) :
  Zpos p < 2 ^ 53 ->
  exists m e, binary_round prec emax s p 0 = S754_finite s m e
              /\ -52 <= e <= 0 /\ Zpos m = Zpos p * 2 ^ (- e).
Proof.
  intros Hp.
  pose proof (digits2_pos_le p 53 ltac:(lia) Hp) as Hd.
  unfold binary_round.
  replace (Zpos (digits2_pos p) + 0) with (Zpos (digits2_pos p)) by lia.
  assert (F : fexp prec emax (Zpos (digits2_pos p))
              = Zpos (digits2_pos p) - 53).
  { unfold fexp, emin, prec, emax. lia. }
  rewrite F. unfold shl_align.
  remember (Zpos (digits2_pos p) - 53 - 0) as sh eqn:Esh.
  destruct sh as [|k|k]; [| lia |].
  - assert (E : Zpos (digits2_pos p) = 53) by lia.
    exists p, 0. split; [|split; [lia|cbn; lia]].
    apply binary_round_aux_exact.
    + rewrite Z.add_0_r, F. lia.
    + unfold emax, prec. lia.
  - destruct (iter_xO_spec k p) as [V D].
    exists (Pos.iter xO p k), (Zpos (digits2_pos p) - 53).
    assert (K : Zpos k = 53 - Zpos (digits2_pos p)) by lia.
    split; [|split].
    + apply binary_round_aux_exact.
      * rewrite D, Pos2Z.inj_add, K. unfold fexp, emin, prec, emax. lia.
      * unfold emax, prec. lia.
    + lia.
    + rewrite V, K. f_equal. f_equal. lia.
Qed.

Lemma int_of_float_round_int (n : Z) :
  Z.abs n < 2 ^ 53 -> int_of_float (round_int n) = Ok n.
Proof.
  intros Hn. unfold round_int, binary_normalize.
  destruct n as [|p|p]; [reflexivity| |].
  - destruct (binary_round_small false p) as (m & e & R & B & V);
      [exact Hn|].
    rewrite R. unfold int_of_float.
    destruct (Z.leb_spec 0 e) as [L|L].
    + assert (e = 0) by lia. subst e. rewrite V. cbn. f_equal. lia.
    + rewrite V, Z.div_mul; [reflexivity|]. apply Z.pow_nonzero; lia.
  - destruct (binary_round_small true p) as (m & e & R & B & V);
      [exact Hn|].
    rewrite R. unfold int_of_float.
    destruct (Z.leb_spec 0 e) as [L|L].
    + assert (e = 0) by lia. subst e. rewrite V. cbn. f_equal. lia.
    + rewrite V, Z.div_mul; [reflexivity|]. apply Z.pow_nonzero; lia.
Qed.

Lemma float_of_int_small (n : Z) :
  Z.abs n < 2 ^ 53 -> float_of_int n = Some (round_int n).
Proof.
  intros Hn. unfold float_of_int, round_int, binary_normalize.
  destruct n as [|p|p]; [reflexivity| |].
  - destruct (binary_round_small false p) as (m & e & R & _); [exact Hn|].
    now rewrite R.
  - destruct (binary_round_small true p) as (m & e & R & _); [exact Hn|].
    now rewrite R.
Qed.

(** ** The state decoder *)

Lemma state_map_get_spec (k : Z) (default : string) :
  state_map_get k state_map default =
  match Spec.state_description k with
  | Some d => d
  | None => default
  end.
Proof.
  unfold state_map, state_map_get.
  repeat match goal with
         | |- context [?a =? k] =>
             destruct (Z.eqb_spec a k) as [<-|?]; [reflexivity|]
         end.
  destruct k as [|p|p]; try reflexivity.
  do 4 (destruct p as [p|p|]; try reflexivity; try lia).
Qed.

Lemma state_description_none (k : Z) :
  Spec.state_description k = None <-> ~ (1 <= k <= 12).
Proof.
  split.
  - intros H [L U].
    assert (C : k = 1 \/ k = 2 \/ k = 3 \/ k = 4 \/ k = 5 \/ k = 6 \/ k = 7
                \/ k = 8 \/ k = 9 \/ k = 10 \/ k = 11 \/ k = 12) by lia.
    repeat (destruct C as [->|C]; [discriminate H|]). subst k. discriminate H.
  - intros H. destruct k as [|p|p]; try reflexivity.
    do 4 (destruct p as [p|p|]; try reflexivity; try lia).
Qed.

Lemma decode_ups_state_of_number (code : value) (x : float) (k : Z) :
  get_numeric_value code = Some x -> int_of_float x = Ok k ->
  decode_ups_state code =
  Ok match Spec.state_description k with
     | Some d => d
     | None => "Unknown State (" ++ float_repr x ++ ")"
     end.
Proof.
  intros G I. unfold decode_ups_state. rewrite G, I. cbn [bind].
  now rewrite state_map_get_spec.
Qed.

(** C5, as the code has it. [decode_ups_state] passes its input through
    [get_numeric_value]; without a number it answers "State Unknown";
    otherwise it truncates the number toward zero and looks the integer up
    in the table of twelve states, and for an integer outside 1..12 it
    answers "Unknown State (<x>)" where <x> is the extracted number printed
    as a float: the code 4 gives "Smart Boost (Low Voltage Compensation)"
    and the code 99 gives "Unknown State (99.0)". *)
Theorem decode_ups_state_table :
  (forall code, get_numeric_value code = None ->
     decode_ups_state code = Ok "State Unknown")
  /\ (forall code x k,
        get_numeric_value code = Some x -> int_of_float x = Ok k ->
        decode_ups_state code =
        Ok match Spec.state_description k with
           | Some d => d
           | None => "Unknown State (" ++ float_repr x ++ ")"
           end)
  /\ (forall k, Spec.state_description k = None <-> ~ (1 <= k <= 12))
  /\ (forall n, Z.abs n < 2 ^ 53 -> ~ (1 <= n <= 12) ->
        decode_ups_state (VInt n) =
        Ok ("Unknown State (" ++ float_repr (round_int n) ++ ")"))
  /\ decode_ups_state (VInt 4) = Ok "Smart Boost (Low Voltage Compensation)"
  /\ decode_ups_state (VInt 99) = Ok "Unknown State (99.0)"
  /\ decode_ups_state VNone = Ok "State Unknown".
Proof.
  split; [|split; [|split; [|split; [|repeat split]]]].
  - intros code G. unfold decode_ups_state. now rewrite G.
  - exact decode_ups_state_of_number.
  - exact state_description_none.
  - intros n B O.
    rewrite (decode_ups_state_of_number (VInt n) (round_int n) n).
    + apply state_description_none in O. now rewrite O.
    + now apply float_of_int_small.
    + now apply int_of_float_round_int.
Qed.

(** C5 as the specification words it fails: the code 99 does not decode
    to "Unknown State (99)", because the number interpolated is the float. *)
Lemma decode_ups_state_99_prints_float :
  decode_ups_state (VInt 99) = Ok "Unknown State (99.0)"
  /\ decode_ups_state (VInt 99) <> Ok "Unknown State (99)".
Proof.
  split; [reflexivity|]. intros H. vm_compute in H. discriminate H.
Qed.

(** When exactly the decoder raises. *)
Lemma decode_ups_state_raises_iff (code : value) (e : exn) :
  decode_ups_state code = Raise e <->
  exists x, get_numeric_value code = Some x /\ int_of_float x = Raise e.
Proof.
  unfold decode_ups_state. split.
  - destruct (get_numeric_value code) as [x|]; [|discriminate].
    destruct (int_of_float x) as [k|e'] eqn:I; cbn [bind]; [discriminate|].
    intros [= ->]. now exists x.
  - intros (x & G & I). now rewrite G, I.
Qed.

(** C10 fails on the code: [decode_ups_state] raises on an infinity, on a
    NaN, and on a text whose digits denote a number beyond the range of a
    double; and these are the only inputs on which it raises. *)
Theorem decode_ups_state_raises_on_non_finite :
  decode_ups_state (VFloat (S754_infinity false))
  = Raise (OverflowError "cannot convert float infinity to integer")
  /\ decode_ups_state (VFloat S754_nan)
     = Raise (ValueError "cannot convert float NaN to integer")
  /\ decode_ups_state (VStr Inputs.digits_401)
     = Raise (OverflowError "cannot convert float infinity to integer")
  /\ (forall code e,
        decode_ups_state code = Raise e ->
        exists x, get_numeric_value code = Some x
                  /\ (x = S754_nan \/ exists s, x = S754_infinity s)).
Proof.
  split; [reflexivity|]. split; [reflexivity|].
  split; [vm_compute; reflexivity|].
  intros code e H. apply decode_ups_state_raises_iff in H.
  destruct H as (x & G & I). exists x. split; [exact G|].
  destruct x; try discriminate I; eauto.
Qed.

(** ** The state rule of the evaluator *)

(** Floats that compare equal truncate to the same integer. *)
Lemma SFeqb_int_of_float (x y : float) :
  SFeqb x y = true -> int_of_float x = int_of_float y.
Proof.
  unfold SFeqb, SFcompare.
  destruct x as [sx|sx| |sx mx ex], y as [sy|sy| |sy my ey];
    try discriminate; try reflexivity;
    try (destruct sx; discriminate); try (destruct sy; discriminate).
  destruct sx, sy; try discriminate;
    destruct (Z.compare_spec ex ey) as [->| |]; try discriminate;
    rewrite ?Pos.compare_cont_spec; cbn [Pos.switch_Eq];
    destruct (Pos.compare_spec mx my) as [->| |]; try discriminate;
    reflexivity.
Qed.

Lemma SFeqb_refl_round_int (n : Z) :
  Z.abs n < 2 ^ 53 -> SFeqb (round_int n) (round_int n) = true.
Proof.
  intros Hn. unfold round_int, binary_normalize.
  destruct n as [|p|p]; [reflexivity| |].
  - destruct (binary_round_small false p) as (m & e & -> & _); [exact Hn|].
    unfold SFeqb, SFcompare. now rewrite Z.compare_refl, Pos.compare_cont_refl.
  - destruct (binary_round_small true p) as (m & e & -> & _); [exact Hn|].
    unfold SFeqb, SFcompare. now rewrite Z.compare_refl, Pos.compare_cont_refl.
Qed.

(** On integers below 2^53, [==] between the floats is [=] between the
    integers. *)
Lemma float_eq_int_round_int (n k : Z) :
  Z.abs n < 2 ^ 53 -> Z.abs k < 2 ^ 53 ->
  float_eq_int (round_int n) k = (n =? k).
Proof.
  intros Hn Hk. unfold float_eq_int.
  destruct (Z.eqb_spec n k) as [->|N].
  - now apply SFeqb_refl_round_int.
  - destruct (SFeqb (round_int n) (round_int k)) eqn:E; [|reflexivity].
    apply SFeqb_int_of_float in E.
    rewrite !int_of_float_round_int in E by assumption. congruence.
Qed.

(** The part of the state rule that holds: when the state extracted is
    exactly an integer, the evaluator appends the finding the specification
    gives for that integer, and nothing for the integers other than 4, 12
    and 3. *)
Lemma check_state_on_integer (n : Z) (f : findings) :
  Z.abs n < 2 ^ 53 ->
  check_state (Some (round_int n)) f =
  match Spec.state_finding n with
  | Some (issue, alert) => append_finding issue alert f
  | None => f
  end.
Proof.
  intros Hn. unfold check_state, state_is.
  rewrite !float_eq_int_round_int by (assumption || (cbn; lia)).
  destruct (Z.eqb_spec n 4) as [->|N4]; [reflexivity|].
  destruct (Z.eqb_spec n 12) as [->|N12]; [reflexivity|].
  destruct (Z.eqb_spec n 3) as [->|N3]; [reflexivity|].
  destruct n as [|p|p]; try reflexivity.
  do 4 (destruct p as [p|p|]; try reflexivity; try lia).
Qed.

(** C4 fails on the code. For the state value 4.5 the decoder, which
    truncates, reports "Smart Boost (Low Voltage Compensation)", but the
    evaluator compares the untruncated float with 4, 12 and 3 and emits no
    issue and no alert, where the claim demands the Smart Boost finding of
    state 4. The same happens when 4.5 arrives as SNMP text. *)
Theorem state_4_5_decoded_but_not_reported (now : string) :
  int_of_float Inputs.four_and_a_half = Ok 4
  /\ Spec.state_finding 4
     = Some ("VOLTAGE_COMPENSATION: Smart Boost (Low Voltage Compensation)",
             "COMPENSATION_ACTIVE")
  /\ analyze_power_quality now Inputs.state_4_5
     = Ok {| power_quality_issues := [];
             alerts := [];
             parsed_snmp_data :=
               Some [("ups_basic_state", VFloat Inputs.four_and_a_half)];
             ups_state_description :=
               Some "Smart Boost (Low Voltage Compensation)";
             analysis_timestamp := Some now;
             quality_score := Some 100;
             recommendations :=
               Some ["UPS operating normally - continue regular monitoring"];
             error := None |}
  /\ analyze_power_quality now Inputs.state_4_5_text
     = analyze_power_quality now Inputs.state_4_5.
Proof. compute_each. Qed.

(** ** The temperature rule of the evaluator *)

(** C6 fails on the code. For a battery temperature of 40 the issue
    emitted is "HIGH_TEMPERATURE: 40.0" followed by the three characters
    194, 176, [C]: the degree sign is preceded by a stray character 194, so
    the text is not the "HIGH_TEMPERATURE: 40.0" + degree sign + [C] of the
    claim. *)
Theorem high_temperature_unit_is_garbled (now : string) :
  analyze_power_quality now Inputs.temperature_40
  = Ok {| power_quality_issues :=
            ["HIGH_TEMPERATURE: 40.0"
               ++ String "194"%char (String "176"%char "C")];
          alerts := ["HIGH_TEMP"];
          parsed_snmp_data := Some [("battery_temperature", VInt 40)];
          ups_state_description := Some "State Unknown";
          analysis_timestamp := Some now;
          quality_score := Some 85;
          recommendations :=
            Some ["Check UPS ventilation and ambient temperature";
                  "Verify UPS internal fans are operational"];
          error := None |}
  /\ Spec.high_temperature_issue (round_int 40)
     = "HIGH_TEMPERATURE: 40.0" ++ String "176"%char "C"
  /\ "HIGH_TEMPERATURE: 40.0" ++ String "194"%char (String "176"%char "C")
     <> Spec.high_temperature_issue (round_int 40).
Proof.
  split; [vm_compute; reflexivity|].
  split; [vm_compute; reflexivity|].
  intros H. vm_compute in H. discriminate H.
Qed.

(** What the temperature check does in general: above 35 it appends the
    issue and the alert, otherwise nothing. *)
Lemma check_temperature_spec (t : float) (f : findings) :
  check_temperature (Some t) f =
  if float_gt_int t 35
  then append_finding
         ("HIGH_TEMPERATURE: " ++ float_repr t ++ temperature_unit)
         "HIGH_TEMP" f
  else f.
Proof.
  unfold check_temperature.
  destruct (float_truthy t) eqn:T; [reflexivity|].
  destruct t; try discriminate T. reflexivity.
Qed.

(** ** The voltage rule of the evaluator *)

Lemma count_voltage_issues_app (a b : list string) :
  Spec.count_voltage_issues (a ++ b)
  = (Spec.count_voltage_issues a + Spec.count_voltage_issues b)%nat.
Proof.
  unfold Spec.count_voltage_issues.
  now rewrite filter_app, length_app.
Qed.

Lemma extends_quietly_refl (f : findings) : Spec.extends_quietly f f.
Proof.
  exists [], []. now rewrite !app_nil_r.
Qed.

Lemma extends_quietly_trans (f g h : findings) :
  Spec.extends_quietly f g -> Spec.extends_quietly g h ->
  Spec.extends_quietly f h.
Proof.
  intros (di & da & I & A & C) (di' & da' & I' & A' & C').
  exists (di ++ di')%list, (da ++ da')%list.
  rewrite I', A', I, A, <- !app_assoc, count_voltage_issues_app, C, C'.
  repeat split.
Qed.

Lemma append_finding_quiet (issue alert : string) (f : findings) :
  Spec.is_voltage_issue issue = false ->
  Spec.extends_quietly f (append_finding issue alert f).
Proof.
  intros H. exists [issue], [alert]. repeat split.
  unfold Spec.count_voltage_issues. cbn [filter]. now rewrite H.
Qed.

Create HintDb quiet.
#[local] Hint Resolve extends_quietly_refl append_finding_quiet : quiet.

Lemma check_state_quiet (o : option float) (f : findings) :
  Spec.extends_quietly f (check_state o f).
Proof.
  unfold check_state.
  repeat match goal with |- context [if ?b then _ else _] => destruct b end;
    auto with quiet.
Qed.

Lemma check_load_quiet (o : option float) (cw : value) (f f' : findings) :
  check_load o cw f = Ok f' -> Spec.extends_quietly f f'.
Proof.
  unfold check_load.
  destruct o as [l|]; [|intros [= <-]; auto with quiet].
  destruct (float_truthy l); [|intros [= <-]; auto with quiet].
  destruct (float_gt_int l 80).
  - destruct (str cw) as [s|e]; cbn [bind]; [|discriminate].
    intros [= <-]. auto with quiet.
  - destruct (float_gt_int l 60); intros [= <-]; auto with quiet.
Qed.

Lemma check_temperature_quiet (o : option float) (f : findings) :
  Spec.extends_quietly f (check_temperature o f).
Proof.
  unfold check_temperature. destruct o as [t|]; [|auto with quiet].
  destruct (float_truthy t && float_gt_int t 35); auto with quiet.
Qed.

Lemma check_frequency_quiet (o : option float) (f : findings) :
  Spec.extends_quietly f (check_frequency o f).
Proof.
  unfold check_frequency. destruct o as [q|]; [|auto with quiet].
  destruct (float_truthy q); [|auto with quiet].
  destruct (float_lt_int q 49 || float_gt_int q 51); auto with quiet.
Qed.

(** The shape of a completed evaluation. *)
Lemma analyze_body_ok (now : string) (md : value) (a : analysis) :
  analyze_body now md = Ok a ->
  exists snmp parsed state_info f,
    get md "snmp_data" (VDict []) = Ok (VDict snmp)
    /\ parse_items snmp [] = Ok parsed
    /\ Spec.extends_quietly
         (check_voltage
            (get_numeric_value (dict_get parsed "input_voltage")) ([], []))
         f
    /\ a = {| power_quality_issues := fst f;
              alerts := snd f;
              parsed_snmp_data := Some parsed;
              ups_state_description := Some state_info;
              analysis_timestamp := Some now;
              quality_score := Some (calculate_quality_score (fst f));
              recommendations := Some (generate_recommendations (fst f) md);
              error := None |}.
Proof.
  unfold analyze_body.
  destruct (get md "snmp_data" (VDict [])) as [sv|] eqn:G; [|discriminate].
  cbn [bind].
  destruct (items sv) as [snmp|] eqn:I; [|discriminate]. cbn [bind].
  assert (sv = VDict snmp) as ->.
  { destruct sv; try discriminate I. now injection I as ->. }
  destruct (parse_items snmp []) as [parsed|] eqn:P; [|discriminate].
  cbn [bind].
  destruct (decode_ups_state _) as [state_info|]; [|discriminate].
  cbn [bind].
  destruct (get md "capacity_watts" (VInt 1000)) as [cw|]; [|discriminate].
  cbn [bind].
  destruct (check_load _ cw _) as [f3|] eqn:L; [|discriminate].
  cbn [bind]. intros [= <-].
  exists snmp, parsed, state_info. eexists.
  split; [reflexivity|]. split; [exact P|]. split; [|reflexivity].
  eapply extends_quietly_trans; [apply check_state_quiet|].
  eapply extends_quietly_trans; [eapply check_load_quiet, L|].
  eapply extends_quietly_trans; [apply check_temperature_quiet|].
  apply check_frequency_quiet.
Qed.

Lemma analyze_power_quality_ok (now : string) (md : value) (a : analysis) :
  analyze_power_quality now md = Ok a -> error a = None ->
  analyze_body now md = Ok a.
Proof.
  unfold analyze_power_quality, try_except.
  destruct (analyze_body now md) as [a'|e]; [easy|].
  intros [= <-]. discriminate.
Qed.

(** For every input at most one voltage issue comes out. *)
Lemma voltage_issues_at_most_one (now : string) (md : value) (a : analysis) :
  analyze_power_quality now md = Ok a ->
  (Spec.count_voltage_issues (power_quality_issues a) <= 1)%nat.
Proof.
  unfold analyze_power_quality, try_except.
  destruct (analyze_body now md) as [a'|e] eqn:B.
  - intros [= <-].
    destruct (analyze_body_ok _ _ _ B)
      as (snmp & parsed & si & f & _ & _ & (di & da & I & _ & C) & ->).
    cbn [power_quality_issues]. rewrite I, count_voltage_issues_app, C.
    unfold check_voltage, append_finding, Spec.count_voltage_issues.
    destruct (get_numeric_value _) as [v|]; [|cbn; lia].
    destruct (float_truthy v); [|cbn; lia].
    destruct (float_lt_int v 200); [|destruct (float_gt_int v 250)];
      cbn [fst app filter];
      repeat match goal with
             | |- context [if ?b then _ else _] => destruct b
             end;
      cbn [List.length]; lia.
  - intros [= <-]. cbn. lia.
Qed.

(** C3, as the code has it. Take an evaluation that returned [a]. At most
    one of the issues UNDERVOLTAGE and OVERVOLTAGE is among its issues. If
    moreover the evaluation did not end in the degraded result, and the
    normalized [input_voltage] yields the number [v], then: when [v] is
    zero no voltage issue is emitted (a zero reading is skipped like a
    missing one); when [v] is not zero and [v < 200] the first issue is
    "UNDERVOLTAGE: {v}V" and the first alert "LOW_VOLTAGE"; when [v] is not
    below 200 and [v > 250] they are "OVERVOLTAGE: {v}V" and
    "HIGH_VOLTAGE"; no other issue is a voltage issue. *)
Theorem voltage_rule (now : string) (md : value) (a : analysis) :
  analyze_power_quality now md = Ok a ->
  (Spec.count_voltage_issues (power_quality_issues a) <= 1)%nat
  /\ (forall parsed v,
        error a = None ->
        parsed_snmp_data a = Some parsed ->
        get_numeric_value (dict_get parsed "input_voltage") = Some v ->
        (float_truthy v = false ->
           Spec.count_voltage_issues (power_quality_issues a) = 0%nat)
        /\ (float_truthy v = true -> float_lt_int v 200 = true ->
              exists more_issues more_alerts,
                power_quality_issues a
                = ("UNDERVOLTAGE: " ++ float_repr v ++ "V") :: more_issues
                /\ alerts a = "LOW_VOLTAGE" :: more_alerts
                /\ Spec.count_voltage_issues more_issues = 0%nat)
        /\ (float_truthy v = true -> float_lt_int v 200 = false ->
            float_gt_int v 250 = true ->
              exists more_issues more_alerts,
                power_quality_issues a
                = ("OVERVOLTAGE: " ++ float_repr v ++ "V") :: more_issues
                /\ alerts a = "HIGH_VOLTAGE" :: more_alerts
                /\ Spec.count_voltage_issues more_issues = 0%nat)).
Proof.
  intros H. split; [eapply voltage_issues_at_most_one, H|].
  intros parsed v E P V.
  apply analyze_power_quality_ok in H; [|exact E].
  destruct (analyze_body_ok _ _ _ H)
    as (snmp & parsed' & si & f & _ & _ & (di & da & I & A & C) & ->).
  cbn [parsed_snmp_data] in P. injection P as ->.
  cbn [power_quality_issues alerts].
  rewrite I, A. unfold check_voltage. rewrite V.
  split; [|split].
  - intros ->. cbn [fst app]. exact C.
  - intros -> ->. exists di, da. repeat split. exact C.
  - intros -> -> ->. exists di, da. repeat split. exact C.
Qed.

(** C3 as the specification words it fails: a voltage reading of 0 is a
    number below 200, yet no UNDERVOLTAGE issue comes out, because the
    guard [if input_voltage:] treats zero like a missing value. *)
Lemma zero_voltage_is_skipped :
  parse_snmp_value (VStr "1.3.6.1 = INTEGER: 0") = Ok (VInt 0)
  /\ get_numeric_value (VInt 0) = Some (S754_zero false)
  /\ float_lt_int (S754_zero false) 200 = true
  /\ analyze_power_quality Inputs.timestamp Inputs.voltage_0
     = Ok {| power_quality_issues := [];
             alerts := [];
             parsed_snmp_data := Some [("input_voltage", VInt 0)];
             ups_state_description := Some "State Unknown";
             analysis_timestamp := Some Inputs.timestamp;
             quality_score := Some 100;
             recommendations :=
               Some ["UPS operating normally - continue regular monitoring"];
             error := None |}.
Proof. compute_each. Qed.

(** The voltage rule on the end-to-end example of the specification: 180 V
    gives "UNDERVOLTAGE: 180.0V" with "LOW_VOLTAGE". *)
Lemma voltage_rule_at_180 :
  exists more_issues more_alerts,
    power_quality_issues Inputs.analysis_180
    = "UNDERVOLTAGE: 180.0V" :: more_issues
    /\ alerts Inputs.analysis_180 = "LOW_VOLTAGE" :: more_alerts
    /\ Spec.count_voltage_issues more_issues = 0%nat.
Proof.
  destruct (voltage_rule _ _ _ analyze_power_quality_end_to_end) as [_ R].
  destruct (R [("input_voltage", VInt 180); ("ups_basic_state", VInt 3);
               ("output_load", VInt 45)]
              (round_int 180) eq_refl eq_refl eq_refl) as (_ & U & _).
  exact (U eq_refl eq_refl).
Defined.

(** ** Normalization keeps every key *)

Lemma parse_snmp_value_number (v : value) :
  is_number v = true -> parse_snmp_value v = Ok v.
Proof.
  intros N. unfold parse_snmp_value. now rewrite N, orb_true_r.
Qed.

Lemma parse_snmp_value_text_total (s : string) :
  exists y, parse_snmp_value (VStr s) = Ok y.
Proof.
  unfold parse_snmp_value. cbn [truthy is_number str bind].
  rewrite orb_false_r.
  destruct (negb (nonempty s)); [eauto|].
  destruct (contains "=" s); [|eauto].
  destruct (split1 "=" s) as [|? [|? ?]]; eauto.
Qed.

Lemma parse_snmp_value_scalar (v : value) :
  Spec.is_scalar v = true -> exists y, parse_snmp_value v = Ok y.
Proof.
  intros S.
  destruct v; try discriminate S;
    try (eexists; apply parse_snmp_value_number; reflexivity).
  - now exists VNone.
  - apply parse_snmp_value_text_total.
Qed.

Lemma dict_set_fresh (k : string) (v : value) (d : dict) :
  ~ In k (map fst d) -> dict_set k v d = (d ++ [(k, v)])%list.
Proof.
  induction d as [|[k' v'] r IH]; intros N; cbn [dict_set app].
  - reflexivity.
  - cbn [map fst In] in N.
    destruct (String.eqb_spec k' k) as [E|_]; [tauto|].
    rewrite IH by tauto. reflexivity.
Qed.

Lemma parse_items_fresh (its : list (string * value)) (acc : dict) :
  NoDup (map fst acc ++ map fst its) ->
  Forall (fun kv => Spec.is_scalar (snd kv) = true) its ->
  exists parsed,
    parse_items its acc = Ok (acc ++ parsed)%list
    /\ map fst parsed = map fst its
    /\ Forall2 (fun raw_kv kv => parse_snmp_value (snd raw_kv) = Ok (snd kv))
               its parsed.
Proof.
  revert acc.
  induction its as [|[k raw] rest IH]; intros acc N S.
  - exists []. cbn. rewrite app_nil_r. repeat split. constructor.
  - inversion S as [|? ? Sraw Srest]; subst.
    destruct (parse_snmp_value_scalar raw Sraw) as [y Y].
    cbn [parse_items]. rewrite Y. cbn [bind].
    cbn [map fst] in N.
    rewrite dict_set_fresh.
    2:{ apply NoDup_remove_2 in N. intros I. apply N.
        apply in_or_app. now left. }
    destruct (IH (acc ++ [(k, y)])%list) as (parsed & P & K & V).
    + rewrite map_app, <- app_assoc. exact N.
    + exact Srest.
    + exists ((k, y) :: parsed). rewrite P, <- app_assoc. cbn [app].
      split; [reflexivity|]. split.
      * cbn [map fst]. now rewrite K.
      * constructor; [exact Y|exact V].
Qed.

(** C9, as the code has it. For every raw metric set (a mapping, so
    without repeated keys, from names to numbers or text) the normalization
    loop of the evaluator completes, and the normalized mapping has exactly
    the keys of the raw one, in the same order, each with the normalized
    form of its raw value; this mapping is the [parsed_snmp_data] of every
    evaluation of that metric set that did not end in the degraded result
    (a degraded result has no [parsed_snmp_data]). *)
Theorem normalization_keeps_every_key (snmp : dict) :
  NoDup (map fst snmp) ->
  Forall (fun kv => Spec.is_scalar (snd kv) = true) snmp ->
  exists parsed,
    parse_items snmp [] = Ok parsed
    /\ map fst parsed = map fst snmp
    /\ Forall2 (fun raw_kv kv => parse_snmp_value (snd raw_kv) = Ok (snd kv))
               snmp parsed
    /\ (forall now md a,
          get md "snmp_data" (VDict []) = Ok (VDict snmp) ->
          analyze_power_quality now md = Ok a -> error a = None ->
          parsed_snmp_data a = Some parsed).
Proof.
  intros N S.
  destruct (parse_items_fresh snmp [] N S) as (parsed & P & K & V).
  exists parsed. cbn [app] in P. repeat split; try assumption.
  intros now md a G A E.
  apply analyze_power_quality_ok in A; [|exact E].
  destruct (analyze_body_ok _ _ _ A)
    as (snmp' & parsed' & si & f & G' & P' & _ & ->).
  rewrite G in G'. injection G' as <-.
  rewrite P in P'. injection P' as <-. reflexivity.
Qed.

(** The raw metric set of the end-to-end example keeps its three keys. *)
Lemma normalization_keeps_every_key_example :
  exists parsed,
    parse_items Inputs.snmp_180 [] = Ok parsed
    /\ map fst parsed = ["input_voltage"; "ups_basic_state"; "output_load"]
    /\ Forall2 (fun raw_kv kv => parse_snmp_value (snd raw_kv) = Ok (snd kv))
               Inputs.snmp_180 parsed
    /\ (forall now md a,
          get md "snmp_data" (VDict []) = Ok (VDict Inputs.snmp_180) ->
          analyze_power_quality now md = Ok a -> error a = None ->
          parsed_snmp_data a = Some parsed).
Proof.
  apply (normalization_keeps_every_key Inputs.snmp_180).
  - repeat constructor; cbn; intuition discriminate.
  - repeat constructor.
Defined.

(** The claim as written fails on an evaluation that ends in the degraded
    result: this metric set is a mapping of two texts, both normalize (the
    state to an infinity), and the result of the evaluator has no
    [parsed_snmp_data] at all, as [int] raised on the infinity. *)
Lemma normalization_lost_in_degraded_result :
  NoDup (map fst Inputs.snmp_state_overflow)
  /\ Forall (fun kv => Spec.is_scalar (snd kv) = true)
            Inputs.snmp_state_overflow
  /\ get Inputs.state_overflow "snmp_data" (VDict [])
     = Ok (VDict Inputs.snmp_state_overflow)
  /\ parse_items Inputs.snmp_state_overflow []
     = Ok [("input_voltage", VInt 180);
           ("ups_basic_state", VFloat (S754_infinity false))]
  /\ analyze_power_quality Inputs.timestamp Inputs.state_overflow
     = Ok (analysis_failed
             (OverflowError "cannot convert float infinity to integer"))
  /\ parsed_snmp_data
       (analysis_failed
          (OverflowError "cannot convert float infinity to integer"))
     = None.
Proof.
  split; [repeat constructor; cbn; intuition discriminate|].
  split; [repeat constructor|].
  compute_each.
Qed.

(** ** The value normalizer on text *)

Lemma prefix_single (sep c : ascii) (r : string) :
  prefix (String sep EmptyString) (String c r) = Ascii.eqb c sep.
Proof.
  cbn [prefix].
  destruct (ascii_dec sep c) as [->|N].
  - rewrite Ascii.eqb_refl. now destruct r.
  - symmetry. apply Ascii.eqb_neq. congruence.
Qed.

(** [split("=", 1)] cuts at the first separator. *)
Lemma split1_first (sep : ascii) (s : string) :
  contains (String sep EmptyString) s = true ->
  exists before rest,
    split1 sep s = [before; rest]
    /\ s = before ++ String sep rest
    /\ contains (String sep EmptyString) before = false.
Proof.
  induction s as [|c r IH]; intros C.
  - discriminate C.
  - cbn [contains] in C. rewrite prefix_single in C. cbn [split1].
    destruct (Ascii.eqb_spec c sep) as [->|N].
    + exists EmptyString, r. repeat split.
    + cbn [orb] in C. destruct (IH C) as (b & rest & S & E & NB).
      exists (String c b), rest. rewrite S. split; [reflexivity|]. split.
      * cbn [append]. now rewrite <- E.
      * cbn [contains]. rewrite prefix_single, NB.
        apply Ascii.eqb_neq in N. now rewrite N.
Qed.

Lemma lstrip_by_ext (p q : ascii -> bool) (s : string) :
  (forall c, p c = q c) -> lstrip_by p s = lstrip_by q s.
Proof.
  intros E. induction s as [|c r IH]; cbn [lstrip_by]; [reflexivity|].
  now rewrite E, IH.
Qed.

Lemma rstrip_by_ext (p q : ascii -> bool) (s : string) :
  (forall c, p c = q c) -> rstrip_by p s = rstrip_by q s.
Proof.
  intros E. induction s as [|c r IH]; cbn [rstrip_by]; [reflexivity|].
  now rewrite E, IH.
Qed.

Lemma mem_quote_chars (c : ascii) : mem_chars quote_chars c = Spec.is_quote c.
Proof.
  unfold mem_chars, quote_chars, Spec.is_quote.
  cbn [list_ascii_of_string existsb].
  destruct (Ascii.eqb c dquote), (Ascii.eqb c squote); reflexivity.
Qed.

Lemma clean_value_part_cleaned (rest : string) :
  clean_value_part rest = Spec.cleaned rest.
Proof.
  unfold clean_value_part, Spec.cleaned, strip_chars, strip_by.
  cbn [fold_left type_patterns].
  rewrite (lstrip_by_ext _ _ _ mem_quote_chars).
  apply rstrip_by_ext, mem_quote_chars.
Qed.

Lemma lstrip_by_first (p : ascii -> bool) (s : string) (c : ascii) :
  Spec.first_char (lstrip_by p s) = Some c -> p c = false.
Proof.
  induction s as [|a r IH]; cbn [lstrip_by]; [discriminate|].
  destruct (p a) eqn:P; [exact IH|].
  cbn [Spec.first_char]. now intros [= <-].
Qed.

Lemma rstrip_by_first (p : ascii -> bool) (s : string) (c : ascii) :
  Spec.first_char (rstrip_by p s) = Some c -> Spec.first_char s = Some c.
Proof.
  destruct s as [|a r]; cbn [rstrip_by]; [discriminate|].
  destruct (rstrip_by p r); [destruct (p a); [discriminate|]|]; exact id.
Qed.

Lemma rstrip_by_last (p : ascii -> bool) (s : string) (c : ascii) :
  Spec.last_char (rstrip_by p s) = Some c -> p c = false.
Proof.
  induction s as [|a r IH]; cbn [rstrip_by]; [discriminate|].
  destruct (rstrip_by p r) as [|b r'] eqn:R.
  - destruct (p a) eqn:P; [discriminate|].
    cbn [Spec.last_char]. now intros [= <-].
  - exact IH.
Qed.

Lemma cleaned_has_no_outer_quote (rest : string) :
  Spec.not_a_quote (Spec.first_char (Spec.cleaned rest)) = true
  /\ Spec.not_a_quote (Spec.last_char (Spec.cleaned rest)) = true.
Proof.
  unfold Spec.cleaned, strip_by. split.
  - destruct (Spec.first_char _) as [c|] eqn:F; [|reflexivity].
    apply rstrip_by_first, lstrip_by_first in F.
    cbn [Spec.not_a_quote]. now rewrite F.
  - destruct (Spec.last_char _) as [c|] eqn:L; [|reflexivity].
    apply rstrip_by_last in L.
    cbn [Spec.not_a_quote]. now rewrite L.
Qed.

Lemma contains_nonempty (needle : string) (s : string) :
  needle <> EmptyString -> contains needle s = true -> nonempty s = true.
Proof.
  intros N C. destruct s; [|reflexivity].
  destruct needle; [congruence|discriminate C].
Qed.

Lemma parse_snmp_value_split (text before rest : string) :
  split1 "=" text = [before; rest] -> contains "=" text = true ->
  parse_snmp_value (VStr text)
  = Ok (Spec.number_or_text (Spec.cleaned rest)).
Proof.
  intros S C. unfold parse_snmp_value.
  cbn [truthy is_number str bind].
  rewrite (contains_nonempty "=" text) by (congruence || assumption).
  cbn [negb orb]. rewrite C, S, clean_value_part_cleaned. reflexivity.
Qed.

(** C7, as the code has it. A text that contains [=] is cut at the first
    [=]; the remainder is stripped of white space, then of the type tags
    INTEGER:, STRING:, Gauge32:, Counter32:, Opaque:, OID: (each pattern is
    tried once, in this order, so more than one tag can go), then of every
    quote character at either end (all layers, so the cleaned text neither
    starts nor ends with a quote); the cleaned text is parsed as a float
    when it contains a point and as an integer otherwise, and returned as
    it is when the parse fails. "1.3.6.1 = INTEGER: 228" gives the integer
    228, and the STRING example gives the text Smart-UPS 1500. *)
Theorem parse_snmp_value_of_text (text : string) :
  contains "=" text = true ->
  (exists before rest,
     text = before ++ "=" ++ rest
     /\ contains "=" before = false
     /\ parse_snmp_value (VStr text)
        = Ok (Spec.number_or_text (Spec.cleaned rest))
     /\ Spec.not_a_quote (Spec.first_char (Spec.cleaned rest)) = true
     /\ Spec.not_a_quote (Spec.last_char (Spec.cleaned rest)) = true)
  /\ parse_snmp_value (VStr "1.3.6.1 = INTEGER: 228") = Ok (VInt 228)
  /\ parse_snmp_value
       (VStr ("1.3.6.1 = STRING: "
                ++ String dquote ("Smart-UPS 1500" ++ String dquote EmptyString)))
     = Ok (VStr "Smart-UPS 1500").
Proof.
  intros C. split; [|split; reflexivity].
  destruct (split1_first "=" text C) as (before & rest & S & E & NB).
  exists before, rest.
  split; [exact E|]. split; [exact NB|].
  split; [now apply (parse_snmp_value_split text before rest)|].
  apply cleaned_has_no_outer_quote.
Qed.

(** On "1.3.6.1 = INTEGER: 228" the cut is after "1.3.6.1 " and the
    result is the integer 228, although the text before the [=] has
    points. *)
Lemma parse_snmp_value_of_text_228 :
  (exists before rest,
     "1.3.6.1 = INTEGER: 228" = before ++ "=" ++ rest
     /\ contains "=" before = false
     /\ parse_snmp_value (VStr "1.3.6.1 = INTEGER: 228")
        = Ok (Spec.number_or_text (Spec.cleaned rest))
     /\ Spec.not_a_quote (Spec.first_char (Spec.cleaned rest)) = true
     /\ Spec.not_a_quote (Spec.last_char (Spec.cleaned rest)) = true)
  /\ parse_snmp_value (VStr "1.3.6.1 = INTEGER: 228") = Ok (VInt 228)
  /\ parse_snmp_value
       (VStr ("1.3.6.1 = STRING: "
                ++ String dquote ("Smart-UPS 1500" ++ String dquote EmptyString)))
     = Ok (VStr "Smart-UPS 1500").
Proof.
  apply (parse_snmp_value_of_text "1.3.6.1 = INTEGER: 228").
  reflexivity.
Defined.

(** C7 as the specification words it fails: the code removes every layer
    of quotes, not one, and may remove more than one type tag. *)
Lemma quotes_and_tags_all_stripped :
  parse_snmp_value (VStr "k = ''x''") = Ok (VStr "x")
  /\ Spec.normalize_claimed "k = ''x''" = VStr "'x'"
  /\ parse_snmp_value (VStr "k = INTEGER: STRING: 5") = Ok (VInt 5)
  /\ Spec.normalize_claimed "k = INTEGER: STRING: 5" = VStr "STRING: 5".
Proof. compute_each. Qed.

(** ** Idempotence of the value normalizer *)

Lemma lstrip_by_length (p : ascii -> bool) (s : string) :
  (length (lstrip_by p s) <= length s)%nat.
Proof.
  induction s as [|c r IH]; cbn [lstrip_by length]; [lia|].
  destruct (p c); cbn [length]; lia.
Qed.

Lemma rstrip_by_length (p : ascii -> bool) (s : string) :
  (length (rstrip_by p s) <= length s)%nat.
Proof.
  induction s as [|c r IH]; cbn [rstrip_by length]; [lia|].
  destruct (rstrip_by p r); [destruct (p c)|]; cbn [length] in *; lia.
Qed.

Lemma strip_by_length (p : ascii -> bool) (s : string) :
  (length (strip_by p s) <= length s)%nat.
Proof.
  unfold strip_by.
  pose proof (rstrip_by_length p (lstrip_by p s)).
  pose proof (lstrip_by_length p s). lia.
Qed.

Lemma substring_length_le (n m : nat) (s : string) :
  (length (substring n m s) <= length s)%nat.
Proof.
  revert n m. induction s as [|c r IH]; intros n m.
  - destruct n, m; cbn; lia.
  - destruct n as [|n]; [destruct m as [|m]|]; cbn [substring length].
    + lia.
    + specialize (IH 0%nat m). lia.
    + specialize (IH n m). lia.
Qed.

Lemma re_sub_tag_length (tag s : string) :
  (length (re_sub_tag tag s) <= length s)%nat.
Proof.
  unfold re_sub_tag. destruct (prefix tag s); [|lia].
  pose proof (lstrip_by_length isspace
                (substring (length tag) (length s - length tag) s)).
  pose proof (substring_length_le (length tag) (length s - length tag) s).
  lia.
Qed.

Lemma cleaned_length (rest : string) :
  (length (Spec.cleaned rest) <= length rest)%nat.
Proof.
  unfold Spec.cleaned, strip.
  eapply Nat.le_trans; [apply strip_by_length|].
  do 6 (eapply Nat.le_trans; [apply re_sub_tag_length|]).
  apply strip_by_length.
Qed.

Lemma append_length (a b : string) :
  length (a ++ b) = (length a + length b)%nat.
Proof.
  induction a as [|c r IH]; cbn [append length]; [reflexivity|].
  now rewrite IH.
Qed.

(** What [parse_snmp_value] can return: its argument when that is falsy
    or a number, a number it parsed, or a text. *)
Lemma parse_snmp_value_range (x y : value) :
  parse_snmp_value x = Ok y ->
  (y = x /\ (truthy x = false \/ is_number x = true))
  \/ is_number y = true
  \/ exists s, y = VStr s.
Proof.
  unfold parse_snmp_value.
  destruct (truthy x) eqn:T; cbn [negb orb].
  2:{ intros [= <-]. left. split; [reflexivity|now left]. }
  destruct (is_number x) eqn:N.
  { intros [= <-]. left. split; [reflexivity|now right]. }
  destruct (str x) as [text|]; cbn [bind]; [|discriminate].
  assert (R : forall s, is_number (convert_value_part s) = true
                        \/ exists t, convert_value_part s = VStr t).
  { intros s. unfold convert_value_part.
    destruct (contains "." s);
      [destruct (float_of_str s)|destruct (int_of_str s)]; eauto. }
  destruct (contains "=" text).
  - destruct (split1 "=" text) as [|? [|part ?]]; intros [= <-]; eauto.
  - intros [= <-]. eauto.
Qed.

Lemma parse_snmp_value_text_fixed (s : string) :
  parse_snmp_value (VStr s) = Ok (VStr s) <->
  contains "=" s = false /\ strip s = s.
Proof.
  split.
  - intros P. destruct (contains "=" s) eqn:C.
    + exfalso.
      destruct (split1_first "=" s C) as (before & rest & S & E & _).
      rewrite (parse_snmp_value_split s before rest S C) in P.
      injection P as P.
      assert (L : (length (Spec.cleaned rest) < length s)%nat).
      { pose proof (cleaned_length rest).
        rewrite E, append_length. cbn [length]. lia. }
      unfold Spec.number_or_text in P.
      destruct (contains "." (Spec.cleaned rest));
        [destruct (float_of_str _)|destruct (int_of_str _)];
        try discriminate P; injection P as P; rewrite P in L; lia.
    + split; [reflexivity|].
      unfold parse_snmp_value in P. cbn [truthy is_number str bind] in P.
      rewrite orb_false_r, C in P.
      destruct s as [|c r]; [reflexivity|].
      cbn [nonempty negb] in P. now injection P.
  - intros [C S]. unfold parse_snmp_value.
    cbn [truthy is_number str bind]. rewrite orb_false_r, C, S.
    now destruct (negb (nonempty s)).
Qed.

(** C8, as the code has it. Let [y] be the normalized form of [x]. Then
    normalizing [y] again gives [y] exactly when [y] is not a text that
    contains [=] or that has leading or trailing white space; numbers,
    [None] and the other falsy values are always fixed. *)
Theorem parse_snmp_value_idempotent (x y : value) :
  parse_snmp_value x = Ok y ->
  (parse_snmp_value y = Ok y <->
   forall s, y = VStr s -> contains "=" s = false /\ strip s = s).
Proof.
  intros P. split.
  - intros F s ->. now apply parse_snmp_value_text_fixed.
  - intros H.
    destruct (parse_snmp_value_range x y P) as [[-> [T|N]]|[N|[s ->]]].
    + unfold parse_snmp_value. now rewrite T.
    + now apply parse_snmp_value_number.
    + now apply parse_snmp_value_number.
    + apply parse_snmp_value_text_fixed. now apply H.
Qed.

(** The normalized form of "k = STRING: Smart-UPS 1500", the text
    Smart-UPS 1500, has no [=] and no outer white space, and is fixed. *)
Lemma parse_snmp_value_idempotent_text :
  parse_snmp_value (VStr "Smart-UPS 1500") = Ok (VStr "Smart-UPS 1500").
Proof.
  apply (parse_snmp_value_idempotent (VStr "k = STRING: Smart-UPS 1500")
                                     (VStr "Smart-UPS 1500") eq_refl).
  intros s [= <-]. split; reflexivity.
Defined.

(** C8 as the specification words it fails: a normalized text can itself
    contain [=], or keep white space inside its quotes, and is then changed
    by a second normalization. *)
Lemma parse_snmp_value_not_idempotent :
  parse_snmp_value (VStr "a = b = INTEGER: 5") = Ok (VStr "b = INTEGER: 5")
  /\ parse_snmp_value (VStr "b = INTEGER: 5") = Ok (VInt 5)
  /\ parse_snmp_value (VStr "a = ' abc '") = Ok (VStr " abc ")
  /\ parse_snmp_value (VStr " abc ") = Ok (VStr "abc").
Proof. compute_each. Qed.

(* ====================================================================== *)
(** * Further properties of the runtime *)
(* ====================================================================== *)

From Stdlib Require Import DecimalString DecimalPos DecimalZ DecimalN.
From Stdlib Require Import DecimalFacts.
Import Readings.

(** ** Doubles of small integers *)

(** The double of a positive integer below 2^53, spelled out. *)
Lemma binary_round_normal (s : bool) (p : positive) :
  Zpos p < 2 ^ 53 ->
  exists m,
    binary_round prec emax s p 0
    = S754_finite s m (Zpos (digits2_pos p) - 53)
    /\ Zpos m = Zpos p * 2 ^ (53 - Zpos (digits2_pos p))
    /\ Zpos (digits2_pos m) = 53.
Proof.
  intros Hp.
  pose proof (digits2_pos_le p 53 ltac:(lia) Hp) as Hd.
  unfold binary_round.
  replace (Zpos (digits2_pos p) + 0) with (Zpos (digits2_pos p)) by lia.
  assert (F : fexp prec emax (Zpos (digits2_pos p))
              = Zpos (digits2_pos p) - 53).
  { unfold fexp, emin, prec, emax. lia. }
  rewrite F. unfold shl_align.
  remember (Zpos (digits2_pos p) - 53 - 0) as sh eqn:Esh.
  destruct sh as [|k|k]; [| lia |].
  - assert (E : Zpos (digits2_pos p) = 53) by lia.
    exists p. rewrite E. split; [|split; [cbn; lia|reflexivity]].
    apply binary_round_aux_exact.
    + rewrite Z.add_0_r, F. lia.
    + unfold emax, prec. lia.
  - destruct (iter_xO_spec k p) as [V D].
    exists (Pos.iter xO p k).
    assert (K : Zpos k = 53 - Zpos (digits2_pos p)) by lia.
    split; [|split].
    + apply binary_round_aux_exact.
      * rewrite D, Pos2Z.inj_add, K. unfold fexp, emin, prec, emax. lia.
      * unfold emax, prec. lia.
    + now rewrite V, K.
    + rewrite D, Pos2Z.inj_add. lia.
Qed.

Lemma digits2_pos_mono (p q : positive) :
  (p <= q)%positive -> Zpos (digits2_pos p) <= Zpos (digits2_pos q).
Proof.
  intros L.
  pose proof (digits2_pos_bounds p) as [Lp _].
  pose proof (digits2_pos_bounds q) as [_ Uq].
  destruct (Z_le_gt_dec (Zpos (digits2_pos p)) (Zpos (digits2_pos q)))
    as [|G]; [assumption|].
  assert (2 ^ Zpos (digits2_pos q) <= 2 ^ (Zpos (digits2_pos p) - 1))
    by (apply Z.pow_le_mono_r; lia).
  lia.
Qed.

(** Comparing the doubles of two positive integers below 2^53: the
    exponents, then the mantissas, order them as the integers. *)
Lemma compare_normal (p q mp mq : positive) :
  Zpos p < 2 ^ 53 -> Zpos q < 2 ^ 53 ->
  Zpos mp = Zpos p * 2 ^ (53 - Zpos (digits2_pos p)) ->
  Zpos mq = Zpos q * 2 ^ (53 - Zpos (digits2_pos q)) ->
  match Zpos (digits2_pos p) - 53 ?= Zpos (digits2_pos q) - 53 with
  | Lt => Lt
  | Gt => Gt
  | Eq => Pos.compare_cont Eq mp mq
  end = (p ?= q)%positive.
Proof.
  intros Hp Hq Mp Mq.
  pose proof (digits2_pos_le p 53 ltac:(lia) Hp) as Dp.
  pose proof (digits2_pos_le q 53 ltac:(lia) Hq) as Dq.
  destruct (Z.compare_spec (Zpos (digits2_pos p) - 53)
                           (Zpos (digits2_pos q) - 53)) as [E|L|G].
  - assert (E' : Zpos (digits2_pos p) = Zpos (digits2_pos q)) by lia.
    rewrite E' in Mp.
    change (Pos.compare_cont Eq mp mq) with (Pos.compare mp mq).
    assert (P2 : 0 < 2 ^ (53 - Zpos (digits2_pos q)))
      by (apply Z.pow_pos_nonneg; lia).
    destruct (Pos.compare_spec p q) as [->|L|G].
    + assert (mp = mq) as -> by lia. now rewrite Pos.compare_refl.
    + apply Pos.compare_lt_iff. nia.
    + apply Pos.compare_gt_iff. nia.
  - symmetry. apply Pos.compare_lt_iff.
    destruct (Pos.lt_total p q) as [?|[->|G]]; [assumption|lia|].
    pose proof (digits2_pos_mono q p ltac:(lia)). lia.
  - symmetry. apply Pos.compare_gt_iff.
    destruct (Pos.lt_total p q) as [L|[->|?]]; [|lia|assumption].
    pose proof (digits2_pos_mono p q ltac:(lia)). lia.
Qed.

Lemma SFcompare_round_int (a b : Z) :
  Z.abs a < 2 ^ 53 -> Z.abs b < 2 ^ 53 ->
  SFcompare (round_int a) (round_int b) = Some (a ?= b).
Proof.
  intros Ha Hb. unfold round_int, binary_normalize.
  destruct a as [|p|p], b as [|q|q]; try reflexivity;
    repeat match goal with
           | |- context [binary_round prec emax ?s ?x 0] =>
               let m := fresh "m" in
               let R := fresh "R" in
               let V := fresh "V" in
               destruct (binary_round_normal s x) as (m & R & V & _);
               [assumption|rewrite R; clear R]
           end;
    cbn [SFcompare]; try reflexivity; f_equal.
  - now apply compare_normal.
  - pose proof (compare_normal p q m m0 Ha Hb V V0) as C.
    cbn [Z.compare]. rewrite <- C.
    destruct (Zpos (digits2_pos p) - 53 ?= Zpos (digits2_pos q) - 53);
      reflexivity.
Qed.

Lemma iter_pos_nat {A : Type} (f : A -> A) (j : positive) (x : A) :
  iter_pos f j x = Nat.iter (Pos.to_nat j) f x.
Proof.
  revert x. induction j as [j IH|j IH|]; intros x; cbn [iter_pos].
  - rewrite !IH, Pos2Nat.inj_xI.
    replace (S (2 * Pos.to_nat j)) with (Pos.to_nat j + S (Pos.to_nat j))%nat
      by lia.
    rewrite Nat.iter_add. f_equal. now rewrite Nat.iter_succ_r.
  - rewrite !IH, Pos2Nat.inj_xO.
    replace (2 * Pos.to_nat j)%nat with (Pos.to_nat j + Pos.to_nat j)%nat
      by lia.
    now rewrite Nat.iter_add.
  - reflexivity.
Qed.

Lemma shr_1_trailing_zeros (j : nat) (q q' : positive) :
  Zpos q = Zpos q' * 2 ^ Z.of_nat j ->
  Nat.iter j shr_1 {| shr_m := Zpos q; shr_r := false; shr_s := false |}
  = {| shr_m := Zpos q'; shr_r := false; shr_s := false |}.
Proof.
  revert q. induction j as [|j IH]; intros q E.
  - cbn in *. f_equal. lia.
  - rewrite Nat.iter_succ_r.
    rewrite Nat2Z.inj_succ, Z.pow_succ_r in E by lia.
    destruct q as [q2|q2|]; try lia.
    cbn [shr_1 orb]. apply IH. lia.
Qed.

(** The same value with a larger mantissa and a negative exponent rounds
    to the same double. *)
Lemma binary_round_scaled (s : bool) (n M : positive) (k : Z) :
  0 <= k -> Zpos n < 2 ^ 53 -> Zpos M = Zpos n * 2 ^ k ->
  binary_round prec emax s M (- k) = binary_round prec emax s n 0.
Proof.
  intros Hk Hn EM.
  pose proof (digits2_pos_le n 53 ltac:(lia) Hn) as Dn.
  destruct (binary_round_normal s n Hn) as (m & -> & Vm & Dm).
  set (t := Zpos (digits2_pos n) - 53) in *.
  assert (DM : Zpos (digits2_pos M) = Zpos (digits2_pos n) + k).
  { destruct k as [|kk|kk]; [| |lia].
    - rewrite Z.pow_0_r, Z.mul_1_r in EM. injection EM as ->. lia.
    - destruct (iter_xO_spec kk n) as [V D].
      rewrite <- V in EM. injection EM as ->. rewrite D. lia. }
  assert (Fm : fexp prec emax (Zpos (digits2_pos m) + t) = t).
  { rewrite Dm. unfold fexp, emin, prec, emax. lia. }
  assert (Bt : t <= emax - prec) by (unfold emax, prec; lia).
  assert (P2 : forall j, 0 <= j -> 0 < 2 ^ j)
    by (intros; apply Z.pow_pos_nonneg; lia).
  unfold binary_round.
  assert (F : fexp prec emax (Zpos (digits2_pos M) + - k) = t).
  { rewrite DM. unfold fexp, emin, prec, emax. lia. }
  rewrite F. unfold shl_align.
  remember (t - - k) as sh eqn:Esh.
  destruct sh as [|j|j].
  - assert (K : - k = t) by lia. rewrite K.
    assert (M = m) as ->.
    { assert (Zpos M = Zpos m); [|congruence].
      rewrite EM, Vm. f_equal. f_equal. lia. }
    now apply binary_round_aux_exact.
  - rewrite <- (binary_round_aux_exact s m t Fm Bt).
    unfold binary_round_aux.
    assert (S1 : shr_fexp prec emax (Zpos M) (- k) loc_Exact
                 = shr_fexp prec emax (Zpos m) t loc_Exact).
    { unfold shr_fexp. cbn [Zdigits2]. rewrite F, Fm, Z.sub_diag, <- Esh.
      cbn [shr shr_record_of_loc]. rewrite iter_pos_nat.
      rewrite (shr_1_trailing_zeros _ M m).
      - f_equal. lia.
      - rewrite positive_nat_Z, EM, Vm, <- Z.mul_assoc, <- Z.pow_add_r by lia.
        f_equal. f_equal. lia. }
    now rewrite S1.
  - destruct (iter_xO_spec j M) as [V _].
    assert (Pos.iter xO M j = m) as ->.
    { assert (Zpos (Pos.iter xO M j) = Zpos m); [|congruence].
      rewrite V, EM, Vm, <- Z.mul_assoc, <- Z.pow_add_r by lia.
      f_equal. f_equal. lia. }
    now apply binary_round_aux_exact.
Qed.


Lemma binary_normalize_scaled (n k : Z) :
  0 <= k -> Z.abs n < 2 ^ 53 ->
  binary_normalize prec emax (n * 2 ^ k) (- k) false = round_int n.
Proof.
  intros Hk Hn.
  assert (P2 : 0 < 2 ^ k) by (apply Z.pow_pos_nonneg; lia).
  unfold round_int. destruct n as [|p|p].
  - reflexivity.
  - destruct (Zpos p * 2 ^ k) as [|M|M] eqn:E; [nia| |nia].
    cbn [binary_normalize]. now apply binary_round_scaled.
  - destruct (Zneg p * 2 ^ k) as [|M|M] eqn:E; [nia|nia|].
    cbn [binary_normalize]. apply binary_round_scaled; try assumption. lia.
Qed.

Lemma shl_align_value (mx : positive) (ex ez : Z) :
  ez <= ex -> Zpos (fst (shl_align mx ex ez)) = Zpos mx * 2 ^ (ex - ez).
Proof.
  intros L. unfold shl_align.
  destruct (ez - ex) as [|d|d] eqn:E; cbn [fst].
  - replace (ex - ez) with 0 by lia. rewrite Z.pow_0_r. lia.
  - lia.
  - destruct (iter_xO_spec d mx) as [-> _]. f_equal. f_equal. lia.
Qed.

(** The double of a non-zero integer below 2^53, with its value. *)
Lemma round_int_value (a : Z) :
  a <> 0 -> Z.abs a < 2 ^ 53 ->
  exists s m e,
    round_int a = S754_finite s m e /\ -52 <= e <= 0
    /\ cond_Zopp s (Zpos m) = a * 2 ^ (- e).
Proof.
  intros N H. unfold round_int, binary_normalize.
  destruct a as [|p|p]; [congruence| |].
  - destruct (binary_round_small false p H) as (m & e & R & B & V).
    exists false, m, e. rewrite R. split; [reflexivity|]. split; [exact B|].
    exact V.
  - destruct (binary_round_small true p H) as (m & e & R & B & V).
    exists true, m, e. rewrite R. split; [reflexivity|]. split; [exact B|].
    unfold cond_Zopp. rewrite V. change (Zneg p) with (- Zpos p).
    now rewrite Z.mul_opp_l.
Qed.

Lemma round_int_opp (a : Z) :
  a <> 0 -> Z.abs a < 2 ^ 53 -> round_int (- a) = SFopp (round_int a).
Proof.
  intros N H. unfold round_int, binary_normalize.
  destruct a as [|p|p]; cbn [Z.opp]; [congruence| |].
  - destruct (binary_round_normal true p H) as (m & -> & V & _).
    destruct (binary_round_normal false p H) as (m' & -> & V' & _).
    cbn [SFopp negb]. f_equal. rewrite <- V' in V. congruence.
  - destruct (binary_round_normal true p H) as (m & -> & V & _).
    destruct (binary_round_normal false p H) as (m' & -> & V' & _).
    cbn [SFopp negb]. f_equal. rewrite <- V in V'. congruence.
Qed.

(** Subtraction of integers below 2^52 is exact. *)
Lemma float_sub_round_int (a b : Z) :
  Z.abs a < 2 ^ 52 -> Z.abs b < 2 ^ 52 ->
  float_sub (round_int a) (round_int b) = round_int (a - b).
Proof.
  intros Ha Hb.
  assert (Ha' : Z.abs a < 2 ^ 53) by lia.
  assert (Hb' : Z.abs b < 2 ^ 53) by lia.
  assert (Hd : Z.abs (a - b) < 2 ^ 53) by lia.
  destruct (Z.eq_dec b 0) as [->|Nb].
  - rewrite Z.sub_0_r. change (round_int 0) with (S754_zero false).
    unfold float_sub. destruct (round_int a) as [[|]| | |]; reflexivity.
  - destruct (round_int_value b Nb Hb') as (sb & mb & eb & Rb & Bb & Vb).
    destruct (Z.eq_dec a 0) as [->|Na].
    + replace (0 - b) with (- b) by lia. rewrite round_int_opp by assumption.
      rewrite Rb. reflexivity.
    + destruct (round_int_value a Na Ha') as (sa & ma & ea & Ra & Ba & Va).
      rewrite Ra, Rb. unfold float_sub. cbn [SFsub].
      set (ez := Z.min ea eb).
      rewrite <- (binary_normalize_scaled (a - b) (- ez)) by lia.
      rewrite Z.opp_involutive. f_equal.
      assert (C : forall s m e, ez <= e -> 
                   cond_Zopp s (Zpos (fst (shl_align m e ez)))
                   = cond_Zopp s (Zpos m) * 2 ^ (e - ez)).
      { intros s m e L. rewrite shl_align_value by assumption.
        destruct s; cbn [cond_Zopp]; [|reflexivity].
        now rewrite Z.mul_opp_l. }
      rewrite !C by lia. rewrite Va, Vb.
      rewrite <- !Z.mul_assoc, <- !Z.pow_add_r by lia.
      replace (- ea + (ea - ez)) with (- ez) by lia.
      replace (- eb + (eb - ez)) with (- ez) by lia.
      now rewrite Z.mul_sub_distr_r.
Qed.

(** ** Decimal numerals *)



Lemma of_uint_acc_value (u : Decimal.uint) (acc : positive) :
  Zpos (Pos.of_uint_acc u acc)
  = Zpos acc * 10 ^ Z.of_nat (Decimal.nb_digits u) + Z.of_N (Pos.of_uint u).
Proof.
  revert acc.
  induction u as [|u IH|u IH|u IH|u IH|u IH|u IH|u IH|u IH|u IH|u IH];
    intros acc; cbn [Pos.of_uint_acc Pos.of_uint Decimal.nb_digits];
    rewrite ?Nat2Z.inj_succ, ?Z.pow_succ_r by lia;
    try (cbn; lia);
    rewrite ?N2Z.inj_pos, !IH; rewrite ?Pos2Z.inj_add, ?Pos2Z.inj_mul; lia.
Qed.

Lemma digits_value (u : Decimal.uint) (acc : Z) :
  fold_left digit_step (list_ascii_of_string (NilEmpty.string_of_uint u)) acc
  = acc * 10 ^ Z.of_nat (Decimal.nb_digits u) + Z.of_N (Pos.of_uint u).
Proof.
  revert acc.
  induction u as [|u IH|u IH|u IH|u IH|u IH|u IH|u IH|u IH|u IH|u IH];
    intros acc;
    cbn [NilEmpty.string_of_uint list_ascii_of_string fold_left
         Pos.of_uint Decimal.nb_digits];
    rewrite ?Nat2Z.inj_succ, ?Z.pow_succ_r by lia;
    try (cbn; lia);
    rewrite IH; unfold digit_step, digit_val;
    rewrite ?N2Z.inj_pos, ?of_uint_acc_value;
    match goal with
    | |- context [code ?c] =>
        let v := eval vm_compute in (code c) in change (code c) with v
    end; ring.
Qed.

Lemma all_digits_of_uint (u : Decimal.uint) :
  all_digits (NilEmpty.string_of_uint u) = true.
Proof.
  unfold all_digits.
  induction u; cbn [NilEmpty.string_of_uint list_ascii_of_string forallb];
    try reflexivity; rewrite IHu; reflexivity.
Qed.



(** The numeral of a non-negative integer: digits only, at least one,
    and they denote the integer. *)
Lemma str_of_int_nonneg (m : Z) :
  0 <= m ->
  all_digits (str_of_int m) = true
  /\ str_of_int m <> EmptyString
  /\ Z_of_digits (str_of_int m) = m.
Proof.
  intros Hm. unfold str_of_int.
  destruct m as [|p|p]; [repeat split; discriminate| |lia].
  cbn [Z.to_int NilZero.string_of_int].
  pose proof (DecimalPos.Unsigned.to_uint_nonnil p) as NN.
  assert (E : NilZero.string_of_uint (Pos.to_uint p)
              = NilEmpty.string_of_uint (Pos.to_uint p)).
  { unfold NilZero.string_of_uint. destruct (Pos.to_uint p); congruence. }
  rewrite E. split; [apply all_digits_of_uint|]. split.
  - destruct (Pos.to_uint p); try congruence; discriminate.
  - unfold Z_of_digits.
    change (fun acc c => acc * 10 + digit_val c) with digit_step.
    rewrite digits_value, DecimalPos.Unsigned.of_to. cbn. reflexivity.
Qed.

Lemma str_of_int_neg (n : Z) :
  n < 0 -> str_of_int n = String "-" (str_of_int (- n)).
Proof. destruct n; try lia. reflexivity. Qed.

Lemma lstrip_by_none (p : ascii -> bool) (s : string) :
  (forall c, In c (chars s) -> p c = false) -> lstrip_by p s = s.
Proof.
  destruct s as [|c r]; intros H; cbn [lstrip_by]; [reflexivity|].
  now rewrite (H c (or_introl eq_refl)).
Qed.

Lemma rstrip_by_none (p : ascii -> bool) (s : string) :
  (forall c, In c (chars s) -> p c = false) -> rstrip_by p s = s.
Proof.
  induction s as [|c r IH]; intros H; cbn [rstrip_by]; [reflexivity|].
  rewrite IH by (intros c' I; apply H; now right).
  destruct r; [|reflexivity].
  now rewrite (H c (or_introl eq_refl)).
Qed.

Lemma strip_by_none (p : ascii -> bool) (s : string) :
  (forall c, In c (chars s) -> p c = false) -> strip_by p s = s.
Proof.
  intros H. unfold strip_by. rewrite lstrip_by_none by assumption.
  now apply rstrip_by_none.
Qed.

Lemma rstrip_by_app (p : ascii -> bool) (a b : string) :
  b <> EmptyString -> rstrip_by p b = b -> rstrip_by p (a ++ b) = a ++ b.
Proof.
  intros N H. induction a as [|c a IH]; cbn [append rstrip_by]; [exact H|].
  rewrite IH. destruct (a ++ b) eqn:E; [|reflexivity].
  destruct a; [cbn in E; congruence|discriminate E].
Qed.

Lemma contains_single_none (c : ascii) (s : string) :
  (forall c', In c' (chars s) -> c' <> c) ->
  contains (String c EmptyString) s = false.
Proof.
  induction s as [|a r IH]; intros H; cbn [contains]; [reflexivity|].
  rewrite prefix_single, IH by (intros c' I; apply H; now right).
  rewrite orb_false_r. apply Ascii.eqb_neq. apply H. now left.
Qed.

Lemma digitpart_tail_all (ds : string) :
  all_digits ds = true -> digitpart_tail ds = (ds, EmptyString).
Proof.
  unfold all_digits.
  induction ds as [|c r IH]; cbn [list_ascii_of_string forallb digitpart_tail];
    [reflexivity|].
  intros H. apply andb_prop in H as [D R]. now rewrite D, IH.
Qed.

Lemma digitpart_all (ds : string) :
  all_digits ds = true -> ds <> EmptyString ->
  digitpart ds = Some (ds, EmptyString).
Proof.
  intros A N. destruct ds as [|c r]; [congruence|].
  unfold all_digits in A. cbn [list_ascii_of_string forallb] in A.
  apply andb_prop in A as [D R]. cbn [digitpart]. rewrite D.
  now rewrite digitpart_tail_all.
Qed.

Lemma span_digits_all (ds : string) :
  all_digits ds = true -> span_digits ds = (ds, EmptyString).
Proof.
  unfold all_digits.
  induction ds as [|c r IH]; cbn [list_ascii_of_string forallb span_digits];
    [reflexivity|].
  intros H. apply andb_prop in H as [D R]. now rewrite D, IH.
Qed.

Lemma isdigit_code (c : ascii) : isdigit c = true -> 48 <= code c <= 57.
Proof. unfold isdigit. cbn zeta. lia. Qed.

Lemma code_neq (c d : ascii) : code c <> code d -> Ascii.eqb c d = false.
Proof. intros H. apply Ascii.eqb_neq. congruence. Qed.

Lemma all_digits_chars (ds : string) (c : ascii) :
  all_digits ds = true -> In c (chars ds) -> isdigit c = true.
Proof.
  unfold all_digits, chars. rewrite forallb_forall. auto.
Qed.

Lemma str_of_int_chars (n : Z) (c : ascii) :
  In c (chars (str_of_int n)) -> 48 <= code c <= 57 \/ code c = 45.
Proof.
  destruct (Z.ltb_spec n 0) as [N|N].
  - rewrite str_of_int_neg by assumption.
    destruct (str_of_int_nonneg (- n)) as (A & _); [lia|].
    cbn [chars list_ascii_of_string In].
    intros [<-|I]; [right; reflexivity|left].
    now apply isdigit_code, (all_digits_chars (str_of_int (- n))).
  - destruct (str_of_int_nonneg n N) as (A & _).
    intros I. left. now apply isdigit_code, (all_digits_chars (str_of_int n)).
Qed.

Ltac code_lia :=
  repeat match goal with
         | |- context [code (Ascii ?a ?b ?c ?d ?e ?f ?g ?h)] =>
             let v := eval vm_compute in (code (Ascii a b c d e f g h)) in
             change (code (Ascii a b c d e f g h)) with v
         end; lia.

Lemma read_sign_digits (ds : string) :
  all_digits ds = true -> read_sign ds = (false, ds).
Proof.
  intros A. destruct ds as [|c r]; [reflexivity|].
  unfold all_digits in A. cbn [list_ascii_of_string forallb] in A.
  apply andb_prop in A as [D _]. apply isdigit_code in D.
  cbn [read_sign]. rewrite !code_neq; [reflexivity| |]; code_lia.
Qed.

(** [int(str(n))] is [n], within the limit on the number of digits. *)
Lemma int_of_str_of_int (n : Z) :
  ndigits10 (Z.abs n) <= Z.of_nat int_max_str_digits ->
  int_of_str (str_of_int n) = Some n.
Proof.
  intros L. unfold int_of_str.
  rewrite strip_by_none.
  2:{ intros c I. apply str_of_int_chars in I. unfold isblank_num. cbn zeta. lia. }
  change (ndigits10 (Z.abs n))
    with (Z.of_nat (length (str_of_int (Z.abs n)))) in L.
  apply Nat2Z.inj_le, Nat.ltb_ge in L.
  destruct (Z.ltb_spec n 0) as [N|N].
  - rewrite str_of_int_neg by assumption.
    destruct (str_of_int_nonneg (- n)) as (A & NE & V); [lia|].
    cbn [read_sign Ascii.eqb Bool.eqb]. rewrite digitpart_all by assumption.
    replace (Z.abs n) with (- n) in L by lia. rewrite L, V. f_equal. lia.
  - destruct (str_of_int_nonneg n N) as (A & NE & V).
    rewrite read_sign_digits, digitpart_all by assumption.
    replace (Z.abs n) with n in L by lia. now rewrite L, V.
Qed.

Lemma append_empty_r (s : string) : s ++ EmptyString = s.
Proof. induction s as [|c r IH]; cbn [append]; congruence. Qed.

(** The regular expression takes a whole integer numeral. *)
Lemma re_search_number_numeral (n : Z) :
  re_search_number (str_of_int n) = Some (str_of_int n).
Proof.
  assert (M : re_match_number (str_of_int n) = Some (str_of_int n)).
  { unfold re_match_number.
    destruct (Z.ltb_spec n 0) as [N|N].
    - rewrite str_of_int_neg by assumption.
      destruct (str_of_int_nonneg (- n)) as (A & NE & _); [lia|].
      cbn [Ascii.eqb Bool.eqb orb]. rewrite span_digits_all by assumption.
      destruct (str_of_int (- n)); [congruence|reflexivity].
    - destruct (str_of_int_nonneg n N) as (A & NE & _).
      destruct (str_of_int n) as [|c r] eqn:E; [congruence|].
      assert (D : isdigit c = true).
      { unfold all_digits in A. cbn [list_ascii_of_string forallb] in A.
        now apply andb_prop in A as [D _]. }
      apply isdigit_code in D.
      rewrite !code_neq by code_lia. cbn [orb].
      rewrite span_digits_all by assumption. reflexivity. }
  destruct (str_of_int n); cbn [re_search_number]; now rewrite M.
Qed.

Lemma lower_digit (c : ascii) : isdigit c = true -> lower c = c.
Proof.
  intros D. apply isdigit_code in D. unfold lower. cbn zeta.
  destruct (Z.leb_spec 65 (code c)); [lia|reflexivity].
Qed.

Lemma not_a_name (ds : string) :
  all_digits ds = true ->
  (String.eqb (lower_str ds) "inf" || String.eqb (lower_str ds) "infinity")
  = false
  /\ String.eqb (lower_str ds) "nan" = false.
Proof.
  intros A. destruct ds as [|c r]; [split; reflexivity|].
  unfold all_digits in A. cbn [list_ascii_of_string forallb] in A.
  apply andb_prop in A as [D _].
  cbn [lower_str String.eqb]. rewrite (lower_digit c D).
  apply isdigit_code in D. rewrite !code_neq by code_lia. split; reflexivity.
Qed.

(** [float(str(n))] is the double nearest to [n], an infinity when [n] is
    out of range. *)
Lemma float_of_str_of_int (n : Z) :
  float_of_str (str_of_int n) = Some (round_int n).
Proof.
  unfold float_of_str.
  rewrite strip_by_none.
  2:{ intros c I. apply str_of_int_chars in I. unfold isblank_num. cbn zeta. lia. }
  assert (G : forall neg ds,
             all_digits ds = true -> ds <> EmptyString ->
             (let name := lower_str ds in
              if String.eqb name "inf" || String.eqb name "infinity"
              then Some (S754_infinity neg)
              else if String.eqb name "nan" then Some S754_nan
              else
                let '(ip, r1) :=
                  match digitpart ds with
                  | Some (d, r) => (d, r)
                  | None => (EmptyString, ds)
                  end in
                let '(fp, r2) :=
                  match r1 with
                  | String c r =>
                      if Ascii.eqb c "."
                      then match digitpart r with
                           | Some (d, r') => (d, r')
                           | None => (EmptyString, r)
                           end
                      else (EmptyString, r1)
                  | EmptyString => (EmptyString, r1)
                  end in
                if nonempty (ip ++ fp)
                then match read_exponent r2 with
                     | Some (ex, EmptyString) =>
                         Some (float_of_decimal neg (Z_of_digits (ip ++ fp))
                                 (ex - Z.of_nat (length fp)))
                     | _ => None
                     end
                else None)
             = Some (float_of_decimal neg (Z_of_digits ds) 0)).
  { intros neg ds A NE. cbn zeta.
    destruct (not_a_name ds A) as [-> ->].
    rewrite digitpart_all by assumption. rewrite append_empty_r.
    destruct ds; [congruence|]. reflexivity. }
  destruct (Z.ltb_spec n 0) as [N|N].
  - rewrite str_of_int_neg by assumption.
    destruct (str_of_int_nonneg (- n)) as (A & NE & V); [lia|].
    cbn [read_sign Ascii.eqb Bool.eqb].
    rewrite G, V by assumption.
    destruct n as [|p|p]; try lia. cbn [Z.opp float_of_decimal Z.leb Z.compare].
    now rewrite Z.pow_0_r, Z.mul_1_r.
  - destruct (str_of_int_nonneg n N) as (A & NE & V).
    rewrite read_sign_digits by assumption.
    rewrite G, V by assumption.
    destruct n as [|p|p]; try lia; [reflexivity|].
    cbn [float_of_decimal Z.leb Z.compare].
    now rewrite Z.pow_0_r, Z.mul_1_r.
Qed.

Lemma split1_at (sep : ascii) (before rest : string) :
  contains (String sep EmptyString) before = false ->
  split1 sep (before ++ String sep rest) = [before; rest]
  /\ contains (String sep EmptyString) (before ++ String sep rest) = true.
Proof.
  induction before as [|c b IH]; cbn [append split1 contains].
  - intros _. rewrite prefix_single, Ascii.eqb_refl. split; reflexivity.
  - rewrite !prefix_single. intros H.
    apply orb_false_iff in H as [N C]. rewrite N.
    destruct (IH C) as [-> ->]. split; [reflexivity|apply orb_true_r].
Qed.

Lemma contains_single_app (c : ascii) (a b : string) :
  contains (String c EmptyString) (a ++ b)
  = contains (String c EmptyString) a || contains (String c EmptyString) b.
Proof.
  induction a as [|x a IH]; cbn [append contains].
  - destruct b; reflexivity.
  - rewrite !prefix_single, IH. now rewrite orb_assoc.
Qed.

Lemma append_assoc (a b c : string) : (a ++ b) ++ c = a ++ b ++ c.
Proof. induction a as [|x a IH]; cbn [append]; congruence. Qed.

Lemma prefix_append (a b : string) : prefix a (a ++ b) = true.
Proof.
  induction a as [|x a IH]; cbn [append prefix].
  - now destruct b.
  - destruct (ascii_dec x x); [exact IH|congruence].
Qed.

Lemma substring_all (s : string) : substring 0 (length s) s = s.
Proof. induction s as [|c r IH]; cbn [length substring]; congruence. Qed.

Lemma substring_skip (a b : string) :
  substring (length a) (length (a ++ b) - length a) (a ++ b) = b.
Proof.
  induction a as [|x a IH]; cbn [append length substring].
  - rewrite Nat.sub_0_r. now destruct b; cbn [substring length];
      rewrite ?substring_all.
  - exact IH.
Qed.

(** A tag followed by one blank and a text that does not start with white
    space: the substitution leaves the text. *)
Lemma re_sub_tag_hit (tag s : string) :
  lstrip_by isspace s = s -> re_sub_tag tag (tag ++ " " ++ s) = s.
Proof.
  intros H. unfold re_sub_tag.
  rewrite prefix_append, substring_skip. cbn [append lstrip_by]. exact H.
Qed.

Lemma re_sub_tag_miss (tag s : string) :
  prefix tag s = false -> re_sub_tag tag s = s.
Proof. intros H. unfold re_sub_tag. now rewrite H. Qed.

(** No type tag starts an integer numeral. *)
Lemma numeral_has_no_tag (n : Z) (tag : string) :
  In tag type_patterns -> prefix tag (str_of_int n) = false.
Proof.
  intros T.
  assert (F : exists c r, str_of_int n = String c r
                          /\ (48 <= code c <= 57 \/ code c = 45)).
  { pose proof (str_of_int_chars n) as C.
    destruct (Z.ltb_spec n 0) as [N|N].
    - rewrite str_of_int_neg in * by assumption. eexists _, _.
      split; [reflexivity|]. apply C. now left.
    - destruct (str_of_int_nonneg n N) as (_ & NE & _).
      destruct (str_of_int n) as [|c r]; [congruence|].
      exists c, r. split; [reflexivity|]. apply C. now left. }
  destruct F as (c & r & -> & C).
  cbn [type_patterns In] in T.
  repeat (destruct T as [<-|T]; [
    cbn [prefix];
    match goal with
    | |- context [ascii_dec ?a c] =>
        destruct (ascii_dec a c) as [<-|]; [exfalso; revert C; code_lia|reflexivity]
    end|]).
  contradiction.
Qed.

Lemma cleaned_integer_text (tag : string) (n : Z) :
  In tag type_patterns ->
  Spec.cleaned (" " ++ tag ++ " " ++ str_of_int n) = str_of_int n.
Proof.
  intros T.
  assert (NB : forall p, (forall c, 48 <= code c <= 57 \/ code c = 45 ->
                                    p c = false) ->
                         strip_by p (str_of_int n) = str_of_int n).
  { intros p H. apply strip_by_none. intros c I.
    apply H, (str_of_int_chars n c I). }
  assert (NE : str_of_int n <> EmptyString).
  { destruct (Z.ltb_spec n 0) as [N|N].
    - now rewrite str_of_int_neg by assumption.
    - now destruct (str_of_int_nonneg n N) as (_ & NE & _). }
  assert (SP : forall c, 48 <= code c <= 57 \/ code c = 45 -> isspace c = false).
  { intros c C. unfold isspace. cbn zeta. lia. }
  assert (QU : forall c, 48 <= code c <= 57 \/ code c = 45 ->
                         Spec.is_quote c = false).
  { intros c C. unfold Spec.is_quote.
    rewrite !code_neq; [reflexivity| |]; unfold squote, dquote; code_lia. }
  assert (L : lstrip_by isspace (str_of_int n) = str_of_int n).
  { apply lstrip_by_none. intros c I. apply SP, (str_of_int_chars n c I). }
  assert (R : rstrip_by isspace (str_of_int n) = str_of_int n).
  { apply rstrip_by_none. intros c I. apply SP, (str_of_int_chars n c I). }
  assert (S : strip (" " ++ tag ++ " " ++ str_of_int n)
              = tag ++ " " ++ str_of_int n).
  { unfold strip, strip_by.
    assert (LS : lstrip_by isspace (" " ++ tag ++ " " ++ str_of_int n)
                 = tag ++ " " ++ str_of_int n).
    { cbn [type_patterns In] in T.
      repeat (destruct T as [<-|T]; [reflexivity|]). contradiction. }
    rewrite LS, <- append_assoc. apply rstrip_by_app; assumption. }
  unfold Spec.cleaned. rewrite S.
  pose proof (numeral_has_no_tag n) as M.
  cbn [type_patterns In] in T.
  destruct T as [<-|[<-|[<-|[<-|[<-|[<-|[]]]]]]];
    repeat match goal with
           | |- context [re_sub_tag ?t (?t ++ " " ++ ?s)] =>
               rewrite (re_sub_tag_hit t s) by exact L
           | |- context [re_sub_tag ?t (str_of_int n)] =>
               rewrite (re_sub_tag_miss t (str_of_int n))
                 by (apply M; cbn; tauto)
           | |- context [re_sub_tag ?t (?a ++ ?b)] =>
               rewrite (re_sub_tag_miss t (a ++ b)) by reflexivity
           end;
    apply NB, QU.
Qed.

(** A line of [snmpget] output for an integer: [OID = TAG n]. *)
Lemma parse_snmp_value_numeral_line (oid tag : string) (n : Z) :
  contains "=" oid = false ->
  In tag type_patterns ->
  ndigits10 (Z.abs n) <= Z.of_nat int_max_str_digits ->
  parse_snmp_value (VStr (oid ++ " = " ++ tag ++ " " ++ str_of_int n))
  = Ok (VInt n).
Proof.
  intros O T L.
  change (oid ++ " = " ++ tag ++ " " ++ str_of_int n)
    with (oid ++ " " ++ String "=" (" " ++ tag ++ " " ++ str_of_int n)).
  rewrite <- append_assoc.
  destruct (split1_at "=" (oid ++ " ") (" " ++ tag ++ " " ++ str_of_int n))
    as [S C].
  { rewrite contains_single_app, O. reflexivity. }
  rewrite (parse_snmp_value_split _ _ _ S C), cleaned_integer_text by assumption.
  unfold Spec.number_or_text.
  rewrite contains_single_none.
  2:{ intros c I E. subst c. apply str_of_int_chars in I. revert I. code_lia. }
  now rewrite int_of_str_of_int.
Qed.

(** ** Text that yields a number *)


Lemma span_digits_spec (s : string) :
  all_digits (fst (span_digits s)) = true
  /\ s = fst (span_digits s) ++ snd (span_digits s)
  /\ match snd (span_digits s) with
     | String c _ => isdigit c = false
     | EmptyString => True
     end.
Proof.
  induction s as [|c r IH]; cbn [span_digits]; [repeat split|].
  destruct (isdigit c) eqn:D.
  - destruct (span_digits r) as [d rest]. cbn [fst snd] in *.
    destruct IH as (A & E & N). unfold all_digits in *.
    cbn [list_ascii_of_string forallb append]. rewrite D, A, <- E.
    repeat split. exact N.
  - cbn [fst snd append]. repeat split. exact D.
Qed.



Lemma nonempty_true (s : string) : nonempty s = true <-> s <> EmptyString.
Proof. destruct s; cbn; split; congruence. Qed.

Lemma re_match_number_literal (s m : string) :
  re_match_number s = Some m -> number_literal m.
Proof.
  unfold re_match_number.
  set (p := match s with
            | String c r =>
                if Ascii.eqb c "-" || Ascii.eqb c "+"
                then (String c EmptyString, r) else (EmptyString, s)
            | EmptyString => (EmptyString, s)
            end).
  assert (SG : is_sign (fst p)).
  { subst p. destruct s as [|c r]; [now left|].
    destruct (Ascii.eqb_spec c "-") as [->|]; [right; now left|].
    destruct (Ascii.eqb_spec c "+") as [->|]; [right; now right|now left]. }
  destruct p as [sg s1]. cbn [fst] in SG.
  pose proof (span_digits_spec s1) as (A1 & _ & _).
  destruct (span_digits s1) as [d1 s2]. cbn [fst snd] in A1.
  assert (W : forall m, (if nonempty d1 then Some (sg ++ d1) else None) = Some m
                        -> number_literal m).
  { intros m'. destruct (nonempty d1) eqn:N; [|discriminate].
    intros [= <-]. apply literal_int; try assumption.
    now apply nonempty_true. }
  destruct s2 as [|c s3]; [apply W|].
  destruct (Ascii.eqb_spec c ".") as [->|]; [|apply W].
  pose proof (span_digits_spec s3) as (A2 & _ & _).
  destruct (span_digits s3) as [d2 rest]. cbn [fst] in A2.
  destruct (nonempty d2) eqn:N2; [|apply W].
  intros [= <-]. apply literal_frac; try assumption.
  now apply nonempty_true.
Qed.

Lemma digitpart_tail_stop (d rest : string) :
  all_digits d = true ->
  match rest with
  | String c _ => isdigit c = false /\ Ascii.eqb c "_" = false
  | EmptyString => True
  end ->
  digitpart_tail (d ++ rest) = (d, rest).
Proof.
  unfold all_digits. intros A R.
  induction d as [|c r IH]; cbn [append].
  - destruct rest as [|c r]; [reflexivity|].
    destruct R as [D U]. cbn [digitpart_tail]. now rewrite D, U.
  - cbn [list_ascii_of_string forallb] in A.
    apply andb_prop in A as [D A]. cbn [digitpart_tail].
    now rewrite D, IH.
Qed.

Lemma digitpart_stop (d rest : string) :
  all_digits d = true -> d <> EmptyString ->
  match rest with
  | String c _ => isdigit c = false /\ Ascii.eqb c "_" = false
  | EmptyString => True
  end ->
  digitpart (d ++ rest) = Some (d, rest).
Proof.
  intros A N R. destruct d as [|c r]; [congruence|].
  unfold all_digits in A. cbn [list_ascii_of_string forallb] in A.
  apply andb_prop in A as [D A]. cbn [append digitpart]. rewrite D.
  now rewrite digitpart_tail_stop.
Qed.

Lemma all_digits_app (a b : string) :
  all_digits a = true -> all_digits b = true -> all_digits (a ++ b) = true.
Proof.
  unfold all_digits. intros A B.
  induction a as [|c r IH]; cbn [append list_ascii_of_string forallb] in *;
    [exact B|].
  apply andb_prop in A as [D A]. now rewrite D, IH.
Qed.

Lemma chars_app (a b : string) : chars (a ++ b) = (chars a ++ chars b)%list.
Proof.
  unfold chars. induction a as [|c r IH]; cbn [append list_ascii_of_string app];
    congruence.
Qed.

(** [float] accepts every text the regular expression matches. *)
Lemma float_of_str_literal (m : string) :
  number_literal m -> exists x, float_of_str m = Some x.
Proof.
  intros L.
  assert (CH : forall c, In c (chars m) ->
                         48 <= code c <= 57 \/ code c = 45 \/ code c = 43
                         \/ code c = 46).
  { destruct L as [sg d1 SG A1 N1|sg d1 d2 SG A1 A2 N2]; intros c;
      rewrite !chars_app, ?in_app_iff;
      intros I;
      repeat match goal with
             | H : _ \/ _ |- _ => destruct H
             | H : In _ (chars ?d), A : all_digits ?d = true |- _ =>
                 apply (all_digits_chars d _ A), isdigit_code in H
             end;
      try lia;
      destruct SG as [ -> | [ -> | -> ] ];
      cbn in *; intuition (subst; cbn; lia). }
  unfold float_of_str.
  rewrite strip_by_none.
  2:{ intros c I. apply CH in I. unfold isblank_num. cbn zeta. lia. }
  assert (B : exists neg body d1 fr,
             read_sign m = (neg, body) /\ body = d1 ++ fr
             /\ all_digits d1 = true
             /\ ((fr = EmptyString /\ d1 <> EmptyString)
                 \/ exists d2, fr = "." ++ d2 /\ all_digits d2 = true
                               /\ d2 <> EmptyString)).
  { assert (RS : forall body c r, body = String c r ->
                   (48 <= code c <= 57 \/ code c = 46) ->
                   forall sg, is_sign sg ->
                   exists neg, read_sign (sg ++ body) = (neg, body)).
    { intros body c r -> C sg [ -> | [ -> | -> ] ].
      - exists false. cbn [append read_sign].
        rewrite !code_neq; [reflexivity| |]; code_lia.
      - now exists true.
      - now exists false. }
    destruct L as [sg d1 SG A1 N1|sg d1 d2 SG A1 A2 N2].
    - destruct d1 as [|c r] eqn:E; [congruence|].
      destruct (RS (String c r) c r eq_refl) with (sg := sg) as [neg R];
        [|assumption|].
      { left. apply isdigit_code, (all_digits_chars (String c r) c A1).
        now left. }
      exists neg, (String c r), (String c r), EmptyString.
      rewrite append_empty_r. repeat split; try assumption. now left.
    - assert (exists c r, d1 ++ "." ++ d2 = String c r
                          /\ (48 <= code c <= 57 \/ code c = 46))
        as (c & r & E & C).
      { destruct d1 as [|c r]; cbn [append].
        - eexists _, _. split; [reflexivity|]. right. reflexivity.
        - eexists _, _. split; [reflexivity|]. left.
          apply isdigit_code, (all_digits_chars (String c r) c A1). now left. }
      destruct (RS _ c r E C sg SG) as [neg R].
      exists neg, (d1 ++ "." ++ d2), d1, ("." ++ d2).
      repeat split; try assumption. right. now exists d2. }
  destruct B as (neg & body & d1 & fr & -> & -> & A1 & F).
  assert (NM : (String.eqb (lower_str (d1 ++ fr)) "inf"
                || String.eqb (lower_str (d1 ++ fr)) "infinity") = false
               /\ String.eqb (lower_str (d1 ++ fr)) "nan" = false).
  { assert (exists c r, d1 ++ fr = String c r
                        /\ (48 <= code c <= 57 \/ code c = 46))
      as (c & r & -> & C).
    { destruct d1 as [|c r]; cbn [append].
      - destruct F as [[_ N]|(d2 & -> & _)]; [congruence|].
        eexists _, _. split; [reflexivity|]. now right.
      - eexists _, _. split; [reflexivity|]. left.
        apply isdigit_code, (all_digits_chars (String c r) c A1). now left. }
    cbn [lower_str String.eqb].
    assert (LC : lower c = c).
    { unfold lower. cbn zeta.
      destruct (Z.leb_spec 65 (code c)); [lia|reflexivity]. }
    rewrite LC, !code_neq by code_lia. split; reflexivity. }
  destruct NM as [-> ->].
  destruct F as [[-> N1]|(d2 & -> & A2 & N2)].
  - rewrite append_empty_r, digitpart_all by assumption.
    rewrite append_empty_r. apply nonempty_true in N1. rewrite N1.
    cbn. eauto.
  - destruct d1 as [|c1 r1] eqn:E1.
    + cbn [append digitpart isdigit]. 
      change (isdigit ".") with false. cbn iota.
      rewrite Ascii.eqb_refl, digitpart_all by assumption.
      cbn [append]. apply nonempty_true in N2. rewrite N2. cbn. eauto.
    + rewrite digitpart_stop; [|assumption|discriminate|split; reflexivity].
      cbn [append]. rewrite Ascii.eqb_refl, digitpart_all by assumption.
      cbn [append nonempty]. cbn. eauto.
Qed.

Lemma re_search_number_literal (s m : string) :
  re_search_number s = Some m -> number_literal m.
Proof.
  induction s as [|c r IH]; cbn [re_search_number].
  - destruct (re_match_number EmptyString) eqn:M; [|discriminate].
    intros [= <-]. now apply (re_match_number_literal EmptyString).
  - destruct (re_match_number (String c r)) eqn:M; [|exact IH].
    intros [= <-]. now apply (re_match_number_literal (String c r)).
Qed.

Lemma span_digits_no_digit (s : string) :
  has_digit s = false -> span_digits s = (EmptyString, s).
Proof.
  destruct s as [|c r]; [reflexivity|].
  unfold has_digit. cbn [chars list_ascii_of_string existsb span_digits].
  intros H. apply orb_false_iff in H as [-> _]. reflexivity.
Qed.

Lemma re_match_number_at_digit (c : ascii) (r : string) :
  isdigit c = true -> re_match_number (String c r) <> None.
Proof.
  intros D. pose proof (isdigit_code c D) as C. unfold re_match_number.
  rewrite !code_neq by code_lia. cbn [orb span_digits]. rewrite D.
  destruct (span_digits r) as [d rest]. cbn [nonempty].
  destruct rest as [|x s3]; [discriminate|].
  destruct (Ascii.eqb x "."); [|discriminate].
  destruct (span_digits s3) as [d2 ?]. destruct (nonempty d2); discriminate.
Qed.

Lemma has_digit_tail (c : ascii) (r : string) :
  has_digit (String c r) = false -> has_digit r = false.
Proof.
  unfold has_digit. cbn [chars list_ascii_of_string existsb].
  intros H. now apply orb_false_iff in H as [_ H].
Qed.

Lemma re_match_number_no_digit (s : string) :
  has_digit s = false -> re_match_number s = None.
Proof.
  intros H. unfold re_match_number.
  assert (T : forall t, has_digit t = false ->
               span_digits t = (EmptyString, t)
               /\ match t with
                  | String _ s3 => span_digits s3 = (EmptyString, s3)
                  | EmptyString => True
                  end).
  { intros t Ht. split; [now apply span_digits_no_digit|].
    destruct t as [|x s3]; [exact I|].
    now apply span_digits_no_digit, (has_digit_tail x). }
  destruct s as [|c r].
  - reflexivity.
  - destruct (Ascii.eqb c "-" || Ascii.eqb c "+").
    + destruct (T r (has_digit_tail c r H)) as [-> T2]. cbn [nonempty].
      destruct r as [|x s3]; [reflexivity|].
      rewrite T2. now destruct (Ascii.eqb x ".").
    + destruct (T (String c r) H) as [-> T2]. cbn [nonempty].
      rewrite T2. now destruct (Ascii.eqb c ".").
Qed.

Lemma re_search_number_none (s : string) :
  re_search_number s = None <-> has_digit s = false.
Proof.
  induction s as [|c r IH]; cbn [re_search_number].
  - split; reflexivity.
  - unfold has_digit. cbn [chars list_ascii_of_string existsb].
    fold (chars r). fold (has_digit r). split.
    + destruct (re_match_number (String c r)) eqn:M; [discriminate|].
      intros S. apply IH in S. rewrite S, orb_false_r.
      destruct (isdigit c) eqn:D; [|reflexivity].
      now apply re_match_number_at_digit with (r := r) in D.
    + intros H. rewrite re_match_number_no_digit.
      * apply IH. now apply orb_false_iff in H as [_ H].
      * exact H.
Qed.

(** X17. A text yields a number exactly when it has a decimal digit:
    [get_numeric_value] gives [None] on a text without digits and a number
    on every other text, whatever surrounds the digits. *)
Theorem get_numeric_value_of_text (s : string) :
  get_numeric_value (VStr s) = None <-> has_digit s = false.
Proof.
  cbn [get_numeric_value str]. split.
  - destruct (re_search_number s) as [m|] eqn:R.
    + destruct (float_of_str_literal m (re_search_number_literal s m R))
        as [x ->]. discriminate.
    + intros _. now apply re_search_number_none.
  - intros H. apply re_search_number_none in H. now rewrite H.
Qed.

(* ====================================================================== *)
(** * Further properties of the filters *)
(* ====================================================================== *)

From Stdlib Require Import Permutation Sorted.

(** ** The scorer *)

Lemma calculate_quality_score_value (issues : list string) :
  calculate_quality_score issues
  = Z.max 0 (100 - Spec.total_deduction issues).
Proof.
  unfold calculate_quality_score.
  destruct issues as [|i r]; [reflexivity|].
  now rewrite fold_deduct.
Qed.

Lemma total_deduction_app (l m : list string) :
  Spec.total_deduction (l ++ m)
  = Spec.total_deduction l + Spec.total_deduction m.
Proof.
  induction l as [|i r IH]; cbn [app Spec.total_deduction fold_right].
  - reflexivity.
  - fold (Spec.total_deduction (r ++ m)). fold (Spec.total_deduction r).
    rewrite IH. lia.
Qed.

Lemma total_deduction_length (issues : list string) :
  5 * Z.of_nat (List.length issues) <= Spec.total_deduction issues.
Proof.
  induction issues as [|i r IH]; cbn [List.length Spec.total_deduction fold_right].
  - lia.
  - fold (Spec.total_deduction r). pose proof (deduction_positive i). lia.
Qed.

Lemma total_deduction_perm (l m : list string) :
  Permutation l m -> Spec.total_deduction l = Spec.total_deduction m.
Proof.
  unfold Spec.total_deduction.
  induction 1 as [|x l m _ IH|x y l|l m n _ IH1 _ IH2]; cbn [fold_right].
  - reflexivity.
  - lia.
  - lia.
  - congruence.
Qed.

(** X1. Only the empty list of issues scores 100: one issue or more scores
    at most 95, and twenty issues or more score 0, whatever they say. *)
Theorem calculate_quality_score_extremes (issues : list string) :
  (calculate_quality_score issues = 100 <-> issues = [])
  /\ (issues <> [] -> calculate_quality_score issues <= 95)
  /\ ((20 <= List.length issues)%nat -> calculate_quality_score issues = 0).
Proof.
  rewrite calculate_quality_score_value.
  pose proof (total_deduction_length issues) as L.
  assert (N : issues <> [] -> 5 <= Spec.total_deduction issues).
  { destruct issues as [|i r]; [congruence|]. intros _.
    cbn [List.length] in L. lia. }
  repeat split.
  - intros E. destruct issues as [|i r]; [reflexivity|].
    specialize (N ltac:(discriminate)). lia.
  - intros ->. reflexivity.
  - intros H. specialize (N H). lia.
  - intros H. lia.
Qed.

(** X2. The score does not depend on the order of the issues. *)
Theorem calculate_quality_score_permutation (issues issues' : list string) :
  Permutation issues issues' ->
  calculate_quality_score issues = calculate_quality_score issues'.
Proof.
  intros P. rewrite !calculate_quality_score_value.
  now rewrite (total_deduction_perm _ _ P).
Qed.

Lemma calculate_quality_score_permutation_example :
  Permutation ["HIGH_LOAD: 85.0% (1000W capacity)"; "UNDERVOLTAGE: 180.0V"]
              ["UNDERVOLTAGE: 180.0V"; "HIGH_LOAD: 85.0% (1000W capacity)"]
  /\ calculate_quality_score
       ["HIGH_LOAD: 85.0% (1000W capacity)"; "UNDERVOLTAGE: 180.0V"]
     = calculate_quality_score
         ["UNDERVOLTAGE: 180.0V"; "HIGH_LOAD: 85.0% (1000W capacity)"].
Proof.
  split; [apply perm_swap|].
  apply calculate_quality_score_permutation. apply perm_swap.
Defined.

(** X3. One more issue never raises the score: the score of a list with
    further issues added, anywhere, is at most the score of the list. *)
Theorem calculate_quality_score_antitone (before more after : list string) :
  calculate_quality_score (before ++ more ++ after)
  <= calculate_quality_score (before ++ after).
Proof.
  rewrite !calculate_quality_score_value, !total_deduction_app.
  pose proof (total_deduction_nonneg more). lia.
Qed.

(** ** The recommendations *)

Lemma any_contains_ext (needle : string) (l m : list string) :
  (forall i, In i l <-> In i m) ->
  any_contains needle l = any_contains needle m.
Proof.
  intros H. unfold any_contains.
  apply eq_true_iff_eq. rewrite !existsb_exists.
  split; intros (x & I & C); exists x; (split; [apply H; exact I|exact C]).
Qed.

(** X4. The recommendations depend only on which issues there are: not on
    their order, not on how often one occurs, and not on the monitoring
    data. *)
Theorem generate_recommendations_set (issues issues' : list string)
    (monitoring_data monitoring_data' : value) :
  (forall i, In i issues <-> In i issues') ->
  generate_recommendations issues monitoring_data
  = generate_recommendations issues' monitoring_data'.
Proof.
  intros H. unfold generate_recommendations.
  rewrite !(any_contains_ext _ issues issues' H).
  replace (match issues with [] => _ | _ => [] end)
    with (match issues' with
          | [] => ["UPS operating normally - continue regular monitoring"]
          | _ => @nil string
          end); [reflexivity|].
  destruct issues as [|i r], issues' as [|i' r']; try reflexivity.
  - destruct (proj2 (H i') (or_introl eq_refl)).
  - destruct (proj1 (H i) (or_introl eq_refl)).
Qed.

Lemma generate_recommendations_set_example :
  (forall i,
      In i ["HIGH_LOAD: 85.0% (1000W capacity)"; "UNDERVOLTAGE: 180.0V";
            "HIGH_LOAD: 85.0% (1000W capacity)"]
      <-> In i ["UNDERVOLTAGE: 180.0V"; "HIGH_LOAD: 85.0% (1000W capacity)"])
  /\ generate_recommendations
       ["HIGH_LOAD: 85.0% (1000W capacity)"; "UNDERVOLTAGE: 180.0V";
        "HIGH_LOAD: 85.0% (1000W capacity)"] VNone
     = generate_recommendations
         ["UNDERVOLTAGE: 180.0V"; "HIGH_LOAD: 85.0% (1000W capacity)"]
         (VDict []).
Proof.
  assert (H : forall i,
      In i ["HIGH_LOAD: 85.0% (1000W capacity)"; "UNDERVOLTAGE: 180.0V";
            "HIGH_LOAD: 85.0% (1000W capacity)"]
      <-> In i ["UNDERVOLTAGE: 180.0V"; "HIGH_LOAD: 85.0% (1000W capacity)"]).
  { intros i. cbn [In]. tauto. }
  split; [exact H|].
  apply generate_recommendations_set. exact H.
Defined.

Lemma any_contains_false (needle : string) (issues : list string) :
  any_contains needle issues = false
  <-> forall i, In i issues -> contains needle i = false.
Proof.
  unfold any_contains. induction issues as [|i r IH]; cbn [existsb In].
  - split; [intros _ i []|reflexivity].
  - rewrite orb_false_iff, IH. split.
    + intros [C R] j [<-|I]; [exact C|now apply R].
    + intros H. split; [apply H; now left|]. intros j I. apply H. now right.
Qed.

(** X5. The advice to continue regular monitoring is given exactly when
    there is no issue; and no recommendation at all is given exactly when
    there are issues and none of them mentions a voltage compensation, a
    high load, a high temperature or the frequency (an undervoltage alone,
    for one, gets none). *)
Theorem generate_recommendations_none (issues : list string)
    (monitoring_data : value) :
  (In normal_recommendation
      (generate_recommendations issues monitoring_data)
   <-> issues = [])
  /\ (generate_recommendations issues monitoring_data = []
      <-> issues <> []
          /\ forall i, In i issues ->
               contains "VOLTAGE_COMPENSATION" i = false
               /\ contains "HIGH_LOAD" i = false
               /\ contains "HIGH_TEMPERATURE" i = false
               /\ contains "FREQUENCY" i = false).
Proof.
  unfold generate_recommendations. split.
  - split.
    + intros I. destruct issues as [|i r]; [reflexivity|]. exfalso.
      unfold normal_recommendation in I.
      destruct (any_contains "VOLTAGE_COMPENSATION" (i :: r)),
               (any_contains "HIGH_LOAD" (i :: r)),
               (any_contains "HIGH_TEMPERATURE" (i :: r)),
               (any_contains "FREQUENCY" (i :: r));
        cbn [app In] in I;
        repeat match type of I with
               | _ \/ _ => destruct I as [I|I]
               end;
        solve [discriminate I | exact I].
    + intros ->. cbn. now left.
  - split.
    + intros E.
      destruct (any_contains "VOLTAGE_COMPENSATION" issues) eqn:A;
        [discriminate E|].
      destruct (any_contains "HIGH_LOAD" issues) eqn:B; [discriminate E|].
      destruct (any_contains "HIGH_TEMPERATURE" issues) eqn:C;
        [discriminate E|].
      destruct (any_contains "FREQUENCY" issues) eqn:D; [discriminate E|].
      destruct issues as [|i r]; [discriminate E|].
      split; [discriminate|]. intros j I.
      rewrite any_contains_false in A, B, C, D. auto.
    + intros [N H].
      assert (A : forall needle,
                 (forall i, In i issues -> contains needle i = false) ->
                 any_contains needle issues = false)
        by (intros needle; apply any_contains_false).
      rewrite !A by (intros i I; apply H; exact I).
      destruct issues as [|i r]; [congruence|reflexivity].
Qed.

(** ** Comparisons of small integers, as doubles *)

Lemma float_truthy_round_int (n : Z) :
  Z.abs n < 2 ^ 53 -> float_truthy (round_int n) = negb (n =? 0).
Proof.
  intros H. unfold round_int, binary_normalize.
  destruct n as [|p|p]; [reflexivity| |].
  - destruct (binary_round_normal false p H) as (m & -> & _). reflexivity.
  - destruct (binary_round_normal true p H) as (m & -> & _). reflexivity.
Qed.

Lemma float_lt_int_round_int (n k : Z) :
  Z.abs n < 2 ^ 53 -> Z.abs k < 2 ^ 53 ->
  float_lt_int (round_int n) k = (n <? k).
Proof.
  intros Hn Hk. unfold float_lt_int, SFltb.
  rewrite SFcompare_round_int by assumption.
  unfold Z.ltb. now destruct (n ?= k).
Qed.

Lemma float_gt_int_round_int (n k : Z) :
  Z.abs n < 2 ^ 53 -> Z.abs k < 2 ^ 53 ->
  float_gt_int (round_int n) k = (k <? n).
Proof.
  intros Hn Hk. unfold float_gt_int, SFltb.
  rewrite SFcompare_round_int by assumption.
  unfold Z.ltb. now destruct (k ?= n).
Qed.

Lemma float_abs_round_int (n : Z) :
  Z.abs n < 2 ^ 53 -> float_abs (round_int n) = round_int (Z.abs n).
Proof.
  intros H. unfold float_abs, round_int, binary_normalize.
  destruct n as [|p|p]; [reflexivity| |]; cbn [Z.abs].
  - destruct (binary_round_normal false p H) as (m & -> & _). reflexivity.
  - destruct (binary_round_normal true p H) as (m & -> & V & _).
    destruct (binary_round_normal false p H) as (m' & -> & V' & _).
    cbn [SFabs]. f_equal. lia.
Qed.

Lemma get_numeric_value_reading (r : option Z) :
  small r -> get_numeric_value (reading r) = option_map round_int r.
Proof.
  destruct r as [n|]; [|reflexivity]. intros H.
  cbn [reading get_numeric_value option_map].
  now apply float_of_int_small.
Qed.

Ltac small_int := assumption || (cbn; lia).

(** ** The checks of the evaluator on integer readings *)

Lemma add_findings_nil (f : findings) : add_findings [] f = f.
Proof.
  destruct f as [i a]. unfold add_findings. cbn [fst snd map].
  now rewrite !List.app_nil_r.
Qed.

Lemma add_findings_one (issue alert : string) (f : findings) :
  add_findings [(issue, alert)] f = append_finding issue alert f.
Proof. reflexivity. Qed.

Lemma add_findings_app (l m : list (string * string)) (f : findings) :
  add_findings (l ++ m) f = add_findings m (add_findings l f).
Proof.
  unfold add_findings. cbn [fst snd]. now rewrite !List.map_app, !List.app_assoc.
Qed.

Lemma check_voltage_int (v : option Z) (f : findings) :
  small v ->
  check_voltage (option_map round_int v) f
  = add_findings (voltage_findings v) f.
Proof.
  destruct v as [n|]; cbn [small option_map check_voltage voltage_findings];
    [|now rewrite add_findings_nil].
  intros H.
  rewrite float_truthy_round_int, float_lt_int_round_int,
    float_gt_int_round_int by small_int.
  destruct (n =? 0); cbn [negb]; [now rewrite add_findings_nil|].
  destruct (n <? 200); [reflexivity|].
  destruct (250 <? n); [reflexivity|now rewrite add_findings_nil].
Qed.

Lemma check_state_int (s : option Z) (f : findings) :
  small s ->
  check_state (option_map round_int s) f
  = add_findings (state_findings s) f.
Proof.
  destruct s as [n|]; cbn [small option_map state_findings].
  - intros H. rewrite check_state_on_integer by exact H.
    destruct (Spec.state_finding n) as [[issue alert]|];
      [reflexivity|now rewrite add_findings_nil].
  - intros _. now rewrite add_findings_nil.
Qed.

Lemma check_load_int (l : option Z) (monitoring_data capacity_watts : value)
    (f f' : findings) :
  small l ->
  get monitoring_data "capacity_watts" (VInt 1000) = Ok capacity_watts ->
  check_load (option_map round_int l) capacity_watts f = Ok f' ->
  f' = add_findings (load_findings l (capacity_text monitoring_data)) f.
Proof.
  unfold capacity_text. intros H ->.
  destruct l as [n|]; cbn [small option_map check_load load_findings] in *.
  - rewrite float_truthy_round_int, !float_gt_int_round_int by small_int.
    destruct (Z.eqb_spec n 0) as [->|N]; cbn [negb].
    + cbn. intros [= <-]. now rewrite add_findings_nil.
    + destruct (80 <? n).
      * destruct (str capacity_watts) as [text|e]; cbn [bind];
          [|discriminate].
        now intros [= <-].
      * destruct (60 <? n); intros [= <-];
          [reflexivity|now rewrite add_findings_nil].
  - intros [= <-]. now rewrite add_findings_nil.
Qed.

Lemma check_temperature_int (t : option Z) (f : findings) :
  small t ->
  check_temperature (option_map round_int t) f
  = add_findings (temperature_findings t) f.
Proof.
  destruct t as [n|];
    cbn [small option_map check_temperature temperature_findings];
    [|now rewrite add_findings_nil].
  intros H.
  rewrite float_truthy_round_int, float_gt_int_round_int by small_int.
  destruct (Z.eqb_spec n 0) as [->|N]; cbn [negb andb].
  - cbn. now rewrite add_findings_nil.
  - destruct (35 <? n); [reflexivity|now rewrite add_findings_nil].
Qed.

Lemma check_frequency_int (q : option Z) (f : findings) :
  small q ->
  check_frequency (option_map round_int q) f
  = add_findings (frequency_findings q) f.
Proof.
  destruct q as [n|];
    cbn [small option_map check_frequency frequency_findings];
    [|now rewrite add_findings_nil].
  intros H.
  rewrite float_truthy_round_int, float_lt_int_round_int,
    float_gt_int_round_int by small_int.
  destruct (n =? 0); cbn [negb]; [now rewrite add_findings_nil|].
  destruct ((n <? 49) || (51 <? n));
    [reflexivity|now rewrite add_findings_nil].
Qed.

Lemma decode_ups_state_int (s : option Z) :
  small s ->
  decode_ups_state (of_optional (option_map round_int s))
  = Ok (state_text s).
Proof.
  destruct s as [n|]; cbn [small option_map of_optional state_text];
    [|reflexivity].
  intros H.
  apply (decode_ups_state_of_number _ (round_int n) n);
    [reflexivity|now apply int_of_float_round_int].
Qed.

(** ** The evaluator, step by step *)

Lemma analyze_body_steps (now : string) (md : value) (a : analysis) :
  analyze_body now md = Ok a ->
  exists snmp parsed state_info capacity_watts f,
    get md "snmp_data" (VDict []) = Ok (VDict snmp)
    /\ parse_items snmp [] = Ok parsed
    /\ decode_ups_state
         (of_optional (get_numeric_value (dict_get parsed "ups_basic_state")))
       = Ok state_info
    /\ get md "capacity_watts" (VInt 1000) = Ok capacity_watts
    /\ check_load (get_numeric_value (dict_get parsed "output_load"))
         capacity_watts
         (check_state (get_numeric_value (dict_get parsed "ups_basic_state"))
            (check_voltage
               (get_numeric_value (dict_get parsed "input_voltage"))
               ([], [])))
       = Ok f
    /\ a = (let f :=
              check_frequency
                (get_numeric_value (dict_get parsed "input_frequency"))
                (check_temperature
                   (get_numeric_value (dict_get parsed "battery_temperature"))
                   f) in
            {| power_quality_issues := fst f;
               alerts := snd f;
               parsed_snmp_data := Some parsed;
               ups_state_description := Some state_info;
               analysis_timestamp := Some now;
               quality_score := Some (calculate_quality_score (fst f));
               recommendations :=
                 Some (generate_recommendations (fst f) md);
               error := None |}).
Proof.
  unfold analyze_body.
  destruct (get md "snmp_data" (VDict [])) as [sv|] eqn:G; [|discriminate].
  cbn [bind].
  destruct (items sv) as [snmp|] eqn:I; [|discriminate]. cbn [bind].
  assert (sv = VDict snmp) as ->.
  { destruct sv; try discriminate I. now injection I as ->. }
  destruct (parse_items snmp []) as [parsed|] eqn:P; [|discriminate].
  cbn [bind].
  destruct (decode_ups_state _) as [state_info|] eqn:D; [|discriminate].
  cbn [bind].
  destruct (get md "capacity_watts" (VInt 1000)) as [cw|] eqn:C;
    [|discriminate].
  cbn [bind].
  destruct (check_load _ cw _) as [f3|] eqn:L; [|discriminate].
  cbn [bind]. intros [= <-].
  exists snmp, parsed, state_info, cw, f3. repeat split; assumption.
Qed.

(** X6. The evaluator on integer readings. When the normalized readings of
    an evaluation that did not fail are integers (below 2^53 in size) or
    absent, the issues and alerts are those of the threshold table, in the
    order voltage, state, load, temperature, frequency, with the thresholds
    compared on the integers: voltage below 200 or above 250, state 4, 12
    or 3, load above 80 or above 60, temperature above 35, frequency below
    49 or above 51; a voltage or frequency of 0 reports nothing; and the
    state description is that of the integer state. *)
Theorem analyze_power_quality_on_integers (now : string) (md : value)
    (a : analysis) (parsed : dict) (v s l t q : option Z) :
  analyze_power_quality now md = Ok a ->
  error a = None ->
  parsed_snmp_data a = Some parsed ->
  dict_get parsed "input_voltage" = reading v ->
  dict_get parsed "ups_basic_state" = reading s ->
  dict_get parsed "output_load" = reading l ->
  dict_get parsed "battery_temperature" = reading t ->
  dict_get parsed "input_frequency" = reading q ->
  small v -> small s -> small l -> small t -> small q ->
  power_quality_issues a
  = map fst (all_findings v s l t q (capacity_text md))
  /\ alerts a = map snd (all_findings v s l t q (capacity_text md))
  /\ ups_state_description a = Some (state_text s).
Proof.
  intros A E P Gv Gs Gl Gt Gq Sv Ss Sl St Sq.
  apply analyze_power_quality_ok in A; [|exact E].
  destruct (analyze_body_steps _ _ _ A)
    as (snmp & parsed' & state_info & cw & f & _ & _ & D & C & L & ->).
  cbv zeta in *. cbn [parsed_snmp_data] in P. injection P as ->.
  rewrite Gs, get_numeric_value_reading in D, L by assumption.
  rewrite Gv, Gl, !get_numeric_value_reading in L by assumption.
  rewrite Gt, Gq, !get_numeric_value_reading by assumption.
  rewrite decode_ups_state_int in D by assumption. injection D as <-.
  rewrite check_voltage_int, check_state_int in L by assumption.
  apply (check_load_int l md cw) in L; [|assumption|assumption].
  subst f.
  rewrite check_temperature_int, check_frequency_int by assumption.
  rewrite <- !add_findings_app.
  cbn [power_quality_issues alerts ups_state_description].
  unfold add_findings, all_findings. cbn [fst snd app].
  rewrite <- ?List.app_assoc. repeat split.
Qed.

Lemma analyze_power_quality_on_integers_180 :
  power_quality_issues Inputs.analysis_180
  = map fst (all_findings (Some 180) (Some 3) (Some 45) None None
               (capacity_text Inputs.voltage_180))
  /\ alerts Inputs.analysis_180
     = map snd (all_findings (Some 180) (Some 3) (Some 45) None None
                  (capacity_text Inputs.voltage_180))
  /\ ups_state_description Inputs.analysis_180
     = Some (state_text (Some 3)).
Proof.
  apply (analyze_power_quality_on_integers
           Inputs.timestamp Inputs.voltage_180 Inputs.analysis_180
           [("input_voltage", VInt 180); ("ups_basic_state", VInt 3);
            ("output_load", VInt 45)]);
    try reflexivity; cbn; lia.
Defined.

(** ** The order of the findings *)

Lemma category_rank_tagged (rest : string) :
  category_rank ("UNDERVOLTAGE: " ++ rest) = 1%nat
  /\ category_rank ("OVERVOLTAGE: " ++ rest) = 1%nat
  /\ category_rank ("HIGH_LOAD: " ++ rest) = 3%nat
  /\ category_rank ("MODERATE_LOAD: " ++ rest) = 3%nat
  /\ category_rank ("HIGH_TEMPERATURE: " ++ rest) = 4%nat
  /\ category_rank ("FREQUENCY_DEVIATION: " ++ rest) = 5%nat.
Proof.
  unfold category_rank.
  repeat split;
    match goal with
    | |- context [?tag ++ rest] => rewrite (prefix_append tag)
    end;
    vm_compute; reflexivity.
Qed.

Ltac rank_of_tag :=
  match goal with
  | |- category_rank _ = _ => eapply category_rank_tagged
  end.

Lemma check_voltage_adds (x : option float) (f : findings) :
  adds_at_most_one 1 f (check_voltage x f).
Proof.
  unfold check_voltage.
  destruct x as [v|]; [|now left].
  destruct (float_truthy v); [|now left].
  destruct (float_lt_int v 200).
  { right. do 2 eexists. split; [reflexivity|]. rank_of_tag. }
  destruct (float_gt_int v 250); [|now left].
  right. do 2 eexists. split; [reflexivity|]. rank_of_tag.
Qed.

Lemma check_state_adds (x : option float) (f : findings) :
  adds_at_most_one 2 f (check_state x f).
Proof.
  unfold check_state.
  destruct (state_is x 4);
    [right; do 2 eexists; split; [reflexivity|vm_compute; reflexivity]|].
  destruct (state_is x 12);
    [right; do 2 eexists; split; [reflexivity|vm_compute; reflexivity]|].
  destruct (state_is x 3);
    [right; do 2 eexists; split; [reflexivity|vm_compute; reflexivity]|].
  now left.
Qed.

Lemma check_load_adds (x : option float) (capacity_watts : value)
    (f f' : findings) :
  check_load x capacity_watts f = Ok f' -> adds_at_most_one 3 f f'.
Proof.
  unfold check_load.
  destruct x as [l|]; [|intros [= <-]; now left].
  destruct (float_truthy l); [|intros [= <-]; now left].
  destruct (float_gt_int l 80).
  { destruct (str capacity_watts) as [cw|]; unfold bind; [|discriminate].
    intros [= <-]. right. do 2 eexists. split; [reflexivity|].
    rank_of_tag. }
  destruct (float_gt_int l 60); intros [= <-]; [|now left].
  right. do 2 eexists. split; [reflexivity|]. rank_of_tag.
Qed.

Lemma check_temperature_adds (x : option float) (f : findings) :
  adds_at_most_one 4 f (check_temperature x f).
Proof.
  unfold check_temperature.
  destruct x as [t|]; [|now left].
  destruct (float_truthy t && float_gt_int t 35); [|now left].
  right. do 2 eexists. split; [reflexivity|]. rank_of_tag.
Qed.

Lemma check_frequency_adds (x : option float) (f : findings) :
  adds_at_most_one 5 f (check_frequency x f).
Proof.
  unfold check_frequency.
  destruct x as [q|]; [|now left].
  destruct (float_truthy q); [|now left].
  destruct (float_lt_int q 49 || float_gt_int q 51); [|now left].
  right. do 2 eexists. split; [reflexivity|].
  rank_of_tag.
Qed.

(** X7. Whatever the input, the evaluator returns a result in which the
    issues and the alerts go in pairs (lists of the same length), there are
    at most five of them, and the issues come in the order voltage, state,
    load, temperature, frequency with at most one issue of each kind (the
    degraded result has the one pair ANALYSIS_ERROR, ANALYSIS_FAILED). *)
Theorem analyze_power_quality_findings_in_order (now : string) (md : value) :
  exists a,
    analyze_power_quality now md = Ok a
    /\ List.length (power_quality_issues a) = List.length (alerts a)
    /\ (List.length (power_quality_issues a) <= 5)%nat
    /\ StronglySorted lt (map category_rank (power_quality_issues a))
    /\ (error a = None ->
        Forall (fun issue => (1 <= category_rank issue)%nat)
               (power_quality_issues a)).
Proof.
  unfold analyze_power_quality, try_except.
  destruct (analyze_body now md) as [a|e] eqn:B.
  2:{ eexists. split; [reflexivity|]. cbn.
      repeat split; try lia; try discriminate. repeat constructor. }
  exists a. split; [reflexivity|].
  destruct (analyze_body_steps _ _ _ B)
    as (snmp & parsed & state_info & cw & f & _ & _ & _ & _ & L & ->).
  cbv zeta.
  cbn [power_quality_issues alerts error].
  apply check_load_adds in L.
  revert L.
  generalize (check_state_adds
                (get_numeric_value (dict_get parsed "ups_basic_state"))
                (check_voltage
                   (get_numeric_value (dict_get parsed "input_voltage"))
                   ([], []))).
  generalize (check_voltage_adds
                (get_numeric_value (dict_get parsed "input_voltage"))
                ([], [])).
  generalize (check_voltage
                (get_numeric_value (dict_get parsed "input_voltage"))
                ([], [])).
  intros f1 H1.
  generalize (check_state
                (get_numeric_value (dict_get parsed "ups_basic_state")) f1).
  intros f2 H2 H3.
  generalize (check_frequency_adds
                (get_numeric_value (dict_get parsed "input_frequency"))
                (check_temperature
                   (get_numeric_value
                      (dict_get parsed "battery_temperature")) f)).
  generalize (check_temperature_adds
                (get_numeric_value (dict_get parsed "battery_temperature"))
                f).
  generalize (check_temperature
                (get_numeric_value (dict_get parsed "battery_temperature"))
                f).
  intros f4 H4.
  generalize (check_frequency
                (get_numeric_value (dict_get parsed "input_frequency")) f4).
  intros f5 H5.
  destruct H1 as [->|(i1 & a1 & -> & R1)];
    destruct H2 as [->|(i2 & a2 & -> & R2)];
    destruct H3 as [->|(i3 & a3 & -> & R3)];
    destruct H4 as [->|(i4 & a4 & -> & R4)];
    destruct H5 as [->|(i5 & a5 & -> & R5)];
    cbn [append_finding fst snd app map List.length];
    rewrite ?R1, ?R2, ?R3, ?R4, ?R5;
    (split; [reflexivity|]);
    (split; [lia|]);
    (split; [repeat constructor; lia|]);
    intros _; repeat constructor; rewrite ?R1, ?R2, ?R3, ?R4, ?R5; lia.
Qed.

(** ** [analyze_voltage] *)

Lemma subtractable_small (r : option Z) : subtractable r -> small r.
Proof. destruct r as [n|]; cbn; [lia|trivial]. Qed.

(** X8. [analyze_voltage] on integer voltages (below 2^52 in size, or
    absent): the status is critical exactly when the input voltage is not 0
    and below 200 or above 250, with the one issue and recommendation of
    that case; and a difference of more than 10 between input and output,
    both not 0, adds an issue that prints the difference and changes
    neither the status nor the recommendations. *)
Theorem analyze_voltage_on_integers (voltage_data : value) (i o : option Z) :
  get voltage_data "input_voltage" VNone = Ok (reading i) ->
  get voltage_data "output_voltage" VNone = Ok (reading o) ->
  subtractable i -> subtractable o ->
  analyze_voltage voltage_data = Ok (voltage_table i o).
Proof.
  intros Gi Go Si So. unfold analyze_voltage.
  rewrite Gi, Go. cbn [bind].
  rewrite !get_numeric_value_reading by now apply subtractable_small.
  f_equal.
  destruct i as [n|]; cbn [option_map classify_voltage]; cbn in Si.
  2:{ destruct o; reflexivity. }
  assert (Hn : Z.abs n < 2 ^ 53) by lia.
  rewrite float_truthy_round_int, float_lt_int_round_int,
    float_gt_int_round_int by small_int.
  unfold voltage_table.
  assert (D : forall (a : voltage_analysis),
             compare_voltages (Some (round_int n)) (option_map round_int o) a
             = {| voltage_status := voltage_status a;
                  voltage_issues :=
                    (voltage_issues a
                       ++ match o with
                          | Some m =>
                              if negb (n =? 0) && negb (m =? 0)
                                 && (10 <? Z.abs (n - m))
                              then [("Large voltage difference: "
                                       ++ float_repr
                                            (round_int (Z.abs (n - m)))
                                       ++ "V")%string]
                              else []
                          | None => []
                          end)%list;
                  voltage_recommendations := voltage_recommendations a |}).
  { intros a. destruct o as [m|]; cbn [option_map compare_voltages].
    2:{ destruct a. cbn. now rewrite List.app_nil_r. }
    cbn in So. assert (Hm : Z.abs m < 2 ^ 53) by lia.
    rewrite !float_truthy_round_int by assumption.
    destruct (negb (n =? 0) && negb (m =? 0)); cbn [andb].
    2:{ destruct a. cbn. now rewrite List.app_nil_r. }
    rewrite float_sub_round_int by assumption.
    rewrite float_abs_round_int by lia.
    rewrite float_gt_int_round_int by (cbn; lia).
    destruct (10 <? Z.abs (n - m)); [reflexivity|].
    destruct a. cbn. now rewrite List.app_nil_r. }
  rewrite D.
  destruct (n =? 0); cbn [negb andb]; [reflexivity|].
  destruct (n <? 200); cbn [orb]; [reflexivity|].
  destruct (250 <? n); reflexivity.
Qed.

Lemma analyze_voltage_on_integers_example :
  analyze_voltage (VDict [("input_voltage", VInt 180);
                          ("output_voltage", VInt 230)])
  = Ok {| voltage_status := "critical";
          voltage_issues := ["Input voltage critically low";
                             "Large voltage difference: 50.0V"];
          voltage_recommendations := ["Check utility power quality"] |}.
Proof.
  apply (analyze_voltage_on_integers
           (VDict [("input_voltage", VInt 180); ("output_voltage", VInt 230)])
           (Some 180) (Some 230)); try reflexivity; cbn; lia.
Defined.

(** X9. [analyze_voltage] and the evaluator agree on the input voltage:
    on a mapping [analyze_voltage] returns, and its status is critical, with
    exactly one recommendation, when the evaluator's voltage check on the
    same reading reports an issue, and normal, with no recommendation, when
    it reports none; an output voltage never changes either.  On anything
    that is not a mapping it raises the [AttributeError] of [get]. *)
Theorem analyze_voltage_agrees_with_evaluator (voltage_data : value) :
  match voltage_data with
  | VDict d =>
      exists r,
        analyze_voltage voltage_data = Ok r
        /\ let reported :=
             fst (check_voltage
                    (get_numeric_value (dict_get d "input_voltage"))
                    ([], [])) in
           (reported <> []
            /\ voltage_status r = "critical"
            /\ List.length (voltage_recommendations r) = 1%nat)
           \/ (reported = []
               /\ voltage_status r = "normal"
               /\ voltage_recommendations r = [])
  | _ => analyze_voltage voltage_data
         = Raise (no_attribute voltage_data "get")
  end.
Proof.
  destruct voltage_data as [| | | | | |d]; try reflexivity.
  unfold analyze_voltage. cbn [get bind]. fold (dict_get d "input_voltage").
  eexists. split; [reflexivity|]. cbv zeta.
  destruct (get_numeric_value (dict_get d "input_voltage")) as [v|];
    cbn [classify_voltage check_voltage].
  2:{ right. cbn. repeat split. }
  assert (K : forall a,
             voltage_status (compare_voltages (Some v)
                (get_numeric_value
                   match dict_lookup "output_voltage" d with
                   | Some x => x
                   | None => VNone
                   end) a) = voltage_status a
             /\ voltage_recommendations (compare_voltages (Some v)
                  (get_numeric_value
                     match dict_lookup "output_voltage" d with
                     | Some x => x
                     | None => VNone
                     end) a) = voltage_recommendations a).
  { intros a. unfold compare_voltages.
    destruct (get_numeric_value _) as [o|]; [|now split].
    destruct (float_truthy v && float_truthy o); [|now split].
    destruct (float_gt_int _ 10); now split. }
  destruct (float_truthy v).
  2:{ right. rewrite !(proj1 (K _)), !(proj2 (K _)). cbn. repeat split. }
  destruct (float_lt_int v 200).
  { left. rewrite !(proj1 (K _)), !(proj2 (K _)). cbn.
    repeat split. discriminate. }
  destruct (float_gt_int v 250).
  { left. rewrite !(proj1 (K _)), !(proj2 (K _)). cbn.
    repeat split. discriminate. }
  right. rewrite !(proj1 (K _)), !(proj2 (K _)). cbn. repeat split.
Qed.

(** ** [analyze_load] *)

(** X10. The capacity passed to [analyze_load] has no influence on its
    result, but it has to be a mapping: with any two mappings the result is
    the same, and with anything else the call raises the [AttributeError]
    of [get] (when the load data are a mapping; otherwise these raise
    first). *)
Theorem analyze_load_capacity (load_data : value) :
  (forall c c', analyze_load load_data (VDict c)
                = analyze_load load_data (VDict c'))
  /\ (forall capacity_info,
        (forall c, capacity_info <> VDict c) ->
        analyze_load load_data capacity_info
        = match load_data with
          | VDict _ => Raise (no_attribute capacity_info "get")
          | _ => Raise (no_attribute load_data "get")
          end).
Proof.
  split.
  - intros c c'. unfold analyze_load.
    destruct (get load_data "output_load" VNone); reflexivity.
  - intros capacity_info N. unfold analyze_load.
    destruct load_data; try reflexivity.
    cbn [get bind].
    destruct capacity_info as [| | | | | |c]; try reflexivity.
    now destruct (N c).
Qed.

(** X11. [analyze_load] on an integer load (below 2^53 in size, or absent):
    above 80 the status and the utilization are critical, above 60 they are
    warning and high, and otherwise normal and low; a load below 20 that is
    not 0 (a negative one too) gets the advice that the UPS may be
    oversized, a load of 0 gets none. *)
Theorem analyze_load_on_integers (load_data : value) (capacity : dict)
    (l : option Z) :
  get load_data "output_load" VNone = Ok (reading l) ->
  small l ->
  analyze_load load_data (VDict capacity) = Ok (load_table l).
Proof.
  intros G S. unfold analyze_load. rewrite G. cbn [bind get].
  rewrite get_numeric_value_reading by assumption. f_equal.
  destruct l as [n|]; cbn [option_map classify_load load_table];
    [|reflexivity].
  cbn in S.
  rewrite float_truthy_round_int, !float_gt_int_round_int,
    float_lt_int_round_int by small_int.
  destruct (n =? 0); cbn [negb]; [reflexivity|].
  destruct (80 <? n); [reflexivity|].
  destruct (60 <? n); [reflexivity|].
  destruct (n <? 20); reflexivity.
Qed.

Lemma analyze_load_on_integers_example :
  analyze_load (VDict [("output_load", VInt 12)]) (VDict [])
  = Ok {| load_status := "normal"; load_utilization := "low";
          load_recommendations :=
            ["UPS may be oversized for current load"] |}.
Proof.
  apply (analyze_load_on_integers (VDict [("output_load", VInt 12)]) []
           (Some 12)); [reflexivity|cbn; lia].
Defined.

(** X12. [analyze_load] and the evaluator agree on the load: whenever the
    evaluator's load check returns on the reading of a mapping,
    [analyze_load] says critical exactly when the check raises the alert
    HIGH_LOAD, warning exactly when it raises MODERATE_LOAD, and normal
    exactly when it raises none. *)
Theorem analyze_load_agrees_with_evaluator (d capacity : dict)
    (capacity_watts : value) (f : findings) :
  check_load (get_numeric_value (dict_get d "output_load")) capacity_watts
             ([], []) = Ok f ->
  exists r,
    analyze_load (VDict d) (VDict capacity) = Ok r
    /\ (snd f = ["HIGH_LOAD"] /\ load_status r = "critical"
        \/ snd f = ["MODERATE_LOAD"] /\ load_status r = "warning"
        \/ snd f = [] /\ load_status r = "normal").
Proof.
  unfold analyze_load. cbn [get bind]. fold (dict_get d "output_load").
  intros C. eexists. split; [reflexivity|].
  revert C. unfold check_load, classify_load.
  destruct (get_numeric_value (dict_get d "output_load")) as [l|];
    [|intros [= <-]; right; right; now split].
  destruct (float_truthy l); [|intros [= <-]; right; right; now split].
  destruct (float_gt_int l 80).
  { destruct (str capacity_watts); unfold bind; [|discriminate].
    intros [= <-]. left. now split. }
  destruct (float_gt_int l 60).
  { intros [= <-]. right; left. now split. }
  intros [= <-]. right; right.
  destruct (float_lt_int l 20); now split.
Qed.

Lemma analyze_load_agrees_with_evaluator_example :
  exists r,
    analyze_load (VDict [("output_load", VInt 85)]) (VDict []) = Ok r
    /\ (snd (["HIGH_LOAD: 85.0% (1000W capacity)"], ["HIGH_LOAD"])
        = ["HIGH_LOAD"] /\ load_status r = "critical"
        \/ snd (["HIGH_LOAD: 85.0% (1000W capacity)"], ["HIGH_LOAD"])
           = ["MODERATE_LOAD"] /\ load_status r = "warning"
        \/ snd (["HIGH_LOAD: 85.0% (1000W capacity)"], ["HIGH_LOAD"])
           = [] /\ load_status r = "normal").
Proof.
  apply (analyze_load_agrees_with_evaluator
           [("output_load", VInt 85)] [] (VInt 1000)).
  vm_compute. reflexivity.
Defined.

(** ** [format_monitoring_data] *)

Lemma join_items_text (i : nat) (l : list string) :
  join_items i (map VStr l) = Returned l.
Proof.
  revert i. induction l as [|s r IH]; intros i; cbn [map join_items].
  - reflexivity.
  - now rewrite IH.
Qed.

Lemma joined_field_text (d : dict) (key : string) (l : list string) :
  dict_lookup key d = Some (text_list l) ->
  joined_field (VDict d) key = Returned (join "; " l).
Proof.
  intros L. unfold joined_field. cbn [get]. rewrite L.
  cbn [of_result outcome_bind text_list str_join].
  now rewrite join_items_text.
Qed.

Lemma numeric_field_dict (p : dict) (key : string) :
  numeric_field (VDict p) key
  = Returned (get_numeric_value (dict_get p key)).
Proof. reflexivity. Qed.

Lemma format_monitoring_data_full (issues alerts : list string)
    (parsed : dict) (state_info now : string) (score : Z)
    (recs : list string) :
  let a := {| power_quality_issues := issues;
              FilterModule.alerts := alerts;
              parsed_snmp_data := Some parsed;
              ups_state_description := Some state_info;
              analysis_timestamp := Some now;
              quality_score := Some score;
              recommendations := Some recs;
              error := None |} in
  format_monitoring_data (analysis_dict a) = Returned (formatted_analysis a).
Proof.
  cbv zeta. unfold format_monitoring_data, analysis_dict.
  cbn [power_quality_issues FilterModule.alerts parsed_snmp_data
       ups_state_description analysis_timestamp quality_score
       recommendations error optional_entry app].
  rewrite (joined_field_text _ "power_quality_issues" issues)
    by reflexivity.
  rewrite (joined_field_text _ "alerts" alerts) by reflexivity.
  reflexivity.
Qed.

Lemma format_monitoring_data_failed (e : exn) :
  format_monitoring_data (analysis_dict (analysis_failed e))
  = Returned (formatted_analysis (analysis_failed e)).
Proof. reflexivity. Qed.

(** X13. What the evaluator returns can always be formatted: for every
    input, [format_monitoring_data] applied to the result of
    [analyze_power_quality] returns; the issues and the alerts are joined by
    semicolon and space, the seven readings are the numbers extracted from
    the normalized metrics (none in the degraded result), the score and the
    state description are carried over (0 and Unknown in the degraded
    result), and the timestamp, host, address, status, model and location
    are the defaults, as the evaluator's result has none of these keys. *)
Theorem format_monitoring_data_of_analysis (now : string) (md : value) :
  exists a,
    analyze_power_quality now md = Ok a
    /\ format_monitoring_data (analysis_dict a)
       = Returned (formatted_analysis a).
Proof.
  unfold analyze_power_quality, try_except.
  destruct (analyze_body now md) as [a|e] eqn:B.
  - exists a. split; [reflexivity|].
    destruct (analyze_body_steps _ _ _ B)
      as (snmp & parsed & state_info & cw & f & _ & _ & _ & _ & _ & ->).
    apply format_monitoring_data_full.
  - exists (analysis_failed e). split; [reflexivity|].
    apply format_monitoring_data_failed.
Qed.

Lemma join_items_returned (i : nat) (xs : list value) (parts : list string) :
  join_items i xs = Returned parts -> xs = map VStr parts.
Proof.
  revert i parts.
  induction xs as [|x r IH]; intros i parts; cbn [join_items].
  - now intros [= <-].
  - destruct x; try discriminate.
    destruct (join_items (S i) r) as [rest|e] eqn:J; cbn [outcome_bind];
      [|discriminate].
    intros [= <-]. cbn [map]. f_equal. exact (IH _ _ J).
Qed.

(** X14. [format_monitoring_data] returns exactly when its argument is a
    mapping whose [parsed_snmp_data] (an empty mapping when the key is
    missing) is a mapping and whose [power_quality_issues] and [alerts]
    (empty lists when missing) can be joined; every other key may be
    missing or hold anything.  On an argument that is not a mapping it
    raises the [AttributeError] of [get]. *)
Theorem format_monitoring_data_returns_iff (raw_data : value) :
  match raw_data with
  | VDict d =>
      (exists r, format_monitoring_data raw_data = Returned r)
      <-> (exists parsed,
             get raw_data "parsed_snmp_data" (VDict []) = Ok (VDict parsed))
          /\ (exists issues,
                joined_field raw_data "power_quality_issues"
                = Returned issues)
          /\ (exists alerts,
                joined_field raw_data "alerts" = Returned alerts)
  | _ => format_monitoring_data raw_data
         = Raised (Exn (no_attribute raw_data "get"))
  end.
Proof.
  destruct raw_data as [| | | | | |d]; try reflexivity.
  unfold format_monitoring_data.
  cbn [get of_result outcome_bind].
  destruct (match dict_lookup "parsed_snmp_data" d with
            | Some x => x
            | None => VDict []
            end) as [| | | | | |parsed] eqn:P;
    try (split; [intros [r R]; discriminate R
                |intros [[p [= Q]] _]]).
  rewrite !numeric_field_dict. cbn [outcome_bind].
  destruct (joined_field (VDict d) "power_quality_issues") as [i|e];
    cbn [outcome_bind].
  2:{ split; [intros [r R]; discriminate R
             |intros (_ & [s S] & _); discriminate S]. }
  destruct (joined_field (VDict d) "alerts") as [al|e]; cbn [outcome_bind].
  2:{ split; [intros [r R]; discriminate R
             |intros (_ & _ & [s S]); discriminate S]. }
  split; eauto 10.
Qed.

(** X15. What [format_monitoring_data] joins.  When it returns, the value
    under [power_quality_issues] was a list of texts, and the field is
    these texts separated by semicolon and space; or it was one text, and
    the field is its characters so separated; or it was a mapping, and the
    field is its keys so separated. *)
Theorem format_monitoring_data_joins (d : dict) (r : formatted) :
  format_monitoring_data (VDict d) = Returned r ->
  match dict_lookup "power_quality_issues" d with
  | None => fmt_power_quality_issues r = EmptyString
  | Some (VList xs) =>
      exists parts,
        xs = map VStr parts
        /\ fmt_power_quality_issues r = join "; " parts
  | Some (VStr text) =>
      fmt_power_quality_issues r
      = join "; " (map (fun c => String c EmptyString) (chars text))
  | Some (VDict kvs) => fmt_power_quality_issues r = join "; " (map fst kvs)
  | Some _ => False
  end.
Proof.
  unfold format_monitoring_data.
  cbn [get of_result outcome_bind].
  destruct (match dict_lookup "parsed_snmp_data" d with
            | Some x => x
            | None => VDict []
            end) as [| | | | | |parsed]; try discriminate.
  rewrite !numeric_field_dict. cbn [outcome_bind].
  destruct (joined_field (VDict d) "power_quality_issues") as [i|e] eqn:J;
    cbn [outcome_bind]; [|discriminate].
  destruct (joined_field (VDict d) "alerts") as [al|e]; cbn [outcome_bind];
    [|discriminate].
  intros [= <-]. cbn [fmt_power_quality_issues].
  revert J. unfold joined_field. cbn [get of_result outcome_bind].
  destruct (dict_lookup "power_quality_issues" d) as [[| | | | |xs|kvs]|];
    cbn [str_join]; try discriminate.
  - now intros [= <-].
  - destruct (join_items 0 xs) as [parts|e] eqn:I; cbn [outcome_bind];
      [|discriminate].
    intros [= <-]. exists parts. split; [|reflexivity].
    exact (join_items_returned _ _ _ I).
  - now intros [= <-].
  - now intros [= <-].
Qed.

Lemma format_monitoring_data_joins_example :
  exists parts,
    [VStr "UNDERVOLTAGE: 180.0V"; VStr "POWER_FAILURE: Running on Battery"]
    = map VStr parts
    /\ fmt_power_quality_issues (formatted_analysis Inputs.analysis_180)
       = join "; " parts.
Proof.
  exact (format_monitoring_data_joins
           [("power_quality_issues",
             VList [VStr "UNDERVOLTAGE: 180.0V";
                    VStr "POWER_FAILURE: Running on Battery"]);
            ("alerts", VList [VStr "LOW_VOLTAGE"; VStr "ON_BATTERY"]);
            ("parsed_snmp_data",
             VDict [("input_voltage", VInt 180); ("ups_basic_state", VInt 3);
                    ("output_load", VInt 45)]);
            ("ups_state_description", VStr "On Battery");
            ("analysis_timestamp", VStr Inputs.timestamp);
            ("quality_score", VFloat (round_int 65));
            ("recommendations", VList [])]
           (formatted_analysis Inputs.analysis_180) eq_refl).
Defined.

(** ** The number of digits of a small integer *)

Lemma string_of_uint_length (u : Decimal.uint) :
  String.length (NilEmpty.string_of_uint u) = Decimal.nb_digits u.
Proof.
  induction u; cbn [NilEmpty.string_of_uint String.length Decimal.nb_digits];
    congruence.
Qed.

Lemma to_uint_normal (p : positive) :
  Decimal.nzhead (Pos.to_uint p) = Pos.to_uint p.
Proof.
  pose proof (DecimalN.Unsigned.to_of (Pos.to_uint p)) as E.
  unfold N.of_uint in E. rewrite DecimalPos.Unsigned.of_to in E.
  cbn [N.to_uint] in E.
  rewrite <- unorm_nzhead; [congruence|].
  intros Z. apply unorm_0 in Z. rewrite <- E in Z.
  exact (Unsigned.to_uint_nonzero p Z).
Qed.

Lemma uint_value_lower (u : Decimal.uint) :
  Decimal.nzhead u = u -> u <> Decimal.Nil ->
  10 ^ (Z.of_nat (Decimal.nb_digits u) - 1) <= Z.of_N (Pos.of_uint u).
Proof.
  intros H N.
  destruct u as [|u|u|u|u|u|u|u|u|u|u]; [congruence| | | | | | | | | |];
    try (cbn [Pos.of_uint Decimal.nb_digits];
         rewrite N2Z.inj_pos, of_uint_acc_value;
         replace (Z.of_nat (S (Decimal.nb_digits u)) - 1)
           with (Z.of_nat (Decimal.nb_digits u)) by lia;
         pose proof (N2Z.is_nonneg (Pos.of_uint u));
         assert (0 < 10 ^ Z.of_nat (Decimal.nb_digits u))
           by (apply Z.pow_pos_nonneg; lia);
         nia).
  exfalso. exact (nzhead_nonzero (Decimal.D0 u) u H).
Qed.

Lemma ndigits10_small (n : Z) :
  Z.abs n < 2 ^ 53 -> ndigits10 (Z.abs n) <= 16.
Proof.
  intros H. unfold ndigits10.
  destruct (Z.abs n) as [|p|p] eqn:A; [cbn; lia| |lia].
  cbn [Z.to_int NilZero.string_of_int].
  pose proof (DecimalPos.Unsigned.to_uint_nonnil p) as NN.
  assert (E : NilZero.string_of_uint (Pos.to_uint p)
              = NilEmpty.string_of_uint (Pos.to_uint p)).
  { unfold NilZero.string_of_uint. destruct (Pos.to_uint p); congruence. }
  rewrite E, string_of_uint_length.
  pose proof (uint_value_lower _ (to_uint_normal p) NN) as L.
  rewrite DecimalPos.Unsigned.of_to, N2Z.inj_pos in L.
  destruct (Z.le_gt_cases (Z.of_nat (Decimal.nb_digits (Pos.to_uint p))) 16)
    as [G|G]; [exact G|exfalso].
  assert (M : 10 ^ 16
              <= 10 ^ (Z.of_nat (Decimal.nb_digits (Pos.to_uint p)) - 1))
    by (apply Z.pow_le_mono_r; lia).
  change (10 ^ 16) with 10000000000000000 in M.
  change (2 ^ 53) with 9007199254740992 in H. lia.
Qed.

(** ** Lines of [snmpget] output *)

(** X16. A line [OID = TAG n] of [snmpget] output, with one of the six type
    tags and the decimal numeral of an integer [n] (of at most 4300
    digits), normalizes to the integer [n], whatever the OID, as long as it
    has no equals sign. *)
Theorem parse_snmp_value_integer_line (oid tag : string) (n : Z) :
  contains "=" oid = false ->
  In tag type_patterns ->
  ndigits10 (Z.abs n) <= Z.of_nat int_max_str_digits ->
  parse_snmp_value (VStr (snmp_line oid tag (str_of_int n))) = Ok (VInt n).
Proof. apply parse_snmp_value_numeral_line. Qed.

Lemma parse_snmp_value_integer_line_example :
  parse_snmp_value
    (VStr (snmp_line "SNMPv2-SMI::enterprises.318.1.1.1.3.2.1.0" "Gauge32:"
                     (str_of_int 228)))
  = Ok (VInt 228).
Proof.
  apply (parse_snmp_value_integer_line
           "SNMPv2-SMI::enterprises.318.1.1.1.3.2.1.0" "Gauge32:" 228).
  - reflexivity.
  - cbn. tauto.
  - vm_compute. discriminate.
Defined.

(** X18. Numbers from numerals.  The decimal text of an integer yields the
    double nearest to the integer, an infinity when the integer is beyond
    the range; and below 2^53 in size the text and the integer itself yield
    the same double, which converts back to the integer. *)
Theorem get_numeric_value_of_numeral (n : Z) :
  get_numeric_value (VStr (str_of_int n)) = Some (round_int n)
  /\ (Z.abs n < 2 ^ 53 ->
      get_numeric_value (VInt n) = Some (round_int n)
      /\ int_of_float (round_int n) = Ok n).
Proof.
  split.
  - cbn [get_numeric_value str].
    rewrite re_search_number_numeral. apply float_of_str_of_int.
  - intros H. split.
    + now apply float_of_int_small.
    + now apply int_of_float_round_int.
Qed.

(** X19. Decoding a line.  The state line [OID = TAG k] of [snmpget] for
    an integer [k] below 2^53 in size, normalized and then decoded, gives
    the description of the state [k] from the table, and "Unknown State
    (k.0)", with the state printed as a float, for an integer outside
    1..12. *)
Theorem decode_ups_state_of_line (oid tag : string) (k : Z) :
  contains "=" oid = false ->
  In tag type_patterns ->
  Z.abs k < 2 ^ 53 ->
  exists v,
    parse_snmp_value (VStr (snmp_line oid tag (str_of_int k))) = Ok v
    /\ decode_ups_state v = Ok (state_text (Some k)).
Proof.
  intros O T H. exists (VInt k). split.
  - apply parse_snmp_value_numeral_line; try assumption.
    pose proof (ndigits10_small k H). cbn. lia.
  - apply (decode_ups_state_of_number (VInt k) (round_int k) k).
    + now apply float_of_int_small.
    + now apply int_of_float_round_int.
Qed.

Lemma decode_ups_state_of_line_example :
  exists v,
    parse_snmp_value
      (VStr (snmp_line "PowerNet-MIB::upsBasicOutputStatus.0" "INTEGER:"
                       (str_of_int 3)))
    = Ok v
    /\ decode_ups_state v = Ok (state_text (Some 3)).
Proof.
  apply (decode_ups_state_of_line
           "PowerNet-MIB::upsBasicOutputStatus.0" "INTEGER:" 3).
  - reflexivity.
  - cbn. tauto.
  - cbn. lia.
Defined.

(** ** The evaluator on a metric set of integers, end to end *)

Lemma parse_snmp_value_integer_metric (raw : value) (n : Z) :
  integer_metric raw n -> Z.abs n < 2 ^ 53 ->
  parse_snmp_value raw = Ok (VInt n).
Proof.
  intros [m|oid tag m O T] H.
  - now apply parse_snmp_value_number.
  - apply parse_snmp_value_numeral_line; try assumption.
    pose proof (ndigits10_small m H). cbn. lia.
Qed.

Lemma parse_items_integer_metrics (snmp : dict)
    (readings : list (string * Z)) (acc : dict) :
  integer_metrics snmp readings ->
  NoDup (map fst acc ++ map fst snmp) ->
  parse_items snmp acc = Ok (acc ++ normalized readings)%list.
Proof.
  intros M. revert acc.
  induction M as [|[k raw] [k' n] snmp readings (K & I & S) M IH];
    intros acc N.
  - cbn. now rewrite List.app_nil_r.
  - cbn [fst snd] in K, I, S. subst k'.
    cbn [parse_items]. rewrite (parse_snmp_value_integer_metric raw n I S).
    cbn [bind]. cbn [map fst] in N.
    rewrite dict_set_fresh.
    2:{ apply NoDup_remove_2 in N. intros J. apply N.
        apply in_or_app. now left. }
    rewrite IH.
    + unfold normalized. cbn [map fst snd].
      now rewrite <- List.app_assoc.
    + rewrite List.map_app, <- List.app_assoc. exact N.
Qed.

Lemma dict_get_normalized (readings : list (string * Z)) (key : string) :
  dict_get (normalized readings) key = reading (reading_of readings key).
Proof.
  unfold dict_get.
  induction readings as [|[k n] rest IH];
    cbn [normalized map fst snd dict_lookup reading_of reading].
  - reflexivity.
  - destruct (String.eqb k key); [reflexivity|exact IH].
Qed.

Lemma integer_metrics_small (snmp : dict) (readings : list (string * Z))
    (key : string) :
  integer_metrics snmp readings -> small (reading_of readings key).
Proof.
  induction 1 as [|raw [k n] snmp readings (_ & _ & S) _ IH];
    cbn [reading_of small].
  - trivial.
  - destruct (String.eqb k key); [exact S|exact IH].
Qed.

(** X20. The evaluator on a metric set of integers, end to end.  Let the
    monitoring data be a mapping whose [snmp_data] gives each metric either
    as an integer or as the line [OID = TAG n] that [snmpget] prints for
    one, the integers below 2^53 in size, and whose capacity (1000 when
    missing) can be printed.  Then the evaluation does not fail: the
    normalized data are the integers, the issues and alerts are those of the
    threshold table on the five readings, the state is decoded from the
    integer state, and score and recommendations are computed from these
    issues. *)
Theorem analyze_power_quality_on_integer_metrics (now : string)
    (md : value) (snmp : dict) (readings : list (string * Z))
    (capacity_watts : value) (capacity : string) :
  get md "snmp_data" (VDict []) = Ok (VDict snmp) ->
  NoDup (map fst snmp) ->
  integer_metrics snmp readings ->
  get md "capacity_watts" (VInt 1000) = Ok capacity_watts ->
  str capacity_watts = Ok capacity ->
  let found :=
    all_findings (reading_of readings "input_voltage")
                 (reading_of readings "ups_basic_state")
                 (reading_of readings "output_load")
                 (reading_of readings "battery_temperature")
                 (reading_of readings "input_frequency")
                 capacity in
  analyze_power_quality now md
  = Ok {| power_quality_issues := map fst found;
          alerts := map snd found;
          parsed_snmp_data := Some (normalized readings);
          ups_state_description :=
            Some (state_text (reading_of readings "ups_basic_state"));
          analysis_timestamp := Some now;
          quality_score := Some (calculate_quality_score (map fst found));
          recommendations :=
            Some (generate_recommendations (map fst found) md);
          error := None |}.
Proof.
  intros G N M C P found.
  pose proof (fun key => integer_metrics_small snmp readings key M) as S.
  assert (T : capacity_text md = capacity).
  { unfold capacity_text. now rewrite C, P. }
  unfold analyze_power_quality, analyze_body.
  rewrite G. cbn [bind items].
  rewrite (parse_items_integer_metrics snmp readings [] M N).
  cbn [bind app].
  rewrite !dict_get_normalized, !get_numeric_value_reading by apply S.
  rewrite decode_ups_state_int by apply S. cbn [bind].
  rewrite C. cbn [bind].
  rewrite check_voltage_int, check_state_int by apply S.
  destruct (check_load
              (option_map round_int (reading_of readings "output_load"))
              capacity_watts
              (add_findings
                 (state_findings (reading_of readings "ups_basic_state"))
                 (add_findings
                    (voltage_findings (reading_of readings "input_voltage"))
                    ([], []))))
    as [f|e] eqn:L.
  - apply (check_load_int _ md) in L; [|apply S|exact C].
    subst f. cbn [bind try_except].
    rewrite check_temperature_int, check_frequency_int by apply S.
    rewrite <- !add_findings_app, T.
    unfold add_findings. cbn [fst snd app].
    rewrite <- ?List.app_assoc. reflexivity.
  - exfalso. revert L. unfold check_load.
    destruct (option_map round_int (reading_of readings "output_load"))
      as [l|]; [|discriminate].
    destruct (float_truthy l); [|discriminate].
    destruct (float_gt_int l 80);
      [rewrite P; discriminate|].
    destruct (float_gt_int l 60); discriminate.
Qed.

Lemma analyze_power_quality_on_integer_metrics_180 :
  analyze_power_quality Inputs.timestamp Inputs.voltage_180
  = Ok Inputs.analysis_180.
Proof.
  apply (analyze_power_quality_on_integer_metrics
           Inputs.timestamp Inputs.voltage_180 Inputs.snmp_180
           [("input_voltage", 180); ("ups_basic_state", 3);
            ("output_load", 45)]
           (VInt 1500) "1500").
  - reflexivity.
  - repeat constructor; cbn; intuition discriminate.
  - assert (L : forall n,
               Z.abs n < 2 ^ 53 ->
               integer_metric
                 (VStr (snmp_line "1.3.6.1" "INTEGER:" (str_of_int n))) n
               /\ Z.abs n < 2 ^ 53).
    { intros n H. split; [|exact H].
      apply metric_line; [reflexivity|cbn; tauto]. }
    unfold integer_metrics, Inputs.snmp_180.
    apply Forall2_cons;
      [split; [reflexivity|apply (L 180); cbn; lia]|].
    apply Forall2_cons;
      [split; [reflexivity|apply (L 3); cbn; lia]|].
    apply Forall2_cons;
      [split; [reflexivity|apply (L 45); cbn; lia]|].
    apply Forall2_nil.
  - reflexivity.
  - reflexivity.
Defined.

(** ** A number inside a text *)

Lemma span_digits_app (ds rest : string) :
  all_digits ds = true ->
  match rest with
  | String c _ => isdigit c = false
  | EmptyString => True
  end ->
  span_digits (ds ++ rest) = (ds, rest).
Proof.
  unfold all_digits. intros A R.
  induction ds as [|c r IH]; cbn [append].
  - destruct rest as [|c r]; [reflexivity|].
    cbn [span_digits]. now rewrite R.
  - cbn [list_ascii_of_string forallb] in A.
    apply andb_prop in A as [D A].
    cbn [span_digits]. now rewrite D, (IH A).
Qed.

Lemma re_match_number_digits_then (sign ds rest : string) :
  all_digits ds = true -> ds <> EmptyString ->
  starts_quietly rest = true ->
  (let '(whole_part, s2) := span_digits (ds ++ rest) in
   let whole :=
     if nonempty whole_part then Some (sign ++ whole_part) else None in
   match s2 with
   | String c s3 =>
       if Ascii.eqb c "."
       then let '(fraction, _) := span_digits s3 in
            if nonempty fraction
            then Some (sign ++ whole_part ++ "." ++ fraction)
            else whole
       else whole
   | EmptyString => whole
   end) = Some (sign ++ ds).
Proof.
  intros A NE Q.
  assert (R : match rest with
              | String c _ => isdigit c = false
              | EmptyString => True
              end).
  { destruct rest as [|c r]; [exact I|].
    cbn in Q. apply negb_true_iff, orb_false_iff in Q. tauto. }
  rewrite (span_digits_app ds rest A R).
  assert (N : nonempty ds = true) by now apply nonempty_true.
  rewrite N.
  destruct rest as [|c r]; [reflexivity|].
  cbn in Q. apply negb_true_iff, orb_false_iff in Q as [_ ->]. reflexivity.
Qed.

Lemma re_match_number_numeral_then (n : Z) (rest : string) :
  starts_quietly rest = true ->
  re_match_number (str_of_int n ++ rest) = Some (str_of_int n).
Proof.
  intros Q. unfold re_match_number.
  destruct (Z.ltb_spec n 0) as [N|N].
  - rewrite str_of_int_neg by assumption.
    destruct (str_of_int_nonneg (- n)) as (A & NE & _); [lia|].
    cbn [append Ascii.eqb Bool.eqb orb].
    now apply (re_match_number_digits_then "-" (str_of_int (- n)) rest).
  - destruct (str_of_int_nonneg n N) as (A & NE & _).
    destruct (str_of_int n) as [|c r] eqn:E; [congruence|].
    assert (D : isdigit c = true).
    { unfold all_digits in A. cbn [list_ascii_of_string forallb] in A.
      now apply andb_prop in A as [D _]. }
    apply isdigit_code in D. cbn [append].
    rewrite !code_neq by code_lia. cbn [orb].
    change (String c (r ++ rest)) with (String c r ++ rest).
    now apply (re_match_number_digits_then EmptyString (String c r) rest).
Qed.

(** No match starts inside a text without digits that ends quietly,
    whatever follows the text. *)
Lemma re_match_number_before (c : ascii) (r rest : string) :
  has_digit (String c r) = false -> ends_quietly (String c r) = true ->
  re_match_number (String c r ++ rest) = None.
Proof.
  intros H Q.
  assert (F : forall t, has_digit t = false -> t <> EmptyString ->
                span_digits (t ++ rest) = (EmptyString, t ++ rest)).
  { intros t Ht Nt. destruct t as [|x t']; [congruence|].
    unfold has_digit in Ht. cbn [chars list_ascii_of_string existsb] in Ht.
    apply orb_false_iff in Ht as [D _].
    cbn [append span_digits]. now rewrite D. }
  assert (P : forall x t, has_digit (String x t) = false ->
                ends_quietly (String x t) = true ->
                Ascii.eqb x "." = true ->
                has_digit t = false /\ t <> EmptyString).
  { intros x t Ht Qt Ex. split; [now apply (has_digit_tail x)|].
    intros ->. unfold ends_quietly, sign_or_point in Qt.
    cbn [Spec.last_char] in Qt. rewrite Ex, !orb_true_r in Qt.
    discriminate Qt. }
  unfold re_match_number. cbn [append].
  destruct (Ascii.eqb c "-" || Ascii.eqb c "+") eqn:S.
  - assert (Nr : r <> EmptyString).
    { intros ->. unfold ends_quietly, sign_or_point in Q.
      cbn [Spec.last_char] in Q. rewrite S in Q. discriminate Q. }
    assert (Hr : has_digit r = false) by now apply (has_digit_tail c).
    rewrite (F r Hr Nr). cbn [nonempty].
    destruct r as [|x t]; [congruence|]. cbn [append].
    destruct (Ascii.eqb x ".") eqn:Ex; [|reflexivity].
    assert (Qr : ends_quietly (String x t) = true).
    { unfold ends_quietly in *. cbn [Spec.last_char] in Q. exact Q. }
    destruct (P x t Hr Qr Ex) as [Ht Nt].
    now rewrite (F t Ht Nt).
  - change (String c (r ++ rest)) with (String c r ++ rest).
    rewrite (F (String c r) H) by discriminate. cbn [nonempty append].
    destruct (Ascii.eqb c ".") eqn:Ex; [|reflexivity].
    destruct (P c r H Q Ex) as [Ht Nt].
    now rewrite (F r Ht Nt).
Qed.

Lemma re_search_number_skip (before rest : string) :
  has_digit before = false -> ends_quietly before = true ->
  re_search_number (before ++ rest) = re_search_number rest.
Proof.
  induction before as [|c r IH]; intros H Q; [reflexivity|].
  change (re_search_number (String c r ++ rest))
    with (match re_match_number (String c r ++ rest) with
          | Some m => Some m
          | None => re_search_number (r ++ rest)
          end).
  rewrite (re_match_number_before c r rest H Q).
  apply IH; [now apply (has_digit_tail c)|].
  destruct r as [|x t]; [reflexivity|]. exact Q.
Qed.

(** X21. A number inside a text.  From a text that holds the decimal
    numeral of an integer, after a text without digits that does not end
    with a sign or a point (the reading's name, say) and before a text that
    does not start with a digit or a point (its unit, say),
    [get_numeric_value] extracts the double nearest to that integer. *)
Theorem get_numeric_value_number_in_text (before after : string) (n : Z) :
  has_digit before = false ->
  ends_quietly before = true ->
  starts_quietly after = true ->
  get_numeric_value (VStr (before ++ str_of_int n ++ after))
  = Some (round_int n).
Proof.
  intros H Q S. cbn [get_numeric_value str].
  rewrite (re_search_number_skip before _ H Q).
  assert (M : re_search_number (str_of_int n ++ after)
              = Some (str_of_int n)).
  { pose proof (re_match_number_numeral_then n after S) as M.
    destruct (str_of_int n ++ after); cbn [re_search_number];
      now rewrite M. }
  rewrite M. apply float_of_str_of_int.
Qed.

Lemma get_numeric_value_number_in_text_example :
  get_numeric_value (VStr ("Load: " ++ str_of_int 45 ++ "%"))
  = Some (round_int 45).
Proof.
  apply (get_numeric_value_number_in_text "Load: " "%" 45); reflexivity.
Defined.
